(** * Revenue aggregation of the project dashboard

    A shallow embedding of the aggregation code of
    [frontend/src/components/ProjectCharts.jsx] (monthly expected revenue,
    quarterly roll-up, invoice reconciliation, status distribution) and of
    [createProjectStatusChart] in [static/script.js].

    Conventions of the model:
    - a spreadsheet row is a JavaScript object holding primitive values; it is
      a finite map from property names to [value]s;
    - a JavaScript number is an exact rational or [NaN]. The code computes
      with binary64 numbers; the two agree on a statement that follows the
      additions of the code one by one, in the order the code makes them, and
      they differ where a sum is regrouped or reordered (rounding) and where
      a sum overflows (the infinities). Where rounding decides a statement
      the lines concerned are also given over binary64 numbers, in the
      module [Binary64];
    - an object created by [{}] holds its own properties in a finite map and
      inherits the properties of [Object.prototype];
    - the host functions the component calls but does not define (the [Date]
      constructor, string-to-number and number-to-string conversion, the
      source text printed for a built-in function) are parameters of the
      sections that use them;
    - exceptions and the mutation of the accumulator objects are threaded
      through a small state-and-exception monad. *)

From Stdlib Require Import Ascii QArith Qcanon Qcabs Floats.
From stdpp Require Import base numbers strings list gmap fin_maps pretty countable sorting.

Local Open Scope Z_scope.

(* ===================================================================== *)
(** * Part I: definitions *)
(* ===================================================================== *)

(** ** The fragment of JavaScript used by the component *)
Module JS.

(** Numbers: a finite value or NaN. *)
Inductive number : Type :=
  | Fin (q : Qc)
  | NaN.

(** Primitive values found in parsed spreadsheet rows. *)
Inductive value : Type :=
  | JSUndefined
  | JSNull
  | JSBool (b : bool)
  | JSNum (n : number)
  | JSStr (s : string).

#[global] Instance number_eq_dec : EqDecision number.
Proof. solve_decision. Defined.

#[global] Instance value_eq_dec : EqDecision value.
Proof. solve_decision. Defined.

#[global] Instance number_inhabited : Inhabited number := populate NaN.

Definition number_to_option (n : number) : option Qc :=
  match n with Fin q => Some q | NaN => None end.

Definition number_of_option (o : option Qc) : number :=
  match o with Some q => Fin q | None => NaN end.

#[global] Instance number_countable : Countable number.
Proof.
  apply (inj_countable' number_to_option number_of_option).
  intros []; reflexivity.
Defined.

Definition value_to_sum (v : value) : unit + (unit + (bool + (number + string))) :=
  match v with
  | JSUndefined => inl tt
  | JSNull => inr (inl tt)
  | JSBool b => inr (inr (inl b))
  | JSNum n => inr (inr (inr (inl n)))
  | JSStr s => inr (inr (inr (inr s)))
  end.

Definition value_of_sum (x : unit + (unit + (bool + (number + string)))) : value :=
  match x with
  | inl _ => JSUndefined
  | inr (inl _) => JSNull
  | inr (inr (inl b)) => JSBool b
  | inr (inr (inr (inl n))) => JSNum n
  | inr (inr (inr (inr s))) => JSStr s
  end.

#[global] Instance value_countable : Countable value.
Proof.
  apply (inj_countable' value_to_sum value_of_sum).
  intros []; reflexivity.
Defined.

(** An integer literal as a number. *)
Definition int (z : Z) : number := Fin (Qc_of_Z z).

(** [a + b] on numbers. *)
Definition num_add (a b : number) : number :=
  match a, b with
  | Fin x, Fin y => Fin (x + y)%Qc
  | _, _ => NaN
  end.

(** [a - b] on numbers. *)
Definition num_sub (a b : number) : number :=
  match a, b with
  | Fin x, Fin y => Fin (x - y)%Qc
  | _, _ => NaN
  end.

(** [-a]. *)
Definition num_neg (a : number) : number :=
  match a with
  | Fin x => Fin (- x)%Qc
  | NaN => NaN
  end.

(** [Math.abs(a)]. *)
Definition Math_abs (a : number) : number :=
  match a with
  | Fin x => Fin (Qcabs x)
  | NaN => NaN
  end.

(** [a > b], [a <= b], [a >= b]: every comparison with NaN is false. *)
Definition num_gt (a b : number) : bool :=
  match a, b with
  | Fin x, Fin y => bool_decide (y < x)%Qc
  | _, _ => false
  end.

Definition num_le (a b : number) : bool :=
  match a, b with
  | Fin x, Fin y => bool_decide (x ≤ y)%Qc
  | _, _ => false
  end.

Definition num_ge (a b : number) : bool := num_le b a.

(** [isNaN] on a number. *)
Definition num_isNaN (a : number) : bool :=
  match a with
  | Fin _ => false
  | NaN => true
  end.

(** ToBoolean. *)
Definition truthy (v : value) : bool :=
  match v with
  | JSUndefined | JSNull => false
  | JSBool b => b
  | JSNum (Fin q) => negb (bool_decide (q = 0%Qc))
  | JSNum NaN => false
  | JSStr s => negb (bool_decide (s = ""))
  end.

(** [a || b]. *)
Definition js_or (a b : value) : value := if truthy a then a else b.

(** [a === b]: same type and same value, NaN being different from itself. *)
Definition strict_eq (a b : value) : bool :=
  match a, b with
  | JSNum NaN, _ | _, JSNum NaN => false
  | _, _ => bool_decide (a = b)
  end.

(** Objects: a row maps property names to values; reading a property that is
    not there gives [undefined]. *)
Definition get (o : gmap string value) (k : string) : value :=
  default JSUndefined (o !! k).

(** [k in o]. *)
Definition has_property (o : gmap string value) (k : string) : bool :=
  bool_decide (is_Some (o !! k)).

(** [o[k] += v] on an object whose properties are numbers: a property that is
    not there reads as [undefined], and [undefined + v] is NaN. *)
Definition add_assign (o : gmap string number) (k : string) (v : number)
  : gmap string number :=
  <[k := num_add (default NaN (o !! k)) v]> o.

(** Reading [o[k]] where a number is expected. *)
Definition get_number (o : gmap string number) (k : string) : number :=
  default NaN (o !! k).

(** Reading [a[i]] of an array of numbers where a number is expected (array
    destructuring, arithmetic on an element). *)
Definition nth_number (a : list number) (i : nat) : number :=
  default NaN (a !! i).

(** *** Counting into an object literal

    An object created by [{}] inherits from [Object.prototype]: reading
    [o[k]] gives the property [k] of [o] itself when there is one, and
    otherwise the property of that name of [Object.prototype], or
    [undefined] when that has none either. *)

(** The properties of [Object.prototype] that are functions. *)
Definition Object_prototype_methods : list string :=
  ["constructor"; "hasOwnProperty"; "isPrototypeOf"; "propertyIsEnumerable";
   "toLocaleString"; "toString"; "valueOf";
   "__defineGetter__"; "__defineSetter__"; "__lookupGetter__"; "__lookupSetter__"].

(** [v + 1]: concatenation when [v] is a string, addition of numbers
    otherwise. *)
Definition plus_one (v : value) : value :=
  match v with
  | JSStr s => JSStr (s +:+ "1")
  | JSNum n => JSNum (num_add n (int 1))
  | JSBool b => JSNum (num_add (if b then int 1 else int 0) (int 1))
  | JSNull => JSNum (num_add (int 0) (int 1))
  | JSUndefined => JSNum NaN
  end.

Section Objects.
(** The source text the host prints for the built-in method of
    [Object.prototype] of a given name. *)
Variable FunctionToString : string → string.

(** [o[k] = (o[k] || 0) + 1] on an object [o] created by [{}], the map being
    its own properties.
    - [k] is ["__proto__"]: the inherited accessor is read and gives the
      prototype, an object, which is truthy; adding 1 to it gives a string,
      and the inherited setter ignores a value that is neither an object nor
      [null]: nothing is stored.
    - [o] has its own property [k]: its value is read.
    - [k] names a method of [Object.prototype]: the function is truthy, and
      adding 1 to it concatenates its source text and ["1"]; the string
      becomes a property of [o] itself.
    - Otherwise [o[k]] is [undefined], and 0 + 1 is stored. *)
Definition count_up (o : gmap string value) (k : string) : gmap string value :=
  if bool_decide (k = "__proto__") then o
  else
    match o !! k with
    | Some own => <[k := plus_one (js_or own (JSNum (int 0)))]> o
    | None =>
        if bool_decide (k ∈ Object_prototype_methods)
        then <[k := JSStr (FunctionToString k +:+ "1")]> o
        else <[k := JSNum (num_add (int 0) (int 1))]> o
    end.
End Objects.

(** *** Strings *)

Definition is_digit (c : ascii) : bool :=
  (48 <=? nat_of_ascii c)%nat && (nat_of_ascii c <=? 57)%nat.

Definition digit_value (c : ascii) : Z := Z.of_nat (nat_of_ascii c - 48).

(** [s.replace(/[^0-9.-]+/g, '')]: every character that is not a digit, a dot
    or a hyphen is removed. *)
Fixpoint replace_non_numeric (s : string) : string :=
  match s with
  | EmptyString => EmptyString
  | String c r =>
      if is_digit c || Ascii.eqb c "." || Ascii.eqb c "-"
      then String c (replace_non_numeric r)
      else replace_non_numeric r
  end.

(** The longest prefix of decimal digits, read as an integer starting from
    [acc], with the number of digits read and the remaining string. *)
Fixpoint read_digits (acc : Z) (n : nat) (s : string) : Z * nat * string :=
  match s with
  | String c r =>
      if is_digit c then read_digits (10 * acc + digit_value c) (S n) r
      else (acc, n, s)
  | EmptyString => (acc, n, s)
  end.

Definition decimal (mantissa : Z) (fraction_digits : nat) : Qc :=
  Q2Qc (mantissa # Z.to_pos (10 ^ Z.of_nat fraction_digits)).

(** An unsigned decimal literal at the start of [s]: digits, then optionally
    a dot and more digits; at least one digit is required. *)
Definition parse_unsigned (s : string) : option Qc :=
  let '(ip, n1, r) := read_digits 0 0 s in
  match r with
  | String "." r' =>
      let '(m, n, _) := read_digits ip 0 r' in
      if bool_decide (n1 = 0%nat) && bool_decide (n = 0%nat) then None
      else Some (decimal m n)
  | _ => if bool_decide (n1 = 0%nat) then None else Some (decimal ip 0)
  end.

(** [parseFloat(s)] on the strings that reach it here, the results of
    [replace_non_numeric]: words over digits, dots and hyphens, in which a
    decimal literal has no exponent, no leading blank and no plus sign. The
    longest prefix that is a literal is read; NaN when there is none. *)
Definition parseFloat (s : string) : number :=
  match s with
  | String "-" r => num_neg (number_of_option (parse_unsigned r))
  | _ => number_of_option (parse_unsigned s)
  end.

(** *** Abrupt completion and mutable accumulators

    A computation reads and updates an accumulator of type [S] and either
    completes normally with a result or throws; what it wrote before
    throwing stays written. *)
Inductive completion (A : Type) : Type :=
  | Normal (a : A)
  | Thrown (error : string).
Arguments Normal {A} a.
Arguments Thrown {A} error.

Definition Eff (S A : Type) : Type := S → completion A * S.

Definition eff_ret {S A} (a : A) : Eff S A := λ s, (Normal a, s).

Definition eff_bind {S A B} (c : Eff S A) (k : A → Eff S B) : Eff S B :=
  λ s, match c s with
       | (Normal a, s') => k a s'
       | (Thrown e, s') => (Thrown e, s')
       end.

Definition throw {S A} (e : string) : Eff S A := λ s, (Thrown e, s).

Definition modify {S} (f : S → S) : Eff S unit := λ s, (Normal tt, f s).

(** [try { c } catch (error) { console.error(...) }]: the accumulator as the
    body left it. *)
Definition try_catch {S} (c : Eff S unit) (s : S) : S := (c s).2.

#[global] Instance eff_mret {S} : MRet (Eff S) := λ A, @eff_ret S A.
#[global] Instance eff_mbind {S} : MBind (Eff S) := λ A B k c, @eff_bind S A B c k.

(** [s.substring(0, n)]: a method of strings only; calling it on any other
    value that passed a truthiness test is a TypeError. *)
Definition substring_0 {S} (n : nat) (v : value) : Eff S string :=
  match v with
  | JSStr s => mret (String.substring 0 n s)
  | _ => throw "TypeError: substring is not a function"
  end.

(** [arr.forEach(f)] for a callback that updates an accumulator and does not
    let an exception escape. *)
Definition forEach {A S} (f : A → S → S) (arr : list A) (s : S) : S :=
  foldl (λ acc x, f x acc) s arr.

(** The result of [new Date(v)] as far as the component looks at it. *)
Record Date : Type := mkDate {
  getFullYear : Z;
  getMonth : Z
}.

Section Conversions.
(** String-to-number and number-to-string conversion of the host. *)
Variable StringToNumber : string → number.
Variable NumberToString : number → string.

(** ToNumber. *)
Definition ToNumber (v : value) : number :=
  match v with
  | JSUndefined => NaN
  | JSNull => int 0
  | JSBool b => if b then int 1 else int 0
  | JSNum n => n
  | JSStr s => StringToNumber s
  end.

(** The global [isNaN(v)]. *)
Definition isNaN (v : value) : bool := num_isNaN (ToNumber v).

(** [v >= n] and [v <= n] against a number. *)
Definition js_ge (v : value) (n : number) : bool := num_ge (ToNumber v) n.
Definition js_le (v : value) (n : number) : bool := num_le (ToNumber v) n.

(** [String(v)]. *)
Definition ToString (v : value) : string :=
  match v with
  | JSUndefined => "undefined"
  | JSNull => "null"
  | JSBool b => if b then "true" else "false"
  | JSNum n => NumberToString n
  | JSStr s => s
  end.
End Conversions.

End JS.

(** ** The chart component, [ProjectCharts.jsx] *)
Module ProjectCharts.
Import JS.

Abbreviation row := (gmap string value).

(** The [monthlyData] and [quarterlyData] state objects; the second field of
    [quarterlyData] is also called [cumulativeRevenue] in the source. *)
Record MonthlyData : Type := mkMonthlyData {
  monthlyRevenue : list number;
  cumulativeRevenue : list number
}.

Record QuarterlyData : Type := mkQuarterlyData {
  quarterlyRevenue : list number;
  cumulativeQuarterly : list number
}.

(** The React state of the component ([useState] at lines 14-26);
    [monthlyPayments] is the one field of [monthlyInvoiceData]. *)
Record State : Type := mkState {
  selectedYear : Z;
  selectedYearQuarterly : Z;
  monthlyData : MonthlyData;
  monthlyPayments : list number;
  quarterlyData : QuarterlyData
}.

Definition initial_state (defaultYear : Z) : State :=
  {| selectedYear := defaultYear;
     selectedYearQuarterly := defaultYear;
     monthlyData := mkMonthlyData [] [];
     monthlyPayments := [];
     quarterlyData := mkQuarterlyData [] [] |}.

Definition setMonthlyData (d : MonthlyData) (st : State) : State :=
  {| selectedYear := selectedYear st;
     selectedYearQuarterly := selectedYearQuarterly st;
     monthlyData := d;
     monthlyPayments := monthlyPayments st;
     quarterlyData := quarterlyData st |}.

Definition setMonthlyInvoiceData (p : list number) (st : State) : State :=
  {| selectedYear := selectedYear st;
     selectedYearQuarterly := selectedYearQuarterly st;
     monthlyData := monthlyData st;
     monthlyPayments := p;
     quarterlyData := quarterlyData st |}.

Definition setQuarterlyData (d : QuarterlyData) (st : State) : State :=
  {| selectedYear := selectedYear st;
     selectedYearQuarterly := selectedYearQuarterly st;
     monthlyData := monthlyData st;
     monthlyPayments := monthlyPayments st;
     quarterlyData := d |}.

Definition setSelectedYear (y : Z) (st : State) : State :=
  {| selectedYear := y;
     selectedYearQuarterly := selectedYearQuarterly st;
     monthlyData := monthlyData st;
     monthlyPayments := monthlyPayments st;
     quarterlyData := quarterlyData st |}.

Definition setSelectedYearQuarterly (y : Z) (st : State) : State :=
  {| selectedYear := selectedYear st;
     selectedYearQuarterly := y;
     monthlyData := monthlyData st;
     monthlyPayments := monthlyPayments st;
     quarterlyData := quarterlyData st |}.

Definition months : list string :=
  ["Jan"; "Feb"; "Mar"; "Apr"; "May"; "Jun";
   "Jul"; "Aug"; "Sep"; "Oct"; "Nov"; "Dec"].

(** The object literal [monthNumbers], in the order of its keys. *)
Definition monthNumbers : list (string * Z) :=
  [("Jan", 1); ("Feb", 2); ("Mar", 3); ("Apr", 4); ("May", 5); ("Jun", 6);
   ("Jul", 7); ("Aug", 8); ("Sep", 9); ("Oct", 10); ("Nov", 11); ("Dec", 12)].

(** [Object.keys(monthNumbers).find(key => monthNumbers[key] === v)]. *)
Definition find_month (v : value) : option string :=
  fst <$> List.find (λ kv, strict_eq (JSNum (int kv.2)) v) monthNumbers.

(** *** [calculateMonthlyData], lines 37-207 *)

(** The body of [data.forEach] at lines 47-57, on the pair of [seen] and
    [uniqueData]. *)
Definition dedup_callback (project : row) (acc : gset value * list row)
  : gset value * list row :=
  let '(seen, uniqueData) := acc in
  let projectCode := get project "Project Code" in
  if truthy projectCode && negb (bool_decide (projectCode ∈ seen)) then
    ({[projectCode]} ∪ seen, uniqueData ++ [project])
  else if negb (truthy projectCode) then
    (seen, uniqueData ++ [project])
  else (seen, uniqueData).

Definition uniqueData (data : list row) : list row :=
  (forEach dedup_callback data (∅, [])).2.

(** [monthlyTotals] after lines 80-83: every month is set to 0. *)
Definition zero_totals : gmap string number :=
  forEach (λ month o, <[month := int 0]> o) months ∅.

(** The template literal [`${selectedYear} ${month}`]. *)
Definition exactFieldName (selectedYear : Z) (month : string) : string :=
  pretty selectedYear +:+ " " +:+ month.

(** The body of [months.forEach] at lines 98-121. *)
Definition month_callback (selectedYear : Z) (project : row) (month : string)
    (monthlyTotals : gmap string number) : gmap string number :=
  let name := exactFieldName selectedYear month in
  if has_property project name then
    match get project name with
    | JSNum v => add_assign monthlyTotals month v
    | _ => monthlyTotals
    end
  else monthlyTotals.

(** [monthlyTotals] after [workingData.forEach] at lines 94-122. *)
Definition monthlyTotals (selectedYear : Z) (workingData : list row)
  : gmap string number :=
  forEach (λ project, forEach (month_callback selectedYear project) months)
          workingData zero_totals.

(** [months.map(month => totals[month])], lines 154 and 319. *)
Definition months_map (totals : gmap string number) : list number :=
  get_number totals <$> months.

(** The running-total loop of lines 157-162 (and 177-182, 359-364) on the
    pair of [runningTotal] and the array being filled. *)
Definition running_callback (revenue : number) (acc : number * list number)
  : number * list number :=
  let runningTotal := num_add acc.1 revenue in
  (runningTotal, acc.2 ++ [runningTotal]).

Definition running_totals (revenues : list number) : list number :=
  (forEach running_callback revenues (int 0, [])).2.

(** [correctValues], line 172. *)
Definition correctValues : list number :=
  int <$> [243500; 683500; 1512768; 619640; 891476; 1341405;
           1020506; 1263522; 881522; 1664908; 1031088; 1887836].

(** The arrays [monthlyRevenue] and [cumulativeRevenue] computed at lines
    154-162, before the test of line 170. *)
Definition computed_monthly (selectedYear : Z) (data : list row) : MonthlyData :=
  let workingData := uniqueData data in
  let monthlyRevenue := months_map (monthlyTotals selectedYear workingData) in
  mkMonthlyData monthlyRevenue (running_totals monthlyRevenue).

(** The test of line 170. *)
Definition emergency_override (selectedYear : Z) (monthlyRevenue : list number) : bool :=
  bool_decide (selectedYear = 2025) &&
  num_gt (Math_abs (num_sub (nth_number monthlyRevenue 0) (int 243500))) (int 10000).

(** The whole callback: nothing happens on an empty [data]; otherwise
    [monthlyData] is set, to the literal values when the test of line 170
    succeeds and to the computed arrays when it fails. *)
Definition calculateMonthlyData (data : list row) (st : State) : State :=
  match data with
  | [] => st
  | _ :: _ =>
      let computed := computed_monthly (selectedYear st) data in
      if emergency_override (selectedYear st) (monthlyRevenue computed) then
        let correctedMonthlyRevenue := correctValues in
        setMonthlyData
          (mkMonthlyData correctedMonthlyRevenue
                         (running_totals correctedMonthlyRevenue)) st
      else setMonthlyData computed st
  end.

(** *** [calculateQuarterlyData], lines 325-372 *)

(** The array literal of lines 340-349 after the destructuring of line 337. *)
Definition quarterly_of (monthlyRevenue : list number) : list number :=
  let m := nth_number monthlyRevenue in
  [num_add (num_add (m 0%nat) (m 1%nat)) (m 2%nat);
   num_add (num_add (m 3%nat) (m 4%nat)) (m 5%nat);
   num_add (num_add (m 6%nat) (m 7%nat)) (m 8%nat);
   num_add (num_add (m 9%nat) (m 10%nat)) (m 11%nat)].

Definition calculateQuarterlyData (st : State) : State :=
  match monthlyRevenue (monthlyData st) with
  | [] => st
  | _ :: _ =>
      let quarterlyRevenue := quarterly_of (monthlyRevenue (monthlyData st)) in
      setQuarterlyData
        (mkQuarterlyData quarterlyRevenue (running_totals quarterlyRevenue)) st
  end.

Section Host.
(** The host: [new Date(v)] gives [None] for an invalid date (one whose
    [getTime()] is NaN); [getFullYear] and [getMonth] are the local-time
    year and zero-based month of a valid one. *)
Variable new_Date : value → option Date.
Variable StringToNumber : string → number.
Variable NumberToString : number → string.
Variable FunctionToString : string → string.

(** *** [calculateInvoiceData], lines 210-322 *)

(** Lines 241-255: [invoiceDate] stays [undefined] without a truthy
    [invoice_date] and becomes [null] for an invalid one;
    both fail the later test [invoiceDate && ...]. *)
Definition invoiceDate_of (invoice : row) : option Date :=
  if truthy (get invoice "invoice_date")
  then new_Date (get invoice "invoice_date")
  else None.

(** Lines 258-260. *)
Definition paymentAmount_of (invoice : row) : number :=
  match get invoice "payment_amount_usd" with
  | JSNum n => n
  | raw =>
      let parsed :=
        parseFloat (replace_non_numeric
                      (ToString NumberToString (js_or raw (JSStr "0")))) in
      if truthy (JSNum parsed) then parsed else int 0
  end.

(** [monthlyPayments[month] += paymentAmount]. *)
Definition add_payment (month : string) (paymentAmount : number)
  : Eff (gmap string number) unit :=
  modify (λ monthlyPayments, add_assign monthlyPayments month paymentAmount).

(** Lines 275-287: the month and year fields; the result is [monthAdded]. *)
Definition by_month_year (selectedYear : Z) (invoice : row) (paymentAmount : number)
  : Eff (gmap string number) bool :=
  let invoiceMonth := get invoice "invoice_month" in
  let invoiceYear := get invoice "invoice_year" in
  if negb (isNaN StringToNumber invoiceMonth) &&
     negb (isNaN StringToNumber invoiceYear) &&
     js_ge StringToNumber invoiceMonth (int 1) &&
     js_le StringToNumber invoiceMonth (int 12) &&
     strict_eq invoiceYear (JSNum (int selectedYear))
  then
    match find_month invoiceMonth with
    | Some month =>
        if truthy (JSStr month)
        then add_payment month paymentAmount ;; mret true
        else mret false
    | None => mret false
    end
  else mret false.

(** Lines 290-300: the parsed date; [monthAdded] is not assigned here. *)
Definition by_date (selectedYear : Z) (invoiceDate : option Date)
    (monthAdded : bool) (paymentAmount : number)
  : Eff (gmap string number) unit :=
  match invoiceDate with
  | Some d =>
      if negb monthAdded && bool_decide (getFullYear d = selectedYear) then
        let monthNumber := getMonth d + 1 in
        match find_month (JSNum (int monthNumber)) with
        | Some month =>
            if truthy (JSStr month) then add_payment month paymentAmount
            else mret tt
        | None => mret tt
        end
      else mret tt
  | None => mret tt
  end.

(** Lines 303-309: the month name. *)
Definition by_month_name (selectedYear : Z) (invoice : row)
    (monthAdded : bool) (paymentAmount : number)
  : Eff (gmap string number) unit :=
  if negb monthAdded && truthy (get invoice "invoice_month_name") then
    month ← substring_0 3 (get invoice "invoice_month_name");
    if bool_decide (month ∈ months) &&
       (negb (truthy (get invoice "invoice_year")) ||
        strict_eq (get invoice "invoice_year") (JSNum (int selectedYear)))
    then add_payment month paymentAmount
    else mret tt
  else mret tt.

(** The body of the [try] block, lines 234-309. An entry of [invoiceData]
    that is [null] or [undefined] is [None]. *)
Definition invoice_body (selectedYear : Z) (invoice : option row)
  : Eff (gmap string number) unit :=
  match invoice with
  | None => mret tt
  | Some invoice =>
      if negb (truthy (get invoice "payment_amount_usd")) then mret tt
      else
        let invoiceDate := invoiceDate_of invoice in
        let paymentAmount := paymentAmount_of invoice in
        if num_isNaN paymentAmount || num_le paymentAmount (int 0) then mret tt
        else
          monthAdded ← by_month_year selectedYear invoice paymentAmount;
          by_date selectedYear invoiceDate monthAdded paymentAmount ;;
          by_month_name selectedYear invoice monthAdded paymentAmount
  end.

(** The callback of [invoiceData.forEach], lines 232-313. *)
Definition invoice_callback (selectedYear : Z) (invoice : option row)
    (monthlyPayments : gmap string number) : gmap string number :=
  try_catch (invoice_body selectedYear invoice) monthlyPayments.

(** [monthlyPayments] after the loop. *)
Definition payment_totals (selectedYear : Z) (invoiceData : list (option row))
  : gmap string number :=
  forEach (invoice_callback selectedYear) invoiceData zero_totals.

Definition calculateInvoiceData (invoiceData : list (option row)) (st : State)
  : State :=
  match invoiceData with
  | [] => st
  | _ :: _ =>
      let monthlyPaymentsArray :=
        months_map (payment_totals (selectedYear st) invoiceData) in
      setMonthlyInvoiceData monthlyPaymentsArray st
  end.

(** *** The render-time helpers, lines 537-566 *)

Definition parsePaymentAmount (v : value) : number :=
  match v with
  | JSNum n => n
  | JSStr s =>
      let cleanValue := replace_non_numeric s in
      let parsed := parseFloat cleanValue in
      if num_isNaN parsed then int 0 else parsed
  | _ => int 0
  end.

(** The status of a project, line 560. *)
Definition status_of (project : row) : string :=
  ToString NumberToString (js_or (get project "Project Status") (JSStr "Unknown")).

(** [data.reduce(..., {})], lines 559-563: the reduction runs over the
    uploaded rows [data] as they are. *)
Definition statusCounts (data : list row) : gmap string value :=
  foldl (λ acc project,
           let status := status_of project in
           count_up FunctionToString acc status)
        ∅ data.

(** *** The effects, lines 374-384

    The monthly effect runs when [data] or [selectedYear] changes, the
    quarterly effect when [monthlyData] or [selectedYearQuarterly]
    changes. After a change the component settles with [monthlyData] as
    the monthly callback set it and [quarterlyData] as the quarterly
    callback computed it from that [monthlyData]. *)
Definition settle (data : list row) (invoiceData : list (option row))
    (st : State) : State :=
  calculateQuarterlyData
    (calculateInvoiceData invoiceData (calculateMonthlyData data st)).
End Host.

End ProjectCharts.

(** ** The quarterly roll-up over binary64 numbers

    Lines 337-364 of [calculateQuarterlyData] and the running-total loop of
    lines 157-162 once more, with the arithmetic the program runs on: the
    kernel's binary64 numbers, whose addition rounds to nearest as that of
    JavaScript does. *)
Module Binary64.

(** Reading [a[i]] where a number is expected: [undefined] takes part in an
    addition as NaN. *)
Definition nth_number (a : list float) (i : nat) : float :=
  default nan (a !! i).

(** The array literal of lines 340-349 after the destructuring of line 337. *)
Definition quarterly_of (monthlyRevenue : list float) : list float :=
  let m := nth_number monthlyRevenue in
  [(m 0%nat + m 1%nat + m 2%nat)%float;
   (m 3%nat + m 4%nat + m 5%nat)%float;
   (m 6%nat + m 7%nat + m 8%nat)%float;
   (m 9%nat + m 10%nat + m 11%nat)%float].

(** The running-total loop of lines 157-162 and 359-364. *)
Definition running_callback (revenue : float) (acc : float * list float)
  : float * list float :=
  let runningTotal := (acc.1 + revenue)%float in
  (runningTotal, acc.2 ++ [runningTotal]).

Definition running_totals (revenues : list float) : list float :=
  (JS.forEach running_callback revenues (0%float, [])).2.

#[local] Set Warnings "-inexact-float".

(** A monthly array with 0.7 in January, 0.1 in February, 0.1 in April and
    0.2 in May. *)
Definition tenths : list float :=
  [0.7; 0.1; 0; 0.1; 0.2; 0; 0; 0; 0; 0; 0; 0]%float.

(** The numbers that print as 1.1 and as 1.0999999999999999. *)
Definition one_point_one : float := 1.1%float.
Definition just_below_one_point_one : float := 1.0999999999999999%float.

#[local] Set Warnings "+inexact-float".

End Binary64.

(** ** The status chart of [static/script.js], lines 395-410 *)
Module Script.
Import JS.

Section Host.
Variable NumberToString : number → string.
Variable FunctionToString : string → string.

(** The object [statusCounts] that [createProjectStatusChart] hands to the
    plot; the year selector passes [selectedYear] as a string. A status is
    used as a property name, that is, in its printed form. *)
Definition createProjectStatusChart (projectData : list (gmap string value))
    (selectedYear : string) : gmap string value :=
  let filteredData :=
    if bool_decide (selectedYear = "all") then projectData
    else
      List.filter
        (λ project,
           let projectYear := get project "Year" in
           truthy projectYear &&
           bool_decide (ToString NumberToString projectYear = selectedYear))
        projectData in
  forEach
    (λ project statusCounts,
       let status := js_or (get project "Project Status") (JSStr "Unknown") in
       count_up FunctionToString statusCounts (ToString NumberToString status))
    filteredData ∅.
End Host.

End Script.

(** ** A host for the worked examples

    It implements the host functions on the inputs the examples use and
    nowhere else: date-only ISO strings [YYYY-MM-DD] with a day from 01 to
    28 (read where the local date is the written one), strings of decimal
    digits, and integers. *)
Module ExampleHost.
Import JS.

Definition two_digits (s : string) : option Z :=
  match s with
  | String a (String b EmptyString) =>
      if is_digit a && is_digit b then Some (10 * digit_value a + digit_value b)
      else None
  | _ => None
  end.

Definition four_digits (s : string) : option Z :=
  match two_digits (String.substring 0 2 s), two_digits (String.substring 2 2 s) with
  | Some h, Some l => if bool_decide (String.length s = 4%nat) then Some (100 * h + l) else None
  | _, _ => None
  end.

Definition new_Date (v : value) : option Date :=
  match v with
  | JSStr s =>
      if bool_decide (String.length s = 10%nat) &&
         bool_decide (String.substring 4 1 s = "-") &&
         bool_decide (String.substring 7 1 s = "-")
      then
        match four_digits (String.substring 0 4 s),
              two_digits (String.substring 5 2 s),
              two_digits (String.substring 8 2 s) with
        | Some y, Some m, Some d =>
            if bool_decide (1 ≤ m ≤ 12) && bool_decide (1 ≤ d ≤ 28)
            then Some (mkDate y (m - 1)) else None
        | _, _, _ => None
        end
      else None
  | _ => None
  end.

Definition StringToNumber (s : string) : number :=
  match read_digits 0 0 s with
  | (z, _, EmptyString) => int z
  | _ => NaN
  end.

Definition NumberToString (n : number) : string :=
  match n with
  | NaN => "NaN"
  | Fin q => pretty (Qnum q)
  end.

(** The source text of a method of [Object.prototype] as the common
    engines print it; the property [constructor] holds the function
    [Object]. *)
Definition FunctionToString (name : string) : string :=
  "function " +:+ (if bool_decide (name = "constructor") then "Object" else name)
  +:+ "() { [native code] }".

End ExampleHost.

(** ** Vocabulary of the statements *)
Module Spec.
Import JS ProjectCharts.

(** The sum of a list of numbers. *)
Definition num_sum (l : list number) : number := foldr num_add (int 0) l.

(** What a record contributes through the field called [name]: its value when
    it is a number, and 0 when the field is absent or holds anything else. *)
Definition numeric_field (name : string) (project : row) : number :=
  match project !! name with
  | Some (JSNum v) => v
  | _ => int 0
  end.

(** The project code of a record. *)
Definition project_code (project : row) : value := get project "Project Code".


(** The sums of the consecutive blocks of three entries of a year. *)
Definition quarter_sums (l : list number) : list number :=
  (λ k, num_sum (take 3 (drop (3 * k) l))) <$> seq 0 4.

(** The sum of a list as a loop accumulates it with [total += x]: from 0,
    the entries being added one by one from the left. *)
Definition sum_left (l : list number) : number := foldl num_add (int 0) l.

(** The left-to-right sums of the consecutive blocks of three entries. *)
Definition quarter_sums_left (l : list number) : list number :=
  (λ k, sum_left (take 3 (drop (3 * k) l))) <$> seq 0 4.

Section Invoices.
Variable new_Date : value → option Date.
Variable StringToNumber : string → number.
Variable NumberToString : number → string.

(** An entry of the invoice list without a usable amount: it is [null], or
    its amount is missing or falsy, or the amount read from it is NaN or
    not positive. *)
Definition unusable_amount (invoice : option row) : Prop :=
  match invoice with
  | None => True
  | Some inv =>
      truthy (get inv "payment_amount_usd") = false
      ∨ num_isNaN (paymentAmount_of NumberToString inv) = true
      ∨ num_le (paymentAmount_of NumberToString inv) (int 0) = true
  end.
End Invoices.

End Spec.

(** ** Data of the worked examples *)
Module Examples.
Import JS ProjectCharts.

(** Two records with the project code P1: 100 and then 900 for January 2025. *)
Definition two_P1 : list row :=
  [ {[ "Project Code" := JSStr "P1"; "2025 Jan" := JSNum (int 100) ]};
    {[ "Project Code" := JSStr "P1"; "2025 Jan" := JSNum (int 900) ]} ].

(** One record with a January value for each of the two selectable years. *)
Definition two_years : list row :=
  [ {[ "Project Code" := JSStr "P1";
       "2024 Jan" := JSNum (int 100);
       "2025 Jan" := JSNum (int 243500) ]} ].

(** An invoice of 300 dated in March 2025 that also names its month. *)
Definition dated_and_named : row :=
  {[ "payment_amount_usd" := JSNum (int 300);
     "invoice_date" := JSStr "2025-03-15";
     "invoice_month_name" := JSStr "March" ]}.

(** An invoice of 300 dated in March 2025 whose month name says April. *)
Definition dated_march_named_april : row :=
  {[ "payment_amount_usd" := JSNum (int 300);
     "invoice_date" := JSStr "2025-03-15";
     "invoice_month_name" := JSStr "April" ]}.

(** An invoice whose amount is not positive. *)
Definition refund : row :=
  {[ "payment_amount_usd" := JSStr "-5";
     "invoice_date" := JSStr "2025-03-15" ]}.

(** An invoice of 300 whose month name is the number 5. *)
Definition numbered_month_name : row :=
  {[ "payment_amount_usd" := JSNum (int 300);
     "invoice_month_name" := JSNum (int 5) ]}.

(** An invoice of 300 that only names its month. *)
Definition named_only : row :=
  {[ "payment_amount_usd" := JSNum (int 300);
     "invoice_month_name" := JSStr "March" ]}.

(** Three projects: two active ones and one without a status. *)
Definition three_projects : list row :=
  [ {[ "Project Status" := JSStr "Active" ]};
    {[ "Project Status" := JSStr "Active" ]};
    ∅ ].

(** Two records with the project code P1: 100 and then 900 for January
    2024. *)
Definition two_P1_2024 : list row :=
  [ {[ "Project Code" := JSStr "P1"; "2024 Jan" := JSNum (int 100) ]};
    {[ "Project Code" := JSStr "P1"; "2024 Jan" := JSNum (int 900) ]} ].

(** Two records with the project code P1: 240000 and then 900 for January
    2025. *)
Definition two_P1_near : list row :=
  [ {[ "Project Code" := JSStr "P1"; "2025 Jan" := JSNum (int 240000) ]};
    {[ "Project Code" := JSStr "P1"; "2025 Jan" := JSNum (int 900) ]} ].

(** One record with 50000 for January 2025 and 7 for February 2025. *)
Definition low_january : list row :=
  [ {[ "Project Code" := JSStr "P1";
       "2025 Jan" := JSNum (int 50000);
       "2025 Feb" := JSNum (int 7) ]} ].

(** One record with 7 for January 2024, the text "n/a" for February 2024
    and no other month. *)
Definition sparse_2024 : list row :=
  [ {[ "Project Code" := JSStr "P1";
       "2024 Jan" := JSNum (int 7);
       "2024 Feb" := JSStr "n/a" ]} ].

(** The same active project uploaded twice. *)
Definition two_active_P1 : list row :=
  [ {[ "Project Code" := JSStr "P1"; "Project Status" := JSStr "Active" ]};
    {[ "Project Code" := JSStr "P1"; "Project Status" := JSStr "Active" ]} ].

(** A project whose status is the word "constructor", and one whose status
    is "__proto__". *)
Definition constructor_status : row :=
  {[ "Project Status" := JSStr "constructor" ]}.

Definition proto_status : row :=
  {[ "Project Status" := JSStr "__proto__" ]}.

(** An invoice of 300 dated in April 2025 whose month name is the number
    5. *)
Definition dated_april_numbered_name : row :=
  {[ "payment_amount_usd" := JSNum (int 300);
     "invoice_date" := JSStr "2025-04-15";
     "invoice_month_name" := JSNum (int 5) ]}.

End Examples.

(** ** Further vocabulary *)
Module Vocabulary.
Import JS ProjectCharts Spec.

(** The truthy project codes of a list of records, in order. *)
Definition truthy_codes (l : list row) : list value :=
  filter (λ v, truthy v = true) (project_code <$> l).

(** A property name that an object created by [{}] does not inherit. *)
Definition ordinary_key (k : string) : Prop :=
  k ≠ "__proto__" ∧ k ∉ Object_prototype_methods.

#[global] Instance ordinary_key_dec (k : string) : Decision (ordinary_key k).
Proof. unfold ordinary_key. apply _. Defined.

(** A count as the number a chart is handed. *)
Definition count_value (n : nat) : value := JSNum (int (Z.of_nat n)).

(** How many times each string occurs in a list. *)
Definition occurrences (l : list string) : gmap string nat :=
  foldl (λ acc s, <[s := S (default 0%nat (acc !! s))]> acc) ∅ l.

(** The sum of the counts of a distribution. *)
Definition total_count (m : gmap string nat) : nat :=
  map_fold (λ _ n acc, (n + acc)%nat) 0%nat m.

(** An invoice that only its date places: a positive numeric amount, a
    truthy date that the host reads as a day of 2025, no month number and no
    truthy month name. *)
Definition placed_by_date_2025 (new_Date : value → option Date)
    (invoice : option row) : Prop :=
  ∃ (inv : row) (q : Qc) (d : Date),
    invoice = Some inv
    ∧ inv !! "payment_amount_usd" = Some (JSNum (Fin q)) ∧ (0 < q)%Qc
    ∧ truthy (get inv "invoice_date") = true
    ∧ new_Date (get inv "invoice_date") = Some d ∧ getFullYear d = 2025
    ∧ inv !! "invoice_month" = None
    ∧ truthy (get inv "invoice_month_name") = false.

End Vocabulary.

(** ** More worked data *)
Module MoreExamples.
Import JS ProjectCharts.

(** An invoice of 300 whose month and year fields say March 2025, whose
    date is in April 2025 and whose month name says May. *)
Definition fully_labelled : row :=
  {[ "payment_amount_usd" := JSNum (int 300);
     "invoice_year" := JSNum (int 2025);
     "invoice_month" := JSNum (int 3);
     "invoice_date" := JSStr "2025-04-15";
     "invoice_month_name" := JSStr "May" ]}.

(** An invoice with a negative amount dated in March 2025. *)
Definition credit_note : row :=
  {[ "payment_amount_usd" := JSNum (int (-50));
     "invoice_date" := JSStr "2025-03-15" ]}.

(** An invoice of 300 dated in March 2025 and nothing else. *)
Definition dated_only : row :=
  {[ "payment_amount_usd" := JSNum (int 300);
     "invoice_date" := JSStr "2025-03-15" ]}.

(** An invoice of 300 dated in 2024 whose year field is the string "2025",
    whose month name says June and whose month number says 2. *)
Definition relabelled : row :=
  {[ "payment_amount_usd" := JSNum (int 300);
     "invoice_date" := JSStr "2024-12-15";
     "invoice_year" := JSStr "2025";
     "invoice_month_name" := JSStr "June";
     "invoice_month" := JSNum (int 2) ]}.

(** [parseInt] of the example host, on strings that start with decimal
    digits or hold none at the start. *)
Definition parseInt (s : string) : number :=
  match read_digits 0 0 s with
  | (_, O, _) => NaN
  | (z, _, _) => int z
  end.

End MoreExamples.

(** ** The totals computed while rendering, [ProjectCharts.jsx] lines 399-552 *)
Module Render.
Import JS ProjectCharts.

(** [s.split(/[-/]/)]: the pieces of [s] between hyphens and slashes. *)
Fixpoint split_date (s : string) : list string :=
  match s with
  | EmptyString => [EmptyString]
  | String c r =>
      if Ascii.eqb c "-" || Ascii.eqb c "/" then EmptyString :: split_date r
      else
        match split_date r with
        | piece :: pieces => String c piece :: pieces
        | [] => [String c EmptyString]
        end
  end.

(** [monthlyInvoiceTotals] and the three counters of lines 416-418. *)
Record Tally : Type := mkTally {
  monthlyInvoiceTotals : gmap string number;
  processed : nat;
  validInvoicesForYear : nat;
  dateParsingErrors : nat
}.

Definition zero_tally : Tally := mkTally zero_totals 0 0 0.

(** [monthlyInvoiceTotals[month] += paymentAmount; validInvoicesForYear++]. *)
Definition count_payment (month : string) (paymentAmount : number) (t : Tally) : Tally :=
  mkTally (add_assign (monthlyInvoiceTotals t) month paymentAmount)
          (processed t) (S (validInvoicesForYear t)) (dateParsingErrors t).

(** [processed++] and [dateParsingErrors++]. *)
Definition count_processed (t : Tally) : Tally :=
  mkTally (monthlyInvoiceTotals t) (S (processed t))
          (validInvoicesForYear t) (dateParsingErrors t).

Definition count_date_error (t : Tally) : Tally :=
  mkTally (monthlyInvoiceTotals t) (processed t)
          (validInvoicesForYear t) (S (dateParsingErrors t)).

(** [try { c } catch (e) { h }] inside a computation. *)
Definition eff_catch {S A} (c : Eff S A) (h : Eff S A) : Eff S A :=
  λ s, match c s with
       | (Normal a, s') => (Normal a, s')
       | (Thrown _, s') => h s'
       end.

Section Host.
Variable new_Date : value → option Date.
Variable NumberToString : number → string.
(** [parseInt(s)] of the host. *)
Variable parseInt : string → number.

(** Lines 441-468: the year and month are looked for in the text of a date
    that could not be parsed. *)
Definition recover_from_text (invoice : row) (rawDate : value) : Eff Tally unit :=
  let dateParts := split_date (ToString NumberToString rawDate) in
  if bool_decide (3 ≤ length dateParts)%nat then
    let possibleYears :=
      List.filter (λ p, bool_decide (String.length p = 4%nat) &&
                        negb (num_isNaN (parseInt p))) dateParts in
    match possibleYears with
    | firstYear :: _ =>
        let year := parseInt firstYear in
        if strict_eq (JSNum year) (JSNum (int 2025)) then
          let nonYearParts :=
            List.filter (λ p, negb (bool_decide (p = firstYear))) dateParts in
          match nonYearParts with
          | firstPart :: _ :: _ =>
              let possibleMonth := parseInt firstPart in
              if num_ge possibleMonth (int 1) && num_le possibleMonth (int 12) then
                match find_month (JSNum possibleMonth) with
                | Some month =>
                    if truthy (JSStr month) then
                      let paymentAmount :=
                        parsePaymentAmount (get invoice "payment_amount_usd") in
                      modify (count_payment month paymentAmount)
                    else mret tt
                | None => mret tt
                end
              else mret tt
          | _ => mret tt
          end
        else mret tt
    | [] => mret tt
    end
  else mret tt.

(** Lines 432-479, the inner [try]: the result tells whether the callback
    has returned, and carries the parsed date when it has not. *)
Definition parse_date_block (invoice : row) (rawDate : value)
  : Eff Tally (option Date) :=
  eff_catch
    (match new_Date rawDate with
     | None =>
         modify count_date_error ;;
         recover_from_text invoice rawDate ;;
         modify count_processed ;;
         mret None
     | Some invoiceDate => mret (Some invoiceDate)
     end)
    (modify count_date_error ;; modify count_processed ;; mret None).

(** Lines 500-523: the year field, then the month name or the month number. *)
Definition by_year_field (invoice : row) (paymentAmount : number) : Eff Tally unit :=
  if strict_eq (get invoice "invoice_year") (JSNum (int 2025)) ||
     strict_eq (get invoice "invoice_year") (JSStr "2025")
  then
    month ←
      (if truthy (get invoice "invoice_month_name") then
         name ← substring_0 3 (get invoice "invoice_month_name");
         mret (Some name)
       else if truthy (get invoice "invoice_month") then
         let monthNum :=
           parseInt (ToString NumberToString (get invoice "invoice_month")) in
         if num_ge monthNum (int 1) && num_le monthNum (int 12)
         then mret (find_month (JSNum monthNum))
         else mret None
       else mret None);
    match month with
    | Some month =>
        if truthy (JSStr month) && bool_decide (month ∈ months)
        then modify (count_payment month paymentAmount)
        else mret tt
    | None => mret tt
    end
  else mret tt.

(** The body of the outer [try], lines 422-525. An entry that is [null] or
    [undefined] is [None]: reading its date throws. *)
Definition invoice_body (invoice : option row) : Eff Tally unit :=
  match invoice with
  | None => throw "TypeError: cannot read properties of null"
  | Some invoice =>
      let rawDate := get invoice "invoice_date" in
      parsed ← parse_date_block invoice rawDate;
      match parsed with
      | None => mret tt
      | Some invoiceDate =>
          let paymentAmount := parsePaymentAmount (get invoice "payment_amount_usd") in
          (if bool_decide (getFullYear invoiceDate = 2025) then
             let monthNumber := getMonth invoiceDate + 1 in
             match find_month (JSNum (int monthNumber)) with
             | Some month =>
                 if truthy (JSStr month)
                 then modify (count_payment month paymentAmount)
                 else mret tt
             | None => mret tt
             end
           else by_year_field invoice paymentAmount) ;;
          modify count_processed
      end
  end.

(** The callback of [invoiceData.forEach], lines 420-530, with the [catch]
    clause of lines 526-529. *)
Definition invoice_callback (invoice : option row) (t : Tally) : Tally :=
  match invoice_body invoice t with
  | (Normal _, t') => t'
  | (Thrown _, t') => count_processed t'
  end.

(** The tally after lines 400-534; nothing is processed when there are no
    invoices. *)
Definition render_tally (invoiceData : list (option row)) : Tally :=
  match invoiceData with
  | [] => zero_tally
  | _ :: _ => forEach invoice_callback invoiceData zero_tally
  end.

(** [actualizedMonthlyRevenue], line 552. *)
Definition actualizedMonthlyRevenue (invoiceData : list (option row)) : list number :=
  (λ month,
     let total := get_number (monthlyInvoiceTotals (render_tally invoiceData)) month in
     if truthy (JSNum total) then total else int 0) <$> months.
End Host.

End Render.

(** ** Vocabulary for the totals computed while rendering *)
Module RenderVocabulary.
Import JS ProjectCharts.

(** What one step may do to the totals and to the count of valid invoices:
    nothing, or one addition to a month, counted once. *)
Definition one_addition (t t' : Render.Tally) : Prop :=
  Render.processed t' = Render.processed t
  ∧ Render.dateParsingErrors t' = Render.dateParsingErrors t
  ∧ ((Render.monthlyInvoiceTotals t' = Render.monthlyInvoiceTotals t
      ∧ Render.validInvoicesForYear t' = Render.validInvoicesForYear t)
     ∨ ∃ (m : string) (a : number),
         m ∈ months
         ∧ Render.monthlyInvoiceTotals t' =
           add_assign (Render.monthlyInvoiceTotals t) m a
         ∧ Render.validInvoicesForYear t' = S (Render.validInvoicesForYear t)).

End RenderVocabulary.

(** ** The revenue charts and the year selector of [static/script.js] *)
Module StaticCharts.
Import JS.

(** [s.includes(sub)]. *)
Fixpoint includes (s sub : string) : bool :=
  String.prefix sub s ||
  match s with
  | EmptyString => false
  | String _ r => includes r sub
  end.

(** Reading [a[i]]: [undefined] past the end. *)
Definition array_get (a : list value) (i : nat) : value :=
  default JSUndefined (a !! i).

(** Writing [a[i] = v]: past the end the array grows, the entries in between
    reading as [undefined]. *)
Definition array_set (a : list value) (i : nat) (v : value) : list value :=
  if (i <? length a)%nat then <[i := v]> a
  else a ++ replicate (i - length a) JSUndefined ++ [v].

(** [arr.forEach((x, index) => ...)] on an accumulator. *)
Fixpoint forEach_from {A T} (f : A → nat → T → T) (index : nat) (arr : list A) (s : T) : T :=
  match arr with
  | [] => s
  | x :: rest => forEach_from f (S index) rest (f x index s)
  end.

Definition forEach_index {A T} (f : A → nat → T → T) (arr : list A) (s : T) : T :=
  forEach_from f 0 arr s.

(** The values that are neither [null] nor [undefined]: [v != null]. *)
Definition not_nullish (v : value) : bool :=
  match v with
  | JSUndefined | JSNull => false
  | _ => true
  end.

(** [[...new Set(l)]]: the distinct values of [l] in the order of their
    first occurrence. *)
Definition set_order (l : list value) : list value :=
  foldl (λ seen x, if bool_decide (x ∈ seen) then seen else seen ++ [x]) [] l.

Section Host.
Variable NumberToString : number → string.

(** ToNumber of a value that is not a string. *)
Definition primitive_to_number (v : value) : number :=
  match v with
  | JSUndefined => NaN
  | JSNull => int 0
  | JSBool b => if b then int 1 else int 0
  | JSNum n => n
  | JSStr _ => NaN
  end.

(** [a + b]: concatenation as soon as one side is a string, addition of
    numbers otherwise. *)
Definition js_add (a b : value) : value :=
  match a, b with
  | JSStr x, _ => JSStr (x +:+ ToString NumberToString b)
  | _, JSStr y => JSStr (ToString NumberToString a +:+ y)
  | _, _ => JSNum (num_add (primitive_to_number a) (primitive_to_number b))
  end.

(** [revenueData.filter(item => item.month.includes(year))], lines 229, 277
    and 323: [includes] is a method of strings, so an item whose month is
    not a string makes the filter throw at that item. *)
Fixpoint filter_by_year (year : string) (revenueData : list (gmap string value))
  : completion (list (gmap string value)) :=
  match revenueData with
  | [] => Normal []
  | item :: rest =>
      match get item "month" with
      | JSStr month =>
          match filter_by_year year rest with
          | Normal kept => Normal (if includes month year then item :: kept else kept)
          | Thrown e => Thrown e
          end
      | _ => Thrown "TypeError: item.month.includes is not a function"
      end
  end.

(** [revenues] of [createMonthlyRevenueChart], line 235. *)
Definition monthly_revenues (revenueData : list (gmap string value)) (year : string)
  : completion (list value) :=
  match filter_by_year year revenueData with
  | Normal filteredData => Normal ((λ item, get item "revenue_total") <$> filteredData)
  | Thrown e => Thrown e
  end.

(** The callback of lines 283-286. *)
Definition quarter_callback (item : gmap string value) (index : nat)
    (quarterlyTotals : list value) : list value :=
  let quarterIndex := (index / 3)%nat in
  array_set quarterlyTotals quarterIndex
    (js_add (array_get quarterlyTotals quarterIndex) (get item "revenue_total")).

(** The same step on the revenue value alone. *)
Definition add_to_quarter (v : value) (index : nat) (acc : list value) : list value :=
  array_set acc (index / 3) (js_add (array_get acc (index / 3)) v).

(** [quarterlyTotals] of [createQuarterlyRevenueChart], lines 277-286. *)
Definition quarterlyTotals (revenueData : list (gmap string value)) (year : string)
  : completion (list value) :=
  match filter_by_year year revenueData with
  | Normal filteredData =>
      Normal (forEach_index quarter_callback filteredData
                (JSNum <$> [int 0; int 0; int 0; int 0]))
  | Thrown e => Thrown e
  end.

(** The default order of [sort()]: by the printed form. *)
Definition printed_le (x y : value) : Prop :=
  String.le (ToString NumberToString x) (ToString NumberToString y).

#[global] Instance printed_le_dec : RelDecision printed_le.
Proof. intros x y. unfold printed_le. apply _. Defined.

(** [sort()] is stable: values that print alike keep their order. *)
Fixpoint insert_sorted (x : value) (l : list value) : list value :=
  match l with
  | [] => [x]
  | y :: rest =>
      if bool_decide (printed_le x y) then x :: y :: rest
      else y :: insert_sorted x rest
  end.

Definition js_sort (l : list value) : list value := foldr insert_sorted [] l.

(** [years] of [populateYearSelector], line 447. *)
Definition selector_years (projectData : list (gmap string value)) : list value :=
  js_sort (List.filter not_nullish
             (set_order ((λ project, get project "Year") <$> projectData))).

(** The values of the options of the selector after lines 450-458. *)
Definition populateYearSelector (projectData : list (gmap string value)) : list string :=
  "all" :: (ToString NumberToString <$> selector_years projectData).
End Host.

End StaticCharts.

(** ** Worked data for the static page *)
Module StaticExamples.
Import JS.

(** A revenue row of January 2025 with a total of 10. *)
Definition january : gmap string value :=
  {[ "month" := JSStr "2025-01-01"; "revenue_total" := JSNum (int 10) ]}.

(** A revenue row of April 2025 with a total of 40. *)
Definition april : gmap string value :=
  {[ "month" := JSStr "2025-04-01"; "revenue_total" := JSNum (int 40) ]}.

(** A revenue row of 2024. *)
Definition last_year : gmap string value :=
  {[ "month" := JSStr "2024-12-01"; "revenue_total" := JSNum (int 5) ]}.


(** Projects of 2024, of 2025 and without a year. *)
Definition projects : list (gmap string value) :=
  [ {[ "Year" := JSNum (int 2025); "Project Status" := JSStr "Active" ]};
    {[ "Year" := JSNum (int 2024); "Project Status" := JSStr "Closed" ]};
    {[ "Project Status" := JSStr "Active" ]};
    {[ "Year" := JSNum (int 2025); "Project Status" := JSStr "Closed" ]} ].

End StaticExamples.

(* ===================================================================== *)
(** * Part II: properties *)
(* ===================================================================== *)

Import JS ProjectCharts Spec Vocabulary.

(** Closed equalities between computed values are decided by evaluation. *)
Ltac by_evaluation := apply (bool_decide_unpack _); vm_compute; exact I.

(** ** Numbers form a commutative monoid under addition *)

Lemma int_0 : int 0 = Fin 0%Qc.
Proof. unfold int. f_equal. apply Qc_is_canon. reflexivity. Qed.

Lemma num_add_comm (a b : number) : num_add a b = num_add b a.
Proof. destruct a, b; simpl; try reflexivity. f_equal. ring. Qed.

Lemma num_add_assoc (a b c : number) :
  num_add a (num_add b c) = num_add (num_add a b) c.
Proof. destruct a, b, c; simpl; try reflexivity. f_equal. ring. Qed.

Lemma num_add_0_l (a : number) : num_add (int 0) a = a.
Proof. rewrite int_0. destruct a; simpl; try reflexivity. f_equal. ring. Qed.

Lemma num_add_0_r (a : number) : num_add a (int 0) = a.
Proof. rewrite num_add_comm. apply num_add_0_l. Qed.

(** ** The running-total loop *)

Lemma forEach_app {A S} (f : A → S → S) (l1 l2 : list A) (s : S) :
  forEach f (l1 ++ l2) s = forEach f l2 (forEach f l1 s).
Proof. unfold forEach. apply foldl_app. Qed.

Lemma forEach_cons {A S} (f : A → S → S) (x : A) (l : list A) (s : S) :
  forEach f (x :: l) s = forEach f l (f x s).
Proof. reflexivity. Qed.




(** ** The monthly totals *)

Lemma NoDup_months : NoDup months.
Proof. apply (bool_decide_unpack _). vm_compute. exact I. Qed.

Lemma get_number_add_assign (o : gmap string number) (k k' : string) (v : number) :
  get_number (add_assign o k v) k' =
  if decide (k = k') then num_add (get_number o k) v else get_number o k'.
Proof.
  unfold get_number, add_assign. rewrite lookup_insert.
  destruct (decide (k = k')); reflexivity.
Qed.

Lemma month_callback_same (y : Z) (p : row) (m : string) (mt : gmap string number) :
  get_number (month_callback y p m mt) m =
  num_add (get_number mt m) (numeric_field (exactFieldName y m) p).
Proof.
  unfold month_callback, numeric_field, has_property, get.
  destruct (p !! exactFieldName y m) as [v|] eqn:E.
  - rewrite bool_decide_eq_true_2 by eauto. simpl.
    destruct v; rewrite ?num_add_0_r; try reflexivity.
    rewrite get_number_add_assign. by rewrite decide_True.
  - rewrite bool_decide_eq_false_2 by (intros [? ?]; discriminate).
    by rewrite num_add_0_r.
Qed.

Lemma month_callback_other (y : Z) (p : row) (m m' : string) (mt : gmap string number) :
  m ≠ m' → get_number (month_callback y p m mt) m' = get_number mt m'.
Proof.
  intros Hne. unfold month_callback.
  destruct (has_property p (exactFieldName y m)); [|reflexivity].
  destruct (get p (exactFieldName y m)); try reflexivity.
  rewrite get_number_add_assign. by rewrite decide_False.
Qed.

Lemma months_loop (y : Z) (p : row) (ms : list string) (m : string)
    (mt : gmap string number) :
  NoDup ms →
  get_number (forEach (month_callback y p) ms mt) m =
  if decide (m ∈ ms)
  then num_add (get_number mt m) (numeric_field (exactFieldName y m) p)
  else get_number mt m.
Proof.
  intros Hnd. revert mt. induction Hnd as [|x ms Hx Hnd IH]; intros mt.
  - reflexivity.
  - rewrite forEach_cons, IH. destruct (decide (m = x)) as [->|Hne].
    + rewrite decide_False by assumption. rewrite decide_True by left.
      apply month_callback_same.
    + rewrite (month_callback_other y p x m mt) by congruence.
      destruct (decide (m ∈ ms)) as [Hin|Hin].
      * rewrite decide_True by (by right). reflexivity.
      * rewrite decide_False; [reflexivity|].
        intros [?|?]%elem_of_cons; contradiction.
Qed.

Lemma projects_loop (y : Z) (wd : list row) (m : string) (mt : gmap string number) :
  m ∈ months →
  get_number (forEach (λ project, forEach (month_callback y project) months) wd mt) m =
  num_add (get_number mt m) (num_sum (numeric_field (exactFieldName y m) <$> wd)).
Proof.
  intros Hm. revert mt. induction wd as [|p wd IH]; intros mt.
  - simpl. by rewrite num_add_0_r.
  - rewrite forEach_cons, IH, months_loop by apply NoDup_months.
    rewrite decide_True by assumption.
    rewrite fmap_cons. simpl. by rewrite num_add_assoc.
Qed.

Lemma zero_totals_get (m : string) : m ∈ months → get_number zero_totals m = int 0.
Proof.
  unfold months. rewrite !elem_of_cons, elem_of_nil.
  intros H. repeat (destruct H as [-> | H]; [reflexivity|]). contradiction.
Qed.

Lemma monthlyTotals_get (y : Z) (wd : list row) (m : string) :
  m ∈ months →
  get_number (monthlyTotals y wd) m =
  num_sum (numeric_field (exactFieldName y m) <$> wd).
Proof.
  intros Hm. unfold monthlyTotals.
  by rewrite projects_loop, zero_totals_get, num_add_0_l.
Qed.

(** *** Sums accumulated from the left

    The loops of the component add to a total one entry at a time. The
    statements below follow that order and use no law of addition. *)

Lemma running_loop_left (l : list number) (a : number) (out : list number) :
  forEach running_callback l (a, out) =
  (foldl num_add a l,
   out ++ ((λ i, foldl num_add a (take (S i) l)) <$> seq 0 (length l))).
Proof.
  revert a out. induction l as [|x l IH]; intros a out.
  - simpl. by rewrite app_nil_r.
  - rewrite forEach_cons. unfold running_callback at 2. cbn [fst snd].
    rewrite IH. cbn [foldl length seq]. rewrite fmap_cons. f_equal.
    rewrite <- app_assoc. cbn [app take foldl]. f_equal. f_equal.
    rewrite <- fmap_S_seq, <- list_fmap_compose. reflexivity.
Qed.

Lemma running_totals_sum_left (l : list number) :
  running_totals l = (λ i, sum_left (take (S i) l)) <$> seq 0 (length l).
Proof. unfold running_totals, sum_left. by rewrite running_loop_left. Qed.

Lemma projects_loop_left (y : Z) (wd : list row) (m : string) (mt : gmap string number) :
  m ∈ months →
  get_number (forEach (λ project, forEach (month_callback y project) months) wd mt) m =
  foldl num_add (get_number mt m) (numeric_field (exactFieldName y m) <$> wd).
Proof.
  intros Hm. revert mt. induction wd as [|p wd IH]; intros mt; [reflexivity|].
  rewrite forEach_cons, IH, months_loop by apply NoDup_months.
  by rewrite decide_True by assumption.
Qed.

Lemma months_map_monthlyTotals_left (y : Z) (wd : list row) :
  months_map (monthlyTotals y wd) =
  (λ month, sum_left (numeric_field (exactFieldName y month) <$> wd)) <$> months.
Proof.
  unfold months_map. apply list_fmap_ext. intros i m Hm.
  unfold monthlyTotals, sum_left.
  rewrite projects_loop_left by (by eapply list_elem_of_lookup_2).
  by rewrite zero_totals_get by (by eapply list_elem_of_lookup_2).
Qed.

(** The computed arrays are what [calculateMonthlyData] publishes whenever
    the data set is not empty and the test of line 170 fails. *)
Lemma calculateMonthlyData_publishes_computed (data : list row) (st : State) :
  data ≠ [] →
  emergency_override (selectedYear st)
    (monthlyRevenue (computed_monthly (selectedYear st) data)) = false →
  monthlyData (calculateMonthlyData data st) = computed_monthly (selectedYear st) data.
Proof.
  intros Hne Hov. destruct data as [|p data]; [done|].
  unfold calculateMonthlyData. by rewrite Hov.
Qed.

Lemma calculateMonthlyData_publishes_literal (data : list row) (st : State) :
  data ≠ [] →
  emergency_override (selectedYear st)
    (monthlyRevenue (computed_monthly (selectedYear st) data)) = true →
  monthlyData (calculateMonthlyData data st) =
  mkMonthlyData correctValues (running_totals correctValues).
Proof.
  intros Hne Hov. destruct data as [|p data]; [done|].
  unfold calculateMonthlyData. by rewrite Hov.
Qed.

(** C6, amended. For every data set that is not empty and every selected
    year Y, let the sums be, month by month in calendar order, the values
    of the field named "Y M" added from the left over the deduplicated
    records, a record where the field is absent or not a number
    contributing 0. When Y is not 2025, or the sum of January is not more
    than 10000 away from 243500, [calculateMonthlyData] publishes the sums
    as [monthlyRevenue], and as [cumulativeRevenue] the array whose entry i
    is the left-to-right sum of the monthly values of indices 0 to i. When
    Y is 2025 and the sum of January is more than 10000 away from 243500
    it publishes the literal values of line 172 and their running totals
    instead. The field of January 2025 is named "2025 Jan". *)
Theorem C6_monthly_totals (data : list row) (st : State) :
  data ≠ [] →
  let Y := selectedYear st in
  let published := monthlyData (calculateMonthlyData data st) in
  let sum_of month :=
    sum_left (numeric_field (exactFieldName Y month) <$> uniqueData data) in
  let far :=
    num_gt (Math_abs (num_sub (sum_of "Jan") (int 243500))) (int 10000) in
  (Y ≠ 2025 ∨ far = false →
   monthlyRevenue published = sum_of <$> months
   ∧ cumulativeRevenue published =
     (λ i, sum_left (take (S i) (sum_of <$> months))) <$> seq 0 12)
  ∧ (Y = 2025 ∧ far = true →
     monthlyRevenue published = correctValues
     ∧ cumulativeRevenue published = running_totals correctValues)
  ∧ exactFieldName 2025 "Jan" = "2025 Jan".
Proof.
  intros Hne Y published sum_of far.
  assert (Hsums : monthlyRevenue (computed_monthly Y data) = sum_of <$> months).
  { unfold computed_monthly. cbn [monthlyRevenue].
    apply months_map_monthlyTotals_left. }
  assert (Htest : emergency_override Y (monthlyRevenue (computed_monthly Y data)) =
                  bool_decide (Y = 2025) && far).
  { rewrite Hsums. reflexivity. }
  split; [|split].
  - intros Hoff. unfold published.
    rewrite calculateMonthlyData_publishes_computed; [|exact Hne|].
    + split; [exact Hsums|].
      unfold computed_monthly. cbn [cumulativeRevenue].
      rewrite running_totals_sum_left.
      change (months_map (monthlyTotals (selectedYear st) (uniqueData data)))
        with (monthlyRevenue (computed_monthly Y data)).
      rewrite Hsums. reflexivity.
    + fold Y. rewrite Htest. destruct Hoff as [Hy | ->].
      * by rewrite (bool_decide_eq_false_2 _ Hy).
      * apply andb_false_r.
  - intros [Hy Hfar]. unfold published.
    rewrite calculateMonthlyData_publishes_literal; [|exact Hne|].
    + split; reflexivity.
    + fold Y. rewrite Htest, Hfar. by rewrite (bool_decide_eq_true_2 _ Hy).
  - vm_compute. reflexivity.
Qed.

Lemma C6_monthly_totals_witness :
  Examples.sparse_2024 ≠ []
  ∧ monthlyRevenue
      (monthlyData (calculateMonthlyData Examples.sparse_2024 (initial_state 2024))) =
    int <$> [7; 0; 0; 0; 0; 0; 0; 0; 0; 0; 0; 0]
  ∧ cumulativeRevenue
      (monthlyData (calculateMonthlyData Examples.sparse_2024 (initial_state 2024))) =
    int <$> [7; 7; 7; 7; 7; 7; 7; 7; 7; 7; 7; 7].
Proof.
  assert (H : Examples.sparse_2024 ≠ []) by discriminate.
  split; [exact H|].
  destruct (C6_monthly_totals Examples.sparse_2024 (initial_state 2024) H)
    as [Hoff _].
  destruct Hoff as [Hm Hc]; [left; discriminate|].
  rewrite Hm, Hc. split; by_evaluation.
Defined.

(** C6 as stated fails in 2025: one record holding 50000 for January and 7
    for February publishes 243500 and 683500, which are not the sums over
    the records. And on an empty data set nothing is published at all. *)
Lemma C6_low_january_publishes_literals :
  let published :=
    monthlyRevenue
      (monthlyData (calculateMonthlyData Examples.low_january (initial_state 2025))) in
  uniqueData Examples.low_january = Examples.low_january
  ∧ sum_left (numeric_field "2025 Jan" <$> Examples.low_january) = int 50000
  ∧ sum_left (numeric_field "2025 Feb" <$> Examples.low_january) = int 7
  ∧ published !! 0%nat = Some (int 243500)
  ∧ published !! 1%nat = Some (int 683500)
  ∧ published !! 0%nat ≠ Some (int 50000)
  ∧ published !! 1%nat ≠ Some (int 7)
  ∧ monthlyData (calculateMonthlyData [] (initial_state 2024)) = mkMonthlyData [] [].
Proof.
  cbv zeta.
  assert (H0 : monthlyRevenue
                 (monthlyData (calculateMonthlyData Examples.low_january (initial_state 2025)))
               !! 0%nat = Some (int 243500)) by by_evaluation.
  assert (H1 : monthlyRevenue
                 (monthlyData (calculateMonthlyData Examples.low_january (initial_state 2025)))
               !! 1%nat = Some (int 683500)) by by_evaluation.
  split; [by_evaluation|]. split; [by_evaluation|]. split; [by_evaluation|].
  split; [exact H0|]. split; [exact H1|].
  rewrite H0, H1. split; [by_evaluation|]. split; [by_evaluation|reflexivity].
Qed.

(** ** Deduplication by project code *)

Lemma dedup_seen (data : list row) (x : value) :
  x ∈ (forEach dedup_callback data (∅, [])).1 ↔
  truthy x = true ∧ x ∈ project_code <$> data.
Proof.
  induction data as [|p data IH] using rev_ind.
  - simpl. rewrite elem_of_empty, elem_of_nil. tauto.
  - rewrite forEach_app, fmap_app, elem_of_app. simpl.
    rewrite list_elem_of_singleton.
    destruct (forEach dedup_callback data (∅, [])) as [seen uq].
    simpl in IH. unfold dedup_callback. fold (project_code p).
    destruct (truthy (project_code p)) eqn:Ht; simpl.
    + destruct (bool_decide (project_code p ∈ seen)) eqn:Hs; simpl.
      * apply bool_decide_eq_true_1 in Hs. rewrite IH.
        split; [tauto|]. intros [Hx [?| ->]]; [tauto|]. by apply IH.
      * rewrite elem_of_union, elem_of_singleton, IH.
        split; [intros [->|?]; tauto | intros [? [?|?]]; tauto].
    + rewrite IH. split; [tauto|]. intros [Hx [?| ->]]; [tauto|congruence].
Qed.

Lemma uniqueData_snoc (data : list row) (p : row) :
  uniqueData (data ++ [p]) =
  if truthy (project_code p) && bool_decide (project_code p ∈ project_code <$> data)
  then uniqueData data
  else uniqueData data ++ [p].
Proof.
  unfold uniqueData. rewrite forEach_app. simpl.
  pose proof (dedup_seen data (project_code p)) as Hseen.
  destruct (forEach dedup_callback data (∅, [])) as [seen uq].
  simpl in Hseen. unfold dedup_callback. fold (project_code p).
  destruct (truthy (project_code p)) eqn:Ht; simpl; [|reflexivity].
  destruct (bool_decide (project_code p ∈ seen)) eqn:Hs; simpl.
  - apply bool_decide_eq_true_1 in Hs.
    rewrite bool_decide_eq_true_2; [reflexivity | by apply Hseen].
  - apply bool_decide_eq_false_1 in Hs.
    rewrite bool_decide_eq_false_2; [reflexivity | tauto].
Qed.

Lemma calculateMonthlyData_duplicate (data : list row) (p : row) (st : State) :
  truthy (project_code p) = true →
  project_code p ∈ project_code <$> data →
  calculateMonthlyData (data ++ [p]) st = calculateMonthlyData data st.
Proof.
  intros Ht Hin. destruct data as [|q data]; [by apply elem_of_nil in Hin|].
  assert (Hu : uniqueData ((q :: data) ++ [p]) = uniqueData (q :: data)).
  { rewrite uniqueData_snoc, Ht. by rewrite bool_decide_eq_true_2. }
  change ((q :: data) ++ [p]) with (q :: (data ++ [p])) in *.
  unfold calculateMonthlyData, computed_monthly. by rewrite Hu.
Qed.

(** C3, amended. Deduplication keeps the first record of every project
    code: a record added to the end of a data set is dropped when its code
    is truthy and is the code of an earlier record, and is kept otherwise;
    a record without a code and a record with the empty code are kept
    whatever precedes them. A record that is dropped changes nothing of
    what [calculateMonthlyData] publishes. For two records with code P1
    holding 100 and 900 for January the published January total is 100
    when the fields and the selected year are those of 2024; with 240000
    and 900 for January 2025 it is 240000; with 100 and 900 for January
    2025 the loop computes 100, which is not what is published. *)
Theorem C3_first_code_wins (data : list row) (p : row) (st : State) :
  uniqueData (data ++ [p]) =
    (if truthy (project_code p) &&
        bool_decide (project_code p ∈ project_code <$> data)
     then uniqueData data
     else uniqueData data ++ [p])
  ∧ uniqueData (data ++ [delete "Project Code" p]) =
    uniqueData data ++ [delete "Project Code" p]
  ∧ uniqueData (data ++ [<["Project Code" := JSStr ""]> p]) =
    uniqueData data ++ [<["Project Code" := JSStr ""]> p]
  ∧ (truthy (project_code p) = true →
     project_code p ∈ project_code <$> data →
     calculateMonthlyData (data ++ [p]) st = calculateMonthlyData data st)
  ∧ monthlyRevenue
      (monthlyData (calculateMonthlyData Examples.two_P1_2024 (initial_state 2024))) =
    int <$> [100; 0; 0; 0; 0; 0; 0; 0; 0; 0; 0; 0]
  ∧ monthlyRevenue
      (monthlyData (calculateMonthlyData Examples.two_P1_near (initial_state 2025))) =
    int <$> [240000; 0; 0; 0; 0; 0; 0; 0; 0; 0; 0; 0]
  ∧ uniqueData Examples.two_P1 = take 1 Examples.two_P1
  ∧ monthlyRevenue (computed_monthly 2025 Examples.two_P1) !! 0%nat = Some (int 100).
Proof.
  split; [apply uniqueData_snoc|]. split.
  { rewrite uniqueData_snoc. unfold project_code, get.
    by rewrite lookup_delete_eq. }
  split.
  { rewrite uniqueData_snoc. unfold project_code, get.
    by rewrite lookup_insert_eq. }
  split; [apply calculateMonthlyData_duplicate|].
  split; [by_evaluation|]. split; [by_evaluation|].
  split; [reflexivity|by_evaluation].
Qed.

Lemma C3_first_code_wins_witness :
  truthy (project_code (Examples.two_P1_near !!! 1%nat)) = true
  ∧ project_code (Examples.two_P1_near !!! 1%nat)
    ∈ project_code <$> take 1 Examples.two_P1_near
  ∧ calculateMonthlyData
      (take 1 Examples.two_P1_near ++ [Examples.two_P1_near !!! 1%nat])
      (initial_state 2025) =
    calculateMonthlyData (take 1 Examples.two_P1_near) (initial_state 2025)
  ∧ monthlyRevenue
      (monthlyData
         (calculateMonthlyData
            (take 1 Examples.two_P1_near ++ [Examples.two_P1_near !!! 1%nat])
            (initial_state 2025))) =
    int <$> [240000; 0; 0; 0; 0; 0; 0; 0; 0; 0; 0; 0].
Proof.
  assert (H2 : truthy (project_code (Examples.two_P1_near !!! 1%nat)) = true)
    by (vm_compute; reflexivity).
  assert (H3 : project_code (Examples.two_P1_near !!! 1%nat)
               ∈ project_code <$> take 1 Examples.two_P1_near) by by_evaluation.
  pose proof (proj1 (proj2 (proj2 (proj2
    (C3_first_code_wins (take 1 Examples.two_P1_near) (Examples.two_P1_near !!! 1%nat)
       (initial_state 2025))))) H2 H3) as H4.
  repeat (split; [assumption|]).
  rewrite H4. by_evaluation.
Defined.

(** C3 as stated fails on its own example: for the two records with code
    P1 holding 100 and 900 for January 2025 the January value that is
    published is the literal 243500 of line 172, because the computed 100
    is more than 10000 away from it. *)
Lemma C3_two_P1_publishes_literal :
  let published :=
    monthlyRevenue
      (monthlyData (calculateMonthlyData Examples.two_P1 (initial_state 2025))) in
  published !! 0%nat = Some (int 243500)
  ∧ published !! 0%nat ≠ Some (int 100).
Proof.
  cbv zeta.
  assert (H : monthlyRevenue
                (monthlyData (calculateMonthlyData Examples.two_P1 (initial_state 2025)))
              !! 0%nat = Some (int 243500)) by by_evaluation.
  split; [exact H|]. rewrite H. by_evaluation.
Qed.

(** ** The literal values of line 172 *)

Lemma running_totals_correctValues :
  running_totals correctValues =
  int <$> [243500; 927000; 2439768; 3059408; 3950884; 5292289;
           6312795; 7576317; 8457839; 10122747; 11153835; 13041671].
Proof. by_evaluation. Qed.

(** C5. When the selected year is 2025 and the computed January total is
    more than 10000 away from 243500, a non-empty data set makes
    [calculateMonthlyData] publish the twelve literal values as
    [monthlyRevenue] and their running sums as [cumulativeRevenue],
    whatever the data set holds. *)
Theorem C5_emergency_override (data : list row) (st : State) (jan : Qc) :
  data ≠ [] →
  selectedYear st = 2025 →
  nth_number (monthlyRevenue (computed_monthly 2025 data)) 0 = Fin jan →
  (Qc_of_Z 10000 < Qcabs (jan - Qc_of_Z 243500))%Qc →
  monthlyData (calculateMonthlyData data st) =
  mkMonthlyData
    (int <$> [243500; 683500; 1512768; 619640; 891476; 1341405;
              1020506; 1263522; 881522; 1664908; 1031088; 1887836])
    (int <$> [243500; 927000; 2439768; 3059408; 3950884; 5292289;
              6312795; 7576317; 8457839; 10122747; 11153835; 13041671]).
Proof.
  intros Hne Hy Hjan Hfar. destruct data as [|p data]; [done|].
  unfold calculateMonthlyData, emergency_override. rewrite Hy, Hjan.
  rewrite bool_decide_eq_true_2 by reflexivity.
  cbn [num_sub int Math_abs num_gt andb].
  rewrite bool_decide_eq_true_2 by exact Hfar.
  cbn [setMonthlyData monthlyData].
  by rewrite running_totals_correctValues.
Qed.

Lemma C5_emergency_override_witness :
  Examples.two_P1 ≠ []
  ∧ selectedYear (initial_state 2025) = 2025
  ∧ nth_number (monthlyRevenue (computed_monthly 2025 Examples.two_P1)) 0
    = Fin (Qc_of_Z 100)
  ∧ (Qc_of_Z 10000 < Qcabs (Qc_of_Z 100 - Qc_of_Z 243500))%Qc
  ∧ monthlyRevenue (monthlyData (calculateMonthlyData Examples.two_P1 (initial_state 2025)))
    = int <$> [243500; 683500; 1512768; 619640; 891476; 1341405;
               1020506; 1263522; 881522; 1664908; 1031088; 1887836].
Proof.
  assert (H1 : Examples.two_P1 ≠ []) by discriminate.
  assert (H2 : selectedYear (initial_state 2025) = 2025) by reflexivity.
  assert (H3 : nth_number (monthlyRevenue (computed_monthly 2025 Examples.two_P1)) 0
               = Fin (Qc_of_Z 100)) by by_evaluation.
  assert (H4 : (Qc_of_Z 10000 < Qcabs (Qc_of_Z 100 - Qc_of_Z 243500))%Qc)
    by by_evaluation.
  repeat (split; [assumption|]).
  rewrite (C5_emergency_override Examples.two_P1 (initial_state 2025)
             (Qc_of_Z 100) H1 H2 H3 H4).
  reflexivity.
Defined.

(** ** The quarterly roll-up *)

Lemma length_monthlyRevenue_published (data : list row) (st : State) :
  data ≠ [] →
  length (monthlyRevenue (monthlyData (calculateMonthlyData data st))) = 12%nat.
Proof.
  intros Hne. destruct data as [|p data]; [done|].
  unfold calculateMonthlyData.
  destruct (emergency_override _ _); reflexivity.
Qed.

Lemma calculateQuarterlyData_nonempty (st : State) :
  monthlyRevenue (monthlyData st) ≠ [] →
  calculateQuarterlyData st =
  setQuarterlyData
    (mkQuarterlyData (quarterly_of (monthlyRevenue (monthlyData st)))
       (running_totals (quarterly_of (monthlyRevenue (monthlyData st))))) st.
Proof.
  intros Hne. unfold calculateQuarterlyData.
  by destruct (monthlyRevenue (monthlyData st)).
Qed.

(** C2, amended. For every data set that is not empty and every selected
    year, the monthly callback publishes an array [m] of twelve values and
    the quarterly callback, run next, leaves it as it is and stores nothing
    but functions of it: the four quarterly totals are
    [(m[0] + m[1]) + m[2]], [(m[3] + m[4]) + m[5]], [(m[6] + m[7]) + m[8]]
    and [(m[9] + m[10]) + m[11]], and the cumulative array holds their
    running totals accumulated from 0, from the left; any state with the
    same monthly array gets the same quarterly data. *)
Theorem C2_quarterly_from_monthly (data : list row) (st : State) :
  data ≠ [] →
  let st1 := calculateMonthlyData data st in
  let st2 := calculateQuarterlyData st1 in
  let m := nth_number (monthlyRevenue (monthlyData st1)) in
  let q1 := num_add (num_add (m 0%nat) (m 1%nat)) (m 2%nat) in
  let q2 := num_add (num_add (m 3%nat) (m 4%nat)) (m 5%nat) in
  let q3 := num_add (num_add (m 6%nat) (m 7%nat)) (m 8%nat) in
  let q4 := num_add (num_add (m 9%nat) (m 10%nat)) (m 11%nat) in
  length (monthlyRevenue (monthlyData st1)) = 12%nat
  ∧ monthlyData st2 = monthlyData st1
  ∧ quarterlyRevenue (quarterlyData st2) = [q1; q2; q3; q4]
  ∧ cumulativeQuarterly (quarterlyData st2) =
    [num_add (int 0) q1;
     num_add (num_add (int 0) q1) q2;
     num_add (num_add (num_add (int 0) q1) q2) q3;
     num_add (num_add (num_add (num_add (int 0) q1) q2) q3) q4]
  ∧ ∀ st' : State,
      monthlyRevenue (monthlyData st') = monthlyRevenue (monthlyData st1) →
      quarterlyData (calculateQuarterlyData st') = quarterlyData st2.
Proof.
  intros Hne st1 st2 m q1 q2 q3 q4.
  pose proof (length_monthlyRevenue_published data st Hne) as Hlen.
  fold st1 in Hlen.
  assert (Hm : monthlyRevenue (monthlyData st1) ≠ [])
    by (intros E; rewrite E in Hlen; discriminate).
  split; [exact Hlen|].
  unfold st2. rewrite (calculateQuarterlyData_nonempty st1 Hm).
  split; [reflexivity|]. split; [reflexivity|]. split; [reflexivity|].
  intros st' E.
  rewrite calculateQuarterlyData_nonempty by (by rewrite E).
  cbn [setQuarterlyData quarterlyData]. by rewrite E.
Qed.

Lemma C2_quarterly_from_monthly_witness :
  Examples.two_years ≠ []
  ∧ quarterlyRevenue
      (quarterlyData
         (calculateQuarterlyData
            (calculateMonthlyData Examples.two_years (initial_state 2024)))) =
    int <$> [100; 0; 0; 0]
  ∧ cumulativeQuarterly
      (quarterlyData
         (calculateQuarterlyData
            (calculateMonthlyData Examples.two_years (initial_state 2024)))) =
    int <$> [100; 100; 100; 100].
Proof.
  assert (H : Examples.two_years ≠ []) by discriminate.
  split; [exact H|].
  destruct (C2_quarterly_from_monthly Examples.two_years (initial_state 2024) H)
    as (_ & _ & Hq & Hc & _).
  rewrite Hq, Hc. split; by_evaluation.
Defined.

(** C2 as stated fails in two ways. In binary64 arithmetic the last
    cumulative quarterly value need not be the sum of the twelve monthly
    values: for 0.7 in January, 0.1 in February, 0.1 in April and 0.2 in
    May the quarterly totals run up to 1.1 and the monthly values to
    1.0999999999999999. And for an empty data set neither callback
    publishes anything, so that there is no quarterly total at all. *)
Lemma C2_rounding_separates_the_totals :
  Binary64.running_totals (Binary64.quarterly_of Binary64.tenths) !! 3%nat =
    Some Binary64.one_point_one
  ∧ Binary64.running_totals Binary64.tenths !! 11%nat =
    Some Binary64.just_below_one_point_one
  ∧ PrimFloat.eqb Binary64.one_point_one Binary64.just_below_one_point_one = false
  ∧ quarterlyData
      (calculateQuarterlyData (calculateMonthlyData [] (initial_state 2025))) =
    mkQuarterlyData [] [].
Proof.
  split; [vm_compute; reflexivity|]. split; [vm_compute; reflexivity|].
  split; [vm_compute; reflexivity|reflexivity].
Qed.

(** ** The status distribution *)

Lemma int_add (a b : Z) : num_add (int a) (int b) = int (a + b).
Proof. unfold int. cbn [num_add]. by rewrite Z2Qc_inj_add. Qed.

Lemma plus_one_count (n : nat) :
  plus_one (js_or (count_value n) (JSNum (int 0))) = count_value (S n).
Proof.
  unfold js_or, count_value.
  destruct (truthy (JSNum (int (Z.of_nat n)))) eqn:Ht; cbn [plus_one].
  - rewrite int_add. do 2 f_equal. lia.
  - cbn [truthy int] in Ht. apply negb_false_iff, bool_decide_eq_true_1 in Ht.
    rewrite <- Z2Qc_inj_0 in Ht. apply Z2Qc_inj in Ht.
    rewrite int_add. do 2 f_equal. lia.
Qed.

Section Status.
Context (NumberToString : number → string).
Context (FunctionToString : string → string).

Local Abbreviation status_of := (status_of NumberToString).
Local Abbreviation statusCounts := (statusCounts NumberToString FunctionToString).
Local Abbreviation count_up := (count_up FunctionToString).

Lemma statusCounts_snoc (data : list row) (p : row) :
  statusCounts (data ++ [p]) = count_up (statusCounts data) (status_of p).
Proof. unfold ProjectCharts.statusCounts. by rewrite foldl_app. Qed.

Lemma count_up_other (o : gmap string value) (k s : string) :
  k ≠ s → count_up o k !! s = o !! s.
Proof.
  intros Hne. unfold JS.count_up.
  destruct (bool_decide (k = "__proto__")); [reflexivity|].
  destruct (o !! k); [by rewrite lookup_insert_ne|].
  destruct (bool_decide (k ∈ Object_prototype_methods)); by rewrite lookup_insert_ne.
Qed.

Lemma count_up_ordinary_same (o : gmap string value) (k : string) :
  ordinary_key k →
  count_up o k !! k =
  Some (match o !! k with
        | Some own => plus_one (js_or own (JSNum (int 0)))
        | None => count_value 1
        end).
Proof.
  intros [Hp Hm]. unfold JS.count_up.
  rewrite (bool_decide_eq_false_2 _ Hp).
  destruct (o !! k); [by rewrite lookup_insert_eq|].
  rewrite (bool_decide_eq_false_2 _ Hm), lookup_insert_eq.
  f_equal. unfold count_value. by rewrite int_add.
Qed.

Lemma statusCounts_lookup (data : list row) (s : string) :
  ordinary_key s →
  statusCounts data !! s =
  let n := length (filter (λ p, status_of p = s) data) in
  if decide (n = 0%nat) then None else Some (count_value n).
Proof.
  intros Hs. induction data as [|p data IH] using rev_ind; [reflexivity|].
  rewrite statusCounts_snoc, list.filter_app, length_app. cbn zeta in IH.
  destruct (decide (status_of p = s)) as [E|E].
  - rewrite filter_cons_True, filter_nil by exact E. rewrite E.
    rewrite count_up_ordinary_same by exact Hs. rewrite IH. cbn [length].
    destruct (decide (length (filter (λ q, status_of q = s) data) = 0%nat))
      as [->|?]; [reflexivity|].
    rewrite decide_False by lia. rewrite plus_one_count.
    do 2 f_equal. lia.
  - rewrite filter_cons_False, filter_nil by exact E.
    rewrite count_up_other by exact E. rewrite IH.
    cbn [length]. by rewrite Nat.add_0_r.
Qed.

(** C9, at the failing inputs. For a status that is not the name of a
    property every object inherits, the status distribution holds the
    number of rows that have it, and no entry when no row has it; a row
    without the status property counts under "Unknown"; the projects
    Active, Active and one without a status give Active: 2 and Unknown: 1,
    and the chart of the static page computes the same object when no year
    is selected. The rows counted are the uploaded ones, not the
    deduplicated ones: a project uploaded twice is counted twice. A status
    that names a method of [Object.prototype] gets no count but a text,
    the source text of the method followed by one "1" for every such row,
    and the status "__proto__" gets no entry at all. *)
Theorem C9_status_distribution (data : list row) (s : string) (p : row) :
  (s ≠ "__proto__" → s ∉ Object_prototype_methods →
   statusCounts data !! s =
   (let n := length (filter (λ p, status_of p = s) data) in
    if decide (n = 0%nat) then None else Some (JSNum (int (Z.of_nat n)))))
  ∧ status_of (delete "Project Status" p) = "Unknown"
  ∧ statusCounts Examples.three_projects =
    {[ "Active" := JSNum (int 2); "Unknown" := JSNum (int 1) ]}
  ∧ Script.createProjectStatusChart NumberToString FunctionToString data "all" =
    statusCounts data
  ∧ statusCounts Examples.two_active_P1 = {[ "Active" := JSNum (int 2) ]}
  ∧ statusCounts (uniqueData Examples.two_active_P1) = {[ "Active" := JSNum (int 1) ]}
  ∧ statusCounts [Examples.constructor_status] =
    {[ "constructor" := JSStr (FunctionToString "constructor" +:+ "1") ]}
  ∧ statusCounts [Examples.constructor_status; Examples.constructor_status] =
    {[ "constructor" := JSStr ((FunctionToString "constructor" +:+ "1") +:+ "1") ]}
  ∧ ProjectCharts.statusCounts ExampleHost.NumberToString ExampleHost.FunctionToString
      [Examples.constructor_status] =
    {[ "constructor" := JSStr "function Object() { [native code] }1" ]}
  ∧ statusCounts [Examples.proto_status; Examples.proto_status] = ∅.
Proof.
  split; [intros H1 H2; by apply statusCounts_lookup|]. split.
  { unfold ProjectCharts.status_of, get. by rewrite lookup_delete_eq. }
  split; [by_evaluation|]. split; [reflexivity|].
  split; [by_evaluation|]. split; [by_evaluation|].
  assert (Hone : statusCounts [Examples.constructor_status] =
                 {[ "constructor" := JSStr (FunctionToString "constructor" +:+ "1") ]})
    by reflexivity.
  split; [exact Hone|]. split; [|split; reflexivity].
  change [Examples.constructor_status; Examples.constructor_status]
    with ([Examples.constructor_status] ++ [Examples.constructor_status]).
  rewrite statusCounts_snoc, Hone.
  change (status_of Examples.constructor_status) with "constructor".
  unfold JS.count_up. rewrite bool_decide_eq_false_2 by discriminate.
  rewrite lookup_singleton_eq, insert_singleton_eq. unfold js_or.
  assert (Htr : ∀ a : string, truthy (JSStr (a +:+ "1")) = true)
    by (intros [|c a]; reflexivity).
  by rewrite Htr.
Qed.
End Status.

Lemma C9_status_distribution_witness :
  "Active" ≠ "__proto__"
  ∧ ("Active" ∉ Object_prototype_methods)
  ∧ statusCounts ExampleHost.NumberToString ExampleHost.FunctionToString
      Examples.two_active_P1 !! "Active" = Some (JSNum (int 2)).
Proof.
  assert (H1 : "Active" ≠ "__proto__") by discriminate.
  assert (H2 : "Active" ∉ Object_prototype_methods) by by_evaluation.
  split; [exact H1|]. split; [exact H2|].
  rewrite (proj1 (C9_status_distribution ExampleHost.NumberToString
                    ExampleHost.FunctionToString Examples.two_active_P1 "Active" ∅)
                 H1 H2).
  by_evaluation.
Defined.

(** ** The year of the quarterly view *)

(** C4. With 2024 selected for the monthly view and 2025 for the quarterly
    view, on one record holding 100 for January 2024 and 243500 for January
    2025, the component settles with the quarterly totals 100, 0, 0, 0,
    which are the roll-up of the monthly values of 2024; the roll-up of the
    monthly values of 2025, the year the quarterly view shows in its title,
    is 243500, 0, 0, 0. *)
Theorem C4_quarterly_uses_monthly_year :
  let st := setSelectedYearQuarterly 2025 (setSelectedYear 2024 (initial_state 2025)) in
  let st' := settle ExampleHost.new_Date ExampleHost.StringToNumber
               ExampleHost.NumberToString Examples.two_years [] st in
  selectedYearQuarterly st' = 2025
  ∧ quarterlyRevenue (quarterlyData st') = int <$> [100; 0; 0; 0]
  ∧ quarterlyRevenue (quarterlyData st') =
    quarter_sums (monthlyRevenue (computed_monthly 2024 Examples.two_years))
  ∧ emergency_override 2025
      (monthlyRevenue (computed_monthly 2025 Examples.two_years)) = false
  ∧ quarter_sums (monthlyRevenue (computed_monthly 2025 Examples.two_years)) =
    int <$> [243500; 0; 0; 0].
Proof.
  cbv zeta. split; [reflexivity|].
  split; [by_evaluation|]. split; [by_evaluation|].
  split; [by vm_compute|by_evaluation].
Qed.

(** ** The invoice reconciliation *)

Ltac eff_unfold :=
  unfold try_catch, mbind, eff_mbind, eff_bind, mret, eff_mret, eff_ret,
         throw, modify, add_payment, substring_0.

Lemma num_gt_not_le (a b : number) :
  num_gt a b = true → num_isNaN a || num_le a b = false.
Proof.
  destruct a as [x|], b as [y|]; simpl; try discriminate.
  intros H%bool_decide_eq_true_1. apply bool_decide_eq_false_2.
  by apply Qclt_not_le.
Qed.

Section Reconciliation.
Context (new_Date : value → option Date).
Context (StringToNumber : string → number).
Context (NumberToString : number → string).

Local Abbreviation paymentAmount_of := (paymentAmount_of NumberToString).
Local Abbreviation invoiceDate_of := (invoiceDate_of new_Date).
Local Abbreviation invoice_body :=
  (invoice_body new_Date StringToNumber NumberToString).
Local Abbreviation invoice_callback :=
  (invoice_callback new_Date StringToNumber NumberToString).
Local Abbreviation payment_totals :=
  (payment_totals new_Date StringToNumber NumberToString).
Local Abbreviation calculateInvoiceData :=
  (calculateInvoiceData new_Date StringToNumber NumberToString).
Local Abbreviation unusable_amount := (unusable_amount NumberToString).

(** *** Amounts *)

Lemma paymentAmount_of_number (inv : row) (n : number) :
  paymentAmount_of (<["payment_amount_usd" := JSNum n]> inv) = n.
Proof.
  unfold ProjectCharts.paymentAmount_of, get. by rewrite lookup_insert_eq.
Qed.

Lemma paymentAmount_of_string (inv : row) (s : string) :
  paymentAmount_of (<["payment_amount_usd" := JSStr s]> inv) =
  let parsed := parseFloat (replace_non_numeric s) in
  if truthy (JSNum parsed) then parsed else int 0.
Proof.
  unfold ProjectCharts.paymentAmount_of, get. rewrite lookup_insert_eq.
  cbn [default from_option id]. unfold js_or.
  destruct s as [|c s]; [by vm_compute|]. reflexivity.
Qed.

Lemma positive_amount_truthy (inv : row) :
  num_gt (paymentAmount_of inv) (int 0) = true →
  truthy (get inv "payment_amount_usd") = true.
Proof.
  unfold ProjectCharts.paymentAmount_of.
  destruct (get inv "payment_amount_usd") as [| |[]|[q|]|[|c s]] eqn:E;
    try reflexivity; try (vm_compute; discriminate).
  cbn [truthy]. intros H%bool_decide_eq_true_1.
  apply negb_true_iff, bool_decide_eq_false_2. intros ->.
  rewrite Z2Qc_inj_0 in H. by apply Qclt_not_eq in H.
Qed.

Lemma invoice_callback_unusable (year : Z) (inv : option row)
    (t : gmap string number) :
  unusable_amount inv → invoice_callback year inv t = t.
Proof.
  unfold ProjectCharts.invoice_callback, ProjectCharts.invoice_body.
  destruct inv as [inv|]; [|reflexivity].
  intros [H|H]; [by rewrite H|].
  destruct (truthy (get inv "payment_amount_usd")); [|reflexivity].
  cbn [negb].
  assert (Hex : num_isNaN (paymentAmount_of inv)
                || num_le (paymentAmount_of inv) (int 0) = true).
  { destruct H as [-> | ->]; [reflexivity | apply orb_true_r]. }
  by rewrite Hex.
Qed.

Lemma replace_non_numeric_filter (s : string) :
  String.list_ascii_of_string (replace_non_numeric s) =
  List.filter (λ c, is_digit c || Ascii.eqb c "." || Ascii.eqb c "-")
              (String.list_ascii_of_string s).
Proof.
  induction s as [|c s IH]; [reflexivity|]. simpl.
  destruct (is_digit c || Ascii.eqb c "." || Ascii.eqb c "-"); simpl;
    by rewrite IH.
Qed.

(** *** The month name *)

(** C10. An invoice with a positive amount, no year field, no valid date
    and a month name whose first three characters are a month
    abbreviation adds its amount to the total of that month, whatever year
    is selected. *)
Theorem C10_month_name_without_year (year : Z) (inv : row)
    (t : gmap string number) (s : string) :
  num_gt (paymentAmount_of inv) (int 0) = true →
  inv !! "invoice_year" = None →
  invoiceDate_of inv = None →
  inv !! "invoice_month_name" = Some (JSStr s) →
  String.substring 0 3 s ∈ months →
  invoice_callback year (Some inv) t =
  add_assign t (String.substring 0 3 s) (paymentAmount_of inv).
Proof.
  intros Hpos Hyear Hdate Hname Hmonth.
  unfold ProjectCharts.invoice_callback, ProjectCharts.invoice_body.
  rewrite (positive_amount_truthy inv Hpos), (num_gt_not_le _ _ Hpos), Hdate.
  cbn [negb].
  assert (Hy : get inv "invoice_year" = JSUndefined) by (unfold get; by rewrite Hyear).
  assert (Hn : get inv "invoice_month_name" = JSStr s) by (unfold get; by rewrite Hname).
  assert (Hs : truthy (JSStr s) = true).
  { destruct s; [|reflexivity]. exfalso. revert Hmonth.
    change (¬ (String.substring 0 3 "" ∈ months)). by_evaluation. }
  unfold by_month_year, by_date, by_month_name. rewrite Hy, Hn, Hs.
  replace (isNaN StringToNumber JSUndefined) with true by reflexivity.
  cbn [negb]. rewrite andb_false_r. cbn [andb negb truthy orb].
  eff_unfold. cbn [negb andb]. eff_unfold.
  rewrite (bool_decide_eq_true_2 _ Hmonth). reflexivity.
Qed.

(** *** The three rules *)

Lemma find_month_Some (v : value) (m : string) :
  find_month v = Some m → truthy (JSStr m) = true ∧ m ∈ months.
Proof.
  unfold find_month, monthNumbers. cbn [List.find fst snd].
  repeat (destruct (strict_eq _ v);
          [intros [= <-]; split; [reflexivity | by_evaluation]|]).
  discriminate.
Qed.

(** Rule 1: month and year fields that are numbers, the year being the
    selected one and the month between 1 and 12, add the payment once;
    neither the date nor the month name is looked at. *)
Lemma month_year_counts_once (year k : Z) (inv : row) (t : gmap string number)
    (m : string) :
  num_gt (paymentAmount_of inv) (int 0) = true →
  inv !! "invoice_year" = Some (JSNum (int year)) →
  inv !! "invoice_month" = Some (JSNum (int k)) →
  find_month (JSNum (int k)) = Some m →
  1 ≤ k ≤ 12 →
  invoice_callback year (Some inv) t = add_assign t m (paymentAmount_of inv).
Proof.
  intros Hpos Hyear Hmonth Hfind [Hlo Hhi].
  unfold ProjectCharts.invoice_callback, ProjectCharts.invoice_body.
  rewrite (positive_amount_truthy inv Hpos), (num_gt_not_le _ _ Hpos).
  cbn [negb].
  assert (Hy : get inv "invoice_year" = JSNum (int year)) by (unfold get; by rewrite Hyear).
  assert (Hm : get inv "invoice_month" = JSNum (int k)) by (unfold get; by rewrite Hmonth).
  destruct (find_month_Some _ _ Hfind) as [Htruthy _].
  unfold by_month_year. rewrite Hy, Hm, Hfind, Htruthy.
  assert (Hcond : negb (isNaN StringToNumber (JSNum (int k))) &&
                  negb (isNaN StringToNumber (JSNum (int year))) &&
                  js_ge StringToNumber (JSNum (int k)) (int 1) &&
                  js_le StringToNumber (JSNum (int k)) (int 12) &&
                  strict_eq (JSNum (int year)) (JSNum (int year)) = true).
  { unfold isNaN, js_ge, js_le, num_ge, strict_eq, int. cbn [ToNumber num_isNaN num_le negb andb].
    rewrite (bool_decide_eq_true_2 _ (proj1 (Z2Qc_inj_le 1 k) Hlo)).
    rewrite (bool_decide_eq_true_2 _ (proj1 (Z2Qc_inj_le k 12) Hhi)).
    by rewrite bool_decide_eq_true_2. }
  rewrite Hcond. unfold by_date, by_month_name.
  eff_unfold. cbn [negb andb].
  by destruct (invoiceDate_of inv).
Qed.

(** Rule 2 and then rule 3: without month and year fields, an invoice with
    a valid date in the selected year and a month name is added through its
    date and once more through its month name. *)
Lemma date_then_name_counts_twice (year : Z) (inv : row) (t : gmap string number)
    (d : Date) (m s : string) :
  num_gt (paymentAmount_of inv) (int 0) = true →
  inv !! "invoice_year" = None →
  invoiceDate_of inv = Some d →
  getFullYear d = year →
  find_month (JSNum (int (getMonth d + 1))) = Some m →
  inv !! "invoice_month_name" = Some (JSStr s) →
  String.substring 0 3 s ∈ months →
  invoice_callback year (Some inv) t =
  add_assign (add_assign t m (paymentAmount_of inv))
             (String.substring 0 3 s) (paymentAmount_of inv).
Proof.
  intros Hpos Hyear Hdate Hfull Hfind Hname Hmonth.
  unfold ProjectCharts.invoice_callback, ProjectCharts.invoice_body.
  rewrite (positive_amount_truthy inv Hpos), (num_gt_not_le _ _ Hpos), Hdate.
  cbn [negb].
  assert (Hy : get inv "invoice_year" = JSUndefined) by (unfold get; by rewrite Hyear).
  assert (Hn : get inv "invoice_month_name" = JSStr s) by (unfold get; by rewrite Hname).
  assert (Hs : truthy (JSStr s) = true).
  { destruct s; [|reflexivity]. exfalso. revert Hmonth.
    change (¬ (String.substring 0 3 "" ∈ months)). by_evaluation. }
  destruct (find_month_Some _ _ Hfind) as [Htruthy _].
  unfold by_month_year, by_date, by_month_name.
  rewrite Hy, Hn, Hs, Hfind, Htruthy.
  replace (isNaN StringToNumber JSUndefined) with true by reflexivity.
  cbn [negb]. rewrite andb_false_r.
  rewrite (bool_decide_eq_true_2 _ Hfull). cbn [andb negb truthy orb].
  eff_unfold. cbn [negb andb]. eff_unfold.
  rewrite (bool_decide_eq_true_2 _ Hmonth). reflexivity.
Qed.

(** *** A row that throws *)

(** C8, at the defect. An invoice with a positive amount, no year field,
    a valid date in the selected year and a truthy month name that is not
    a string is added to the month of its date, and then makes the body
    throw when the month name is read; the exception is caught, the batch
    goes on with the invoices after it, and the amount added through the
    date stays in the totals: the row that threw is not excluded. *)
Theorem C8_throwing_row_keeps_date_addition (year : Z) (inv : row)
    (t : gmap string number) (d : Date) (m : string) (v : value) :
  num_gt (paymentAmount_of inv) (int 0) = true →
  inv !! "invoice_year" = None →
  invoiceDate_of inv = Some d →
  getFullYear d = year →
  find_month (JSNum (int (getMonth d + 1))) = Some m →
  inv !! "invoice_month_name" = Some v →
  truthy v = true →
  (∀ s : string, v ≠ JSStr s) →
  invoice_body year (Some inv) t =
    (Thrown "TypeError: substring is not a function",
     add_assign t m (paymentAmount_of inv))
  ∧ invoice_callback year (Some inv) t = add_assign t m (paymentAmount_of inv)
  ∧ ∀ before after : list (option row),
      payment_totals year (before ++ Some inv :: after) =
      forEach (invoice_callback year) after
        (add_assign (payment_totals year before) m (paymentAmount_of inv)).
Proof.
  intros Hpos Hyear Hdate Hfull Hfind Hname Htruthy Hnot.
  assert (Hbody : ∀ t0 : gmap string number,
            invoice_body year (Some inv) t0 =
            (Thrown "TypeError: substring is not a function",
             add_assign t0 m (paymentAmount_of inv))).
  { intros t0. unfold ProjectCharts.invoice_body.
    rewrite (positive_amount_truthy inv Hpos), (num_gt_not_le _ _ Hpos), Hdate.
    cbn [negb].
    assert (Hy : get inv "invoice_year" = JSUndefined)
      by (unfold get; by rewrite Hyear).
    assert (Hn : get inv "invoice_month_name" = v) by (unfold get; by rewrite Hname).
    destruct (find_month_Some _ _ Hfind) as [Hm _].
    unfold by_month_year, by_date, by_month_name.
    rewrite Hy, Hn, Htruthy, Hfind, Hm.
    replace (isNaN StringToNumber JSUndefined) with true by reflexivity.
    cbn [negb]. rewrite andb_false_r.
    rewrite (bool_decide_eq_true_2 _ Hfull). cbn [andb negb].
    eff_unfold. cbn [negb andb]. eff_unfold.
    destruct v as [| |b|n|s]; try reflexivity. by destruct (Hnot s). }
  split; [apply Hbody|].
  assert (Hcb : ∀ t0 : gmap string number,
            invoice_callback year (Some inv) t0 =
            add_assign t0 m (paymentAmount_of inv)).
  { intros t0. unfold ProjectCharts.invoice_callback, try_catch. by rewrite Hbody. }
  split; [apply Hcb|].
  intros before after. unfold ProjectCharts.payment_totals.
  by rewrite forEach_app, forEach_cons, Hcb.
Qed.
End Reconciliation.

(** *** Worked invoices *)

(** C7, at the failing input. Both readers use a number as it is, remove
    from a string every character other than a digit, a dot or a hyphen,
    turn "$1,200.50" into 1200.50 and read "-5" as -5. For the invoice with
    the amount "-5" dated 2025-03-15 [calculateInvoiceData] leaves every
    total at 0, but the totals computed while rendering, the ones the chart
    shows, hold -5 for March: the amount that is not positive is added. *)
Theorem C7_nonpositive_amount_is_charted (NumberToString : number → string)
    (inv : row) (n : number) (s : string) :
  paymentAmount_of NumberToString (<["payment_amount_usd" := JSNum n]> inv) = n
  ∧ parsePaymentAmount (JSNum n) = n
  ∧ String.list_ascii_of_string (replace_non_numeric s) =
    List.filter (λ c, is_digit c || Ascii.eqb c "." || Ascii.eqb c "-")
                (String.list_ascii_of_string s)
  ∧ replace_non_numeric "$1,200.50" = "1200.50"
  ∧ paymentAmount_of NumberToString (<["payment_amount_usd" := JSStr "$1,200.50"]> inv) =
    Fin (Q2Qc (120050 # 100))
  ∧ parsePaymentAmount (JSStr "$1,200.50") = Fin (Q2Qc (120050 # 100))
  ∧ paymentAmount_of NumberToString Examples.refund = int (-5)
  ∧ parsePaymentAmount (get Examples.refund "payment_amount_usd") = int (-5)
  ∧ monthlyPayments
      (calculateInvoiceData ExampleHost.new_Date ExampleHost.StringToNumber
         ExampleHost.NumberToString [Some Examples.refund] (initial_state 2025)) =
    int <$> [0; 0; 0; 0; 0; 0; 0; 0; 0; 0; 0; 0]
  ∧ Render.actualizedMonthlyRevenue ExampleHost.new_Date ExampleHost.NumberToString
      MoreExamples.parseInt [Some Examples.refund] =
    int <$> [0; 0; -5; 0; 0; 0; 0; 0; 0; 0; 0; 0].
Proof.
  split; [apply paymentAmount_of_number|]. split; [reflexivity|].
  split; [apply replace_non_numeric_filter|].
  split; [reflexivity|].
  split; [rewrite paymentAmount_of_string; by_evaluation|].
  split; [by_evaluation|].
  split.
  { change Examples.refund
      with (<["payment_amount_usd" := JSStr "-5"]>
              ({[ "invoice_date" := JSStr "2025-03-15" ]} : row)).
    rewrite paymentAmount_of_string. by_evaluation. }
  split; [by_evaluation|]. split; by_evaluation.
Qed.

Lemma C10_month_name_without_year_witness :
  num_gt (paymentAmount_of ExampleHost.NumberToString Examples.named_only) (int 0) = true
  ∧ Examples.named_only !! "invoice_year" = None
  ∧ invoiceDate_of ExampleHost.new_Date Examples.named_only = None
  ∧ Examples.named_only !! "invoice_month_name" = Some (JSStr "March")
  ∧ String.substring 0 3 "March" ∈ months
  ∧ invoice_callback ExampleHost.new_Date ExampleHost.StringToNumber
      ExampleHost.NumberToString 2024 (Some Examples.named_only) zero_totals =
    add_assign zero_totals "Mar" (int 300)
  ∧ invoice_callback ExampleHost.new_Date ExampleHost.StringToNumber
      ExampleHost.NumberToString 2025 (Some Examples.named_only) zero_totals =
    add_assign zero_totals "Mar" (int 300).
Proof.
  assert (H1 : num_gt (paymentAmount_of ExampleHost.NumberToString Examples.named_only)
                 (int 0) = true) by (vm_compute; reflexivity).
  assert (H2 : Examples.named_only !! "invoice_year" = None) by (vm_compute; reflexivity).
  assert (H3 : invoiceDate_of ExampleHost.new_Date Examples.named_only = None)
    by (vm_compute; reflexivity).
  assert (H4 : Examples.named_only !! "invoice_month_name" = Some (JSStr "March"))
    by (vm_compute; reflexivity).
  assert (H5 : String.substring 0 3 "March" ∈ months) by by_evaluation.
  repeat (split; [assumption|]).
  split.
  - exact (C10_month_name_without_year ExampleHost.new_Date ExampleHost.StringToNumber
             ExampleHost.NumberToString 2024 Examples.named_only zero_totals "March"
             H1 H2 H3 H4 H5).
  - exact (C10_month_name_without_year ExampleHost.new_Date ExampleHost.StringToNumber
             ExampleHost.NumberToString 2025 Examples.named_only zero_totals "March"
             H1 H2 H3 H4 H5).
Defined.

Lemma C8_throwing_row_keeps_date_addition_witness :
  num_gt (paymentAmount_of ExampleHost.NumberToString Examples.dated_april_numbered_name)
         (int 0) = true
  ∧ Examples.dated_april_numbered_name !! "invoice_year" = None
  ∧ invoiceDate_of ExampleHost.new_Date Examples.dated_april_numbered_name =
    Some (mkDate 2025 3)
  ∧ find_month (JSNum (int (3 + 1))) = Some "Apr"
  ∧ Examples.dated_april_numbered_name !! "invoice_month_name" = Some (JSNum (int 5))
  ∧ truthy (JSNum (int 5)) = true
  ∧ (invoice_body ExampleHost.new_Date ExampleHost.StringToNumber
       ExampleHost.NumberToString 2025 (Some Examples.dated_april_numbered_name)
       zero_totals).1 = Thrown "TypeError: substring is not a function"
  ∧ months_map
      (payment_totals ExampleHost.new_Date ExampleHost.StringToNumber
         ExampleHost.NumberToString 2025
         [Some Examples.dated_april_numbered_name; Some Examples.named_only]) =
    int <$> [0; 0; 300; 300; 0; 0; 0; 0; 0; 0; 0; 0].
Proof.
  assert (H1 : num_gt (paymentAmount_of ExampleHost.NumberToString
                         Examples.dated_april_numbered_name) (int 0) = true)
    by (vm_compute; reflexivity).
  assert (H2 : Examples.dated_april_numbered_name !! "invoice_year" = None)
    by (vm_compute; reflexivity).
  assert (H3 : invoiceDate_of ExampleHost.new_Date Examples.dated_april_numbered_name =
               Some (mkDate 2025 3)) by (vm_compute; reflexivity).
  assert (H4 : getFullYear (mkDate 2025 3) = 2025) by reflexivity.
  assert (H5 : find_month (JSNum (int (3 + 1))) = Some "Apr") by (vm_compute; reflexivity).
  assert (H6 : Examples.dated_april_numbered_name !! "invoice_month_name" =
               Some (JSNum (int 5))) by (vm_compute; reflexivity).
  assert (H7 : truthy (JSNum (int 5)) = true) by (vm_compute; reflexivity).
  assert (H8 : ∀ s : string, JSNum (int 5) ≠ JSStr s) by discriminate.
  destruct (C8_throwing_row_keeps_date_addition ExampleHost.new_Date
              ExampleHost.StringToNumber ExampleHost.NumberToString 2025
              Examples.dated_april_numbered_name zero_totals (mkDate 2025 3) "Apr"
              (JSNum (int 5)) H1 H2 H3 H4 H5 H6 H7 H8) as (Hbody & _ & Hbatch).
  repeat (split; [assumption|]).
  split; [by rewrite Hbody|].
  pose proof (Hbatch [] [Some Examples.named_only]) as Hb.
  change ([] ++ Some Examples.dated_april_numbered_name :: [Some Examples.named_only])
    with [Some Examples.dated_april_numbered_name; Some Examples.named_only] in Hb.
  rewrite Hb. by_evaluation.
Defined.

(** On the empty invoice list the callback returns at line 211: nothing is
    published and the state keeps the empty array it started with. *)
Lemma empty_invoice_list_publishes_nothing :
  monthlyPayments
    (calculateInvoiceData ExampleHost.new_Date ExampleHost.StringToNumber
       ExampleHost.NumberToString [] (initial_state 2025)) = [].
Proof. reflexivity. Qed.

(** A month name that is a number makes the body throw; the exception is
    caught and the next invoice is still counted. *)
Lemma throwing_row_is_caught :
  (invoice_body ExampleHost.new_Date ExampleHost.StringToNumber
     ExampleHost.NumberToString 2025 (Some Examples.numbered_month_name) zero_totals).1
  = Thrown "TypeError: substring is not a function"
  ∧ months_map
      (payment_totals ExampleHost.new_Date ExampleHost.StringToNumber
         ExampleHost.NumberToString 2025
         [Some Examples.numbered_month_name; Some Examples.named_only]) =
    int <$> [0; 0; 300; 0; 0; 0; 0; 0; 0; 0; 0; 0].
Proof. split; [by vm_compute | by_evaluation]. Qed.

(** C1, at the failing input. An invoice of 300 with a valid date in March
    2025 and the month name "March", and no month or year field, is added
    to March twice: once through its date and once more through its month
    name. With the month name "April" it is added to March and to April. *)
Theorem C1_dated_invoice_counted_twice :
  months_map
    (payment_totals ExampleHost.new_Date ExampleHost.StringToNumber
       ExampleHost.NumberToString 2025 [Some Examples.dated_and_named]) =
  int <$> [0; 0; 600; 0; 0; 0; 0; 0; 0; 0; 0; 0]
  ∧ months_map
      (payment_totals ExampleHost.new_Date ExampleHost.StringToNumber
         ExampleHost.NumberToString 2025 [Some Examples.dated_march_named_april]) =
    int <$> [0; 0; 300; 300; 0; 0; 0; 0; 0; 0; 0; 0].
Proof. split; by_evaluation. Qed.


(* ===================================================================== *)
(** * Part III: further properties of the code *)
(* ===================================================================== *)

Import Vocabulary.

(** ** Deduplication *)

Lemma uniqueData_nil : uniqueData [] = [].
Proof. reflexivity. Qed.

Lemma uniqueData_sublist (data : list row) : uniqueData data `sublist_of` data.
Proof.
  induction data as [|p data IH] using rev_ind; [by rewrite uniqueData_nil|].
  rewrite uniqueData_snoc.
  destruct (truthy (project_code p) && bool_decide (project_code p ∈ project_code <$> data)).
  - by apply sublist_inserts_r.
  - by apply sublist_app.
Qed.

Lemma uniqueData_codes (data : list row) (x : value) :
  x ∈ project_code <$> uniqueData data ↔ x ∈ project_code <$> data.
Proof.
  induction data as [|p data IH] using rev_ind; [by rewrite uniqueData_nil|].
  rewrite uniqueData_snoc, fmap_app, elem_of_app. cbn [fmap list_fmap].
  rewrite list_elem_of_singleton.
  destruct (truthy (project_code p)); cbn [andb].
  - destruct (bool_decide (project_code p ∈ project_code <$> data)) eqn:E.
    + apply bool_decide_eq_true_1 in E. rewrite IH.
      split; [tauto | intros [?| ->]; tauto].
    + rewrite fmap_app, elem_of_app. cbn [fmap list_fmap].
      rewrite list_elem_of_singleton, IH. tauto.
  - rewrite fmap_app, elem_of_app. cbn [fmap list_fmap].
    rewrite list_elem_of_singleton, IH. tauto.
Qed.

(** X1. Deduplication is idempotent: deduplicating its own result changes
    nothing. *)
Theorem uniqueData_idempotent (data : list row) :
  uniqueData (uniqueData data) = uniqueData data.
Proof.
  induction data as [|p data IH] using rev_ind; [reflexivity|].
  rewrite uniqueData_snoc.
  destruct (truthy (project_code p) && bool_decide (project_code p ∈ project_code <$> data))
    eqn:E; [exact IH|].
  rewrite uniqueData_snoc, IH.
  replace (truthy (project_code p) &&
           bool_decide (project_code p ∈ project_code <$> uniqueData data))
    with false; [reflexivity|].
  symmetry. rewrite <- E. f_equal. apply bool_decide_ext, uniqueData_codes.
Qed.

(** X2. The deduplicated list is a sub-sequence of the data (records keep
    their order and none is invented), and no truthy project code occurs in
    it twice. *)
Theorem uniqueData_distinct_codes (data : list row) :
  uniqueData data `sublist_of` data ∧ NoDup (truthy_codes (uniqueData data)).
Proof.
  split; [apply uniqueData_sublist|].
  induction data as [|p data IH] using rev_ind; [constructor|].
  rewrite uniqueData_snoc.
  destruct (truthy (project_code p)) eqn:Ht; cbn [andb].
  - destruct (bool_decide (project_code p ∈ project_code <$> data)) eqn:E; [exact IH|].
    apply bool_decide_eq_false_1 in E.
    unfold truthy_codes in *. rewrite fmap_app, list.filter_app.
    cbn [fmap list_fmap]. rewrite filter_cons_True, filter_nil by exact Ht.
    apply list.NoDup_app. split; [exact IH|]. split; [|apply NoDup_singleton].
    intros x [_ Hx]%list_elem_of_filter ->%list_elem_of_singleton.
    apply (proj1 (uniqueData_codes _ _)) in Hx. contradiction.
  - unfold truthy_codes in *. rewrite fmap_app, list.filter_app.
    cbn [fmap list_fmap]. rewrite filter_cons_False, filter_nil, app_nil_r by congruence.
    exact IH.
Qed.

(** X3. Deduplication loses no project: every project code of the data is
    still the code of a kept record, and a record whose code is falsy is
    itself kept. *)
Theorem uniqueData_keeps_every_code (data : list row) (p : row) :
  p ∈ data →
  project_code p ∈ project_code <$> uniqueData data
  ∧ (truthy (project_code p) = false → p ∈ uniqueData data).
Proof.
  intros Hp. split.
  - apply uniqueData_codes. by apply list_elem_of_fmap_2.
  - intros Hf. induction data as [|q data IH] using rev_ind.
    + by apply elem_of_nil in Hp.
    + rewrite uniqueData_snoc. apply elem_of_app in Hp as [Hp|Hp].
      * destruct (truthy (project_code q) && _); [by apply IH|].
        apply elem_of_app. left. by apply IH.
      * apply list_elem_of_singleton in Hp as ->. rewrite Hf. cbn [andb].
        apply elem_of_app. right. by apply list_elem_of_singleton.
Qed.

Lemma uniqueData_keeps_every_code_witness :
  Examples.two_P1 !!! 1%nat ∈ Examples.two_P1
  ∧ project_code (Examples.two_P1 !!! 1%nat) ∈ project_code <$> uniqueData Examples.two_P1.
Proof.
  assert (H : Examples.two_P1 !!! 1%nat ∈ Examples.two_P1).
  { unfold Examples.two_P1. cbn [lookup_total list_lookup_total]. right. left. }
  split; [exact H|].
  exact (proj1 (uniqueData_keeps_every_code Examples.two_P1 _ H)).
Defined.

(** ** Monthly totals and what is published *)





(** X6. For a selected year other than 2025 the literal values are never
    used: a non-empty data set publishes the computed sums. The same holds
    in 2025 when the computed January total is within 10000 of 243500. *)
Theorem override_only_in_2025 (data : list row) (st : State) :
  data ≠ [] →
  selectedYear st ≠ 2025
  ∨ (∃ jan : Qc,
       nth_number (monthlyRevenue (computed_monthly 2025 data)) 0 = Fin jan
       ∧ (Qcabs (jan - Qc_of_Z 243500) ≤ Qc_of_Z 10000)%Qc) →
  monthlyData (calculateMonthlyData data st) = computed_monthly (selectedYear st) data.
Proof.
  intros Hne H. apply calculateMonthlyData_publishes_computed; [exact Hne|].
  unfold emergency_override.
  destruct (decide (selectedYear st = 2025)) as [Hy|Hy].
  - destruct H as [?|(jan & Hjan & Hnear)]; [done|].
    rewrite Hy, Hjan. cbn [num_sub int Math_abs num_gt].
    rewrite (bool_decide_eq_false_2 (Qc_of_Z 10000 < _)%Qc); [by rewrite andb_false_r|].
    by apply Qcle_not_lt.
  - by rewrite (bool_decide_eq_false_2 _ Hy).
Qed.

Lemma override_only_in_2025_witness :
  Examples.two_P1 ≠ []
  ∧ (selectedYear (initial_state 2024) ≠ 2025
     ∨ (∃ jan : Qc,
          nth_number (monthlyRevenue (computed_monthly 2025 Examples.two_P1)) 0 = Fin jan
          ∧ (Qcabs (jan - Qc_of_Z 243500) ≤ Qc_of_Z 10000)%Qc))
  ∧ monthlyData (calculateMonthlyData Examples.two_P1 (initial_state 2024)) =
    computed_monthly 2024 Examples.two_P1.
Proof.
  assert (H1 : Examples.two_P1 ≠ []) by discriminate.
  assert (H2 : selectedYear (initial_state 2024) ≠ 2025
               ∨ (∃ jan : Qc,
                    nth_number (monthlyRevenue (computed_monthly 2025 Examples.two_P1)) 0
                    = Fin jan
                    ∧ (Qcabs (jan - Qc_of_Z 243500) ≤ Qc_of_Z 10000)%Qc))
    by (left; discriminate).
  split; [exact H1|]. split; [exact H2|].
  exact (override_only_in_2025 Examples.two_P1 (initial_state 2024) H1 H2).
Defined.

(** ** The status distribution, continued *)

Lemma occurrences_snoc (l : list string) (s : string) :
  occurrences (l ++ [s]) =
  <[s := S (default 0%nat (occurrences l !! s))]> (occurrences l).
Proof. unfold occurrences. by rewrite foldl_app. Qed.

Lemma occurrences_lookup (l : list string) (s : string) :
  occurrences l !! s =
  let n := length (filter (λ x, x = s) l) in
  if decide (n = 0%nat) then None else Some n.
Proof.
  induction l as [|x l IH] using rev_ind; [reflexivity|].
  rewrite occurrences_snoc, list.filter_app, length_app, lookup_insert.
  cbn zeta in IH.
  destruct (decide (x = s)) as [->|Hs].
  - rewrite filter_cons_True, filter_nil by reflexivity. rewrite IH. cbn [length].
    destruct (decide (length (filter (λ x, x = s) l) = 0%nat)) as [->|?];
      [reflexivity|].
    rewrite decide_False by lia. cbn [default from_option id]. f_equal. lia.
  - rewrite filter_cons_False, filter_nil by exact Hs. rewrite IH.
    cbn [length]. by rewrite Nat.add_0_r.
Qed.

Lemma total_count_bump (m : gmap string nat) (k : string) :
  total_count (<[k := S (default 0%nat (m !! k))]> m) = S (total_count m).
Proof.
  unfold total_count.
  assert (Hcomm : ∀ (m' : gmap string nat) (c : nat) (j1 j2 : string) (z1 z2 y : nat),
             j1 ≠ j2 → <[k:=c]> m' !! j1 = Some z1 → <[k:=c]> m' !! j2 = Some z2 →
             (z1 + (z2 + y) = z2 + (z1 + y))%nat) by (intros; lia).
  destruct (m !! k) as [c|] eqn:E.
  - cbn [default from_option id].
    rewrite <- (insert_delete_eq m k (S c)).
    rewrite <- (insert_id m k c E) at 2. rewrite <- (insert_delete_eq m k c).
    rewrite !map_fold_insert_L by (first [apply Hcomm | apply lookup_delete_eq]).
    lia.
  - cbn [default from_option id].
    rewrite map_fold_insert_L by (first [apply Hcomm | exact E]). lia.
Qed.

Lemma total_count_occurrences (l : list string) :
  total_count (occurrences l) = length l.
Proof.
  induction l as [|s l IH] using rev_ind; [reflexivity|].
  by rewrite occurrences_snoc, total_count_bump, IH, length_app, Nat.add_1_r.
Qed.

Lemma occurrences_positive (l : list string) (s : string) (n : nat) :
  occurrences l !! s = Some n → (1 ≤ n)%nat.
Proof.
  rewrite occurrences_lookup. cbn zeta.
  destruct (decide (_ = 0%nat)); [discriminate|]. intros [= <-]. lia.
Qed.

Lemma dom_occurrences (l : list string) :
  dom (occurrences l) = list_to_set l.
Proof.
  apply set_eq. intros s.
  rewrite elem_of_dom, occurrences_lookup, elem_of_list_to_set. cbn zeta. split.
  - destruct (decide (_ = 0%nat)) as [|Hn]; [by intros [? ?]|]. intros _.
    destruct (filter (λ x, x = s) l) as [|x l'] eqn:Ef; [done|].
    assert (Hx : x ∈ filter (λ x, x = s) l) by (rewrite Ef; left).
    apply list_elem_of_filter in Hx as [-> Hx]. exact Hx.
  - intros Hs. destruct (decide (_ = 0%nat)) as [Hz|]; [|eauto].
    apply length_zero_iff_nil in Hz.
    by apply (filter_nil_not_elem_of _ _ s) in Hz.
Qed.

Section StatusMore.
Context (NumberToString : number → string).
Context (FunctionToString : string → string).

Local Abbreviation status_of := (status_of NumberToString).
Local Abbreviation statusCounts := (statusCounts NumberToString FunctionToString).
Local Abbreviation count_up := (count_up FunctionToString).
Local Abbreviation createProjectStatusChart :=
  (Script.createProjectStatusChart NumberToString FunctionToString).

Lemma count_up_ordinary (c : gmap string nat) (k : string) :
  ordinary_key k →
  count_up (count_value <$> c) k =
  count_value <$> <[k := S (default 0%nat (c !! k))]> c.
Proof.
  intros [Hp Hm]. unfold JS.count_up.
  rewrite (bool_decide_eq_false_2 _ Hp), lookup_fmap, fmap_insert.
  destruct (c !! k) as [n|]; cbn [fmap option_fmap option_map default from_option id].
  - by rewrite plus_one_count.
  - rewrite (bool_decide_eq_false_2 _ Hm). unfold count_value at 2.
    by rewrite int_add.
Qed.

Lemma statusCounts_ordinary (data : list row) :
  Forall (λ p, ordinary_key (status_of p)) data →
  statusCounts data = count_value <$> occurrences (status_of <$> data).
Proof.
  induction data as [|p data IH] using rev_ind; intros Hord.
  - unfold ProjectCharts.statusCounts, occurrences. cbn [foldl fmap list_fmap].
    by rewrite fmap_empty.
  - apply Forall_app in Hord as [Hdata Hp].
    apply (proj1 (Forall_singleton _ _)) in Hp.
    rewrite statusCounts_snoc, fmap_app, IH by exact Hdata.
    cbn [fmap list_fmap]. rewrite occurrences_snoc.
    by apply count_up_ordinary.
Qed.

Lemma chart_of_selected (data : list row) (selectedYear : string) :
  selectedYear ≠ "all" →
  createProjectStatusChart data selectedYear =
  statusCounts
    (List.filter
       (λ q, truthy (get q "Year") &&
             bool_decide (ToString NumberToString (get q "Year") = selectedYear))
       data).
Proof.
  intros Hy. unfold Script.createProjectStatusChart.
  by rewrite (bool_decide_eq_false_2 _ Hy).
Qed.

Lemma Forall_List_filter {A} (P : A → Prop) (f : A → bool) (l : list A) :
  Forall P l → Forall P (List.filter f l).
Proof.
  rewrite !Forall_forall. intros H x Hx. apply H.
  apply list_elem_of_In. apply list_elem_of_In in Hx.
  by apply List.filter_In in Hx as [? _].
Qed.

(** X8. When no status of the rows is the name of a property every object
    inherits, the status distribution holds natural-number counts: they
    add up to the number of rows, every status present has a count of at
    least one, and the statuses present are exactly those of the rows. *)
Theorem statusCounts_total_and_domain (data : list row) :
  Forall (λ p, ordinary_key (status_of p)) data →
  ∃ counts : gmap string nat,
    statusCounts data = count_value <$> counts
    ∧ total_count counts = length data
    ∧ (∀ (s : string) (n : nat), counts !! s = Some n → (1 ≤ n)%nat)
    ∧ dom (statusCounts data) = list_to_set (status_of <$> data).
Proof.
  intros Hord. exists (occurrences (status_of <$> data)).
  pose proof (statusCounts_ordinary data Hord) as Heq.
  split; [exact Heq|]. split.
  { by rewrite total_count_occurrences, length_fmap. }
  split; [apply occurrences_positive|].
  by rewrite Heq, dom_fmap_L, dom_occurrences.
Qed.

(** X9. With a year selected, the status chart of the static page counts a
    project only when its Year is truthy and prints as the selected year:
    when no status of the data is the name of an inherited property the
    counts add up to the number of such projects; and a project without a
    Year can be removed from the data without changing the chart. *)
Theorem createProjectStatusChart_year_filter (data before after : list row)
    (p : row) (selectedYear : string) :
  selectedYear ≠ "all" →
  Forall (λ q, ordinary_key (status_of q)) data →
  (∃ counts : gmap string nat,
     createProjectStatusChart data selectedYear = count_value <$> counts
     ∧ total_count counts =
       length (List.filter
                 (λ q, truthy (get q "Year") &&
                       bool_decide (ToString NumberToString (get q "Year") = selectedYear))
                 data))
  ∧ createProjectStatusChart (before ++ delete "Year" p :: after) selectedYear =
    createProjectStatusChart (before ++ after) selectedYear.
Proof.
  intros Hy Hord. split.
  - rewrite (chart_of_selected data selectedYear Hy).
    eexists. split.
    + apply statusCounts_ordinary. by apply Forall_List_filter.
    + by rewrite total_count_occurrences, length_fmap.
  - rewrite !(chart_of_selected _ selectedYear Hy). f_equal.
    rewrite !List.filter_app. f_equal. cbn [List.filter].
    unfold get at 1. by rewrite lookup_delete_eq.
Qed.

End StatusMore.

Lemma statusCounts_total_and_domain_witness :
  Forall (λ p, ordinary_key (status_of ExampleHost.NumberToString p))
         Examples.three_projects
  ∧ ∃ counts : gmap string nat,
      statusCounts ExampleHost.NumberToString ExampleHost.FunctionToString
        Examples.three_projects = count_value <$> counts
      ∧ total_count counts = 3%nat.
Proof.
  assert (H : Forall (λ p, ordinary_key (status_of ExampleHost.NumberToString p))
                     Examples.three_projects) by by_evaluation.
  split; [exact H|].
  destruct (statusCounts_total_and_domain ExampleHost.NumberToString
              ExampleHost.FunctionToString Examples.three_projects H)
    as (counts & Heq & Htotal & _).
  exists counts. split; [exact Heq | exact Htotal].
Defined.

Lemma createProjectStatusChart_year_filter_witness :
  "2025" ≠ "all"
  ∧ Forall (λ q, ordinary_key (status_of ExampleHost.NumberToString q))
           StaticExamples.projects
  ∧ ∃ counts : gmap string nat,
      Script.createProjectStatusChart ExampleHost.NumberToString
        ExampleHost.FunctionToString StaticExamples.projects "2025" =
      count_value <$> counts
      ∧ total_count counts = 2%nat.
Proof.
  assert (H1 : "2025" ≠ "all") by discriminate.
  assert (H2 : Forall (λ q, ordinary_key (status_of ExampleHost.NumberToString q))
                      StaticExamples.projects) by by_evaluation.
  split; [exact H1|]. split; [exact H2|].
  destruct (proj1 (createProjectStatusChart_year_filter ExampleHost.NumberToString
                     ExampleHost.FunctionToString StaticExamples.projects [] [] ∅
                     "2025" H1 H2))
    as (counts & Heq & Htotal).
  exists counts. split; [exact Heq | exact Htotal].
Defined.

(** ** Invariants of the invoice accumulator *)

Lemma not_le_num_gt (a : number) :
  num_isNaN a || num_le a (int 0) = false → num_gt a (int 0) = true.
Proof.
  destruct a as [x|]; [|discriminate]. cbn [num_isNaN orb num_le num_gt int].
  intros H%bool_decide_eq_false_1. apply bool_decide_eq_true_2.
  by apply Qcnot_le_lt.
Qed.

Section Accumulator.
Context (new_Date : value → option Date).
Context (StringToNumber : string → number).
Context (NumberToString : number → string).

Local Abbreviation paymentAmount_of := (paymentAmount_of NumberToString).
Local Abbreviation invoice_callback :=
  (invoice_callback new_Date StringToNumber NumberToString).
Local Abbreviation payment_totals :=
  (payment_totals new_Date StringToNumber NumberToString).

Section Preservation.
Context (P : gmap string number → Prop) (a : number).
Hypothesis P_add : ∀ (t : gmap string number) (m : string),
  m ∈ months → P t → P (add_assign t m a).

Lemma by_month_year_preserves (year : Z) (inv : row) (t : gmap string number) :
  P t →
  ∃ added t', by_month_year StringToNumber year inv a t = (Normal added, t') ∧ P t'.
Proof.
  intros Ht. unfold by_month_year.
  destruct (_ && _ && _ && _ && _); [|by exists false, t].
  destruct (find_month (get inv "invoice_month")) as [m|] eqn:Ef; [|by exists false, t].
  destruct (find_month_Some _ _ Ef) as [-> Hm].
  exists true, (add_assign t m a). split; [reflexivity|]. by apply P_add.
Qed.

Lemma by_date_preserves (year : Z) (d : option Date) (added : bool)
    (t : gmap string number) :
  P t → ∃ t', by_date year d added a t = (Normal tt, t') ∧ P t'.
Proof.
  intros Ht. unfold by_date.
  destruct d as [d|]; [|by exists t].
  destruct (negb added && bool_decide (getFullYear d = year)); [|by exists t].
  destruct (find_month _) as [m|] eqn:Ef; [|by exists t].
  destruct (find_month_Some _ _ Ef) as [-> Hm].
  exists (add_assign t m a). split; [reflexivity|]. by apply P_add.
Qed.

Lemma by_month_name_preserves (year : Z) (inv : row) (added : bool)
    (t : gmap string number) :
  P t → P (by_month_name year inv added a t).2.
Proof.
  intros Ht. unfold by_month_name.
  destruct (negb added && truthy (get inv "invoice_month_name")); [|exact Ht].
  destruct (get inv "invoice_month_name") as [| |b|n|s]; try exact Ht.
  eff_unfold. cbn beta iota. eff_unfold.
  destruct (bool_decide (String.substring 0 3 s ∈ months)) eqn:Em; [|exact Ht].
  apply bool_decide_eq_true_1 in Em.
  destruct (_ || _); [|exact Ht].
  by apply P_add.
Qed.
End Preservation.

Lemma invoice_callback_preserves (P : gmap string number → Prop) (year : Z)
    (inv : option row) (t : gmap string number) :
  (∀ (r : row) (t' : gmap string number) (m : string),
     inv = Some r → num_gt (paymentAmount_of r) (int 0) = true →
     m ∈ months → P t' → P (add_assign t' m (paymentAmount_of r))) →
  P t → P (invoice_callback year inv t).
Proof.
  intros Hadd Ht.
  unfold ProjectCharts.invoice_callback, ProjectCharts.invoice_body.
  destruct inv as [r|]; [|exact Ht].
  destruct (negb (truthy (get r "payment_amount_usd"))); [exact Ht|].
  destruct (num_isNaN (paymentAmount_of r) || num_le (paymentAmount_of r) (int 0))
    eqn:Ea; [exact Ht|].
  apply not_le_num_gt in Ea.
  assert (P_add : ∀ t' m, m ∈ months → P t' → P (add_assign t' m (paymentAmount_of r)))
    by (intros; by eapply Hadd).
  destruct (by_month_year_preserves P _ P_add year r t Ht) as (added & t1 & E1 & H1).
  destruct (by_date_preserves P _ P_add year (invoiceDate_of new_Date r) added t1 H1)
    as (t2 & E2 & H2).
  pose proof (by_month_name_preserves P _ P_add year r added t2 H2) as H3.
  unfold try_catch, mbind, eff_mbind, eff_bind. rewrite E1, E2. exact H3.
Qed.

Lemma payment_totals_preserves (P : gmap string number → Prop) (year : Z)
    (invoiceData : list (option row)) :
  (∀ (r : row) (t' : gmap string number) (m : string),
     Some r ∈ invoiceData → num_gt (paymentAmount_of r) (int 0) = true →
     m ∈ months → P t' → P (add_assign t' m (paymentAmount_of r))) →
  P zero_totals → P (payment_totals year invoiceData).
Proof.
  intros Hadd H0. unfold ProjectCharts.payment_totals.
  induction invoiceData as [|inv l IH] using rev_ind; [exact H0|].
  rewrite forEach_app. cbn [forEach foldl].
  apply invoice_callback_preserves.
  - intros r t' m -> Hpos Hm Ht'. apply Hadd; try done.
    apply elem_of_app. right. by left.
  - apply IH. intros r t' m Hr. apply Hadd. apply elem_of_app. by left.
Qed.

Lemma num_gt_0_finite_pos (a : number) :
  num_gt a (int 0) = true → ∃ q, a = Fin q ∧ (0 < q)%Qc.
Proof.
  destruct a as [q|]; [|discriminate]. cbn [num_gt int].
  intros H%bool_decide_eq_true_1. rewrite Z2Qc_inj_0 in H. eauto.
Qed.

Lemma payment_totals_months_nonneg (year : Z) (invoiceData : list (option row)) :
  dom (payment_totals year invoiceData) = list_to_set months
  ∧ ∀ month : string,
      month ∈ months →
      ∃ q : Qc, payment_totals year invoiceData !! month = Some (Fin q) ∧ (0 ≤ q)%Qc.
Proof.
  set (P := λ t : gmap string number,
              dom t = list_to_set (C := gset string) months
              ∧ ∀ month, month ∈ months →
                         ∃ q : Qc, t !! month = Some (Fin q) ∧ (0 ≤ q)%Qc).
  change (P (payment_totals year invoiceData)).
  apply payment_totals_preserves.
  - intros r t m _ Hpos Hm [Hdom Hval].
    destruct (num_gt_0_finite_pos _ Hpos) as (a & -> & Ha).
    unfold add_assign. split.
    + rewrite dom_insert_L, Hdom.
      apply set_eq. intros x. rewrite elem_of_union, elem_of_singleton, elem_of_list_to_set.
      split; [intros [->|?]; done | tauto].
    + intros month Hmonth. rewrite lookup_insert.
      destruct (decide (m = month)) as [->|Hne]; [|by apply Hval].
      destruct (Hval month Hmonth) as (q & -> & Hq).
      exists (q + a)%Qc. split; [reflexivity|].
      rewrite <- (Qcplus_0_r 0). apply Qcplus_le_compat; [exact Hq|].
      by apply Qclt_le_weak.
  - split; [by_evaluation|].
    unfold months. intros month. rewrite !elem_of_cons, elem_of_nil.
    intros H. exists 0%Qc.
    repeat (destruct H as [-> | H];
            [split; [by_evaluation | apply Qcle_refl]|]). contradiction.
Qed.

(** X10. The invoice accumulator keeps its shape: after any list of
    invoices its properties are exactly the twelve month abbreviations, and
    no total is NaN or negative. *)
Theorem payment_totals_shape (year : Z) (invoiceData : list (option row))
    (month : string) :
  month ∈ months →
  dom (payment_totals year invoiceData) = list_to_set months
  ∧ ∃ total : number,
      payment_totals year invoiceData !! month = Some total
      ∧ num_isNaN total = false
      ∧ num_ge total (int 0) = true.
Proof.
  intros Hm. destruct (payment_totals_months_nonneg year invoiceData) as [Hd Hv].
  split; [exact Hd|].
  destruct (Hv month Hm) as (q & Hq & Hpos).
  exists (Fin q). split; [exact Hq|]. split; [reflexivity|].
  unfold num_ge, num_le, int. apply bool_decide_eq_true_2.
  by rewrite Z2Qc_inj_0.
Qed.
End Accumulator.

Lemma payment_totals_shape_witness :
  "Mar" ∈ months
  ∧ ∃ total : number,
      payment_totals ExampleHost.new_Date ExampleHost.StringToNumber
        ExampleHost.NumberToString 2025
        [Some Examples.refund; Some Examples.dated_and_named] !! "Mar" = Some total
      ∧ num_isNaN total = false
      ∧ num_ge total (int 0) = true.
Proof.
  assert (H : "Mar" ∈ months) by by_evaluation.
  split; [exact H|].
  exact (proj2 (payment_totals_shape ExampleHost.new_Date ExampleHost.StringToNumber
                  ExampleHost.NumberToString 2025
                  [Some Examples.refund; Some Examples.dated_and_named] "Mar" H)).
Defined.

(** ** The three rules on one invoice *)

(** X11. Month and year fields that are numbers, with the selected year and
    a month from 1 to 12, decide alone: the payment is added once, to that
    month, and neither the date nor the month name of the invoice is
    used. *)
Theorem month_year_fields_take_precedence
    (new_Date : value → option Date) (StringToNumber : string → number)
    (NumberToString : number → string)
    (year k : Z) (inv : row) (t : gmap string number) (m : string) :
  num_gt (paymentAmount_of NumberToString inv) (int 0) = true →
  inv !! "invoice_year" = Some (JSNum (int year)) →
  inv !! "invoice_month" = Some (JSNum (int k)) →
  1 ≤ k ≤ 12 →
  months !! Z.to_nat (k - 1) = Some m →
  invoice_callback new_Date StringToNumber NumberToString year (Some inv) t =
  add_assign t m (paymentAmount_of NumberToString inv).
Proof.
  intros Hpos Hy Hm Hrange Hk.
  assert (Hfind : find_month (JSNum (int k)) = Some m).
  { assert (Hcases : k = 1 ∨ k = 2 ∨ k = 3 ∨ k = 4 ∨ k = 5 ∨ k = 6 ∨ k = 7 ∨ k = 8
                     ∨ k = 9 ∨ k = 10 ∨ k = 11 ∨ k = 12) by lia.
    repeat (destruct Hcases as [-> | Hcases];
            [injection Hk as <-; by vm_compute|]).
    subst k. injection Hk as <-. by vm_compute. }
  by eapply month_year_counts_once.
Qed.

Lemma month_year_fields_take_precedence_witness :
  num_gt (paymentAmount_of ExampleHost.NumberToString MoreExamples.fully_labelled)
         (int 0) = true
  ∧ MoreExamples.fully_labelled !! "invoice_year" = Some (JSNum (int 2025))
  ∧ MoreExamples.fully_labelled !! "invoice_month" = Some (JSNum (int 3))
  ∧ 1 ≤ 3 ≤ 12
  ∧ months !! Z.to_nat (3 - 1) = Some "Mar"
  ∧ invoice_callback ExampleHost.new_Date ExampleHost.StringToNumber
      ExampleHost.NumberToString 2025 (Some MoreExamples.fully_labelled) zero_totals =
    add_assign zero_totals "Mar"
      (paymentAmount_of ExampleHost.NumberToString MoreExamples.fully_labelled).
Proof.
  assert (H1 : num_gt (paymentAmount_of ExampleHost.NumberToString
                         MoreExamples.fully_labelled) (int 0) = true)
    by (vm_compute; reflexivity).
  assert (H2 : MoreExamples.fully_labelled !! "invoice_year" = Some (JSNum (int 2025)))
    by (vm_compute; reflexivity).
  assert (H3 : MoreExamples.fully_labelled !! "invoice_month" = Some (JSNum (int 3)))
    by (vm_compute; reflexivity).
  assert (H4 : 1 ≤ 3 ≤ 12) by lia.
  assert (H5 : months !! Z.to_nat (3 - 1) = Some "Mar") by reflexivity.
  repeat (split; [assumption|]).
  exact (month_year_fields_take_precedence ExampleHost.new_Date ExampleHost.StringToNumber
           ExampleHost.NumberToString 2025 3 MoreExamples.fully_labelled zero_totals "Mar"
           H1 H2 H3 H4 H5).
Defined.

(** X12. Without a year field, an invoice with a positive amount, a valid
    date in the selected year and a month name starting with a month
    abbreviation is added twice: to the month of its date and to the month
    of its name. *)
Theorem dated_and_named_invoice_added_twice
    (new_Date : value → option Date) (StringToNumber : string → number)
    (NumberToString : number → string)
    (year : Z) (inv : row) (t : gmap string number) (d : Date) (m s : string) :
  num_gt (paymentAmount_of NumberToString inv) (int 0) = true →
  inv !! "invoice_year" = None →
  invoiceDate_of new_Date inv = Some d →
  getFullYear d = year →
  0 ≤ getMonth d ≤ 11 →
  months !! Z.to_nat (getMonth d) = Some m →
  inv !! "invoice_month_name" = Some (JSStr s) →
  String.substring 0 3 s ∈ months →
  invoice_callback new_Date StringToNumber NumberToString year (Some inv) t =
  add_assign (add_assign t m (paymentAmount_of NumberToString inv))
             (String.substring 0 3 s) (paymentAmount_of NumberToString inv).
Proof.
  intros Hpos Hy Hd Hfull Hrange Hk Hn Hs.
  assert (Hfind : find_month (JSNum (int (getMonth d + 1))) = Some m).
  { destruct d as [y k]. cbn [getMonth] in *.
    assert (Hcases : k = 0 ∨ k = 1 ∨ k = 2 ∨ k = 3 ∨ k = 4 ∨ k = 5 ∨ k = 6 ∨ k = 7
                     ∨ k = 8 ∨ k = 9 ∨ k = 10 ∨ k = 11) by lia.
    repeat (destruct Hcases as [-> | Hcases];
            [injection Hk as <-; by vm_compute|]).
    subst k. injection Hk as <-. by vm_compute. }
  by eapply date_then_name_counts_twice.
Qed.

Lemma dated_and_named_invoice_added_twice_witness :
  num_gt (paymentAmount_of ExampleHost.NumberToString Examples.dated_march_named_april)
         (int 0) = true
  ∧ Examples.dated_march_named_april !! "invoice_year" = None
  ∧ invoiceDate_of ExampleHost.new_Date Examples.dated_march_named_april
    = Some (mkDate 2025 2)
  ∧ getFullYear (mkDate 2025 2) = 2025
  ∧ 0 ≤ getMonth (mkDate 2025 2) ≤ 11
  ∧ months !! Z.to_nat (getMonth (mkDate 2025 2)) = Some "Mar"
  ∧ Examples.dated_march_named_april !! "invoice_month_name" = Some (JSStr "April")
  ∧ String.substring 0 3 "April" ∈ months
  ∧ invoice_callback ExampleHost.new_Date ExampleHost.StringToNumber
      ExampleHost.NumberToString 2025 (Some Examples.dated_march_named_april) zero_totals =
    add_assign (add_assign zero_totals "Mar" (int 300)) "Apr" (int 300).
Proof.
  assert (H1 : num_gt (paymentAmount_of ExampleHost.NumberToString
                         Examples.dated_march_named_april) (int 0) = true)
    by (vm_compute; reflexivity).
  assert (H2 : Examples.dated_march_named_april !! "invoice_year" = None)
    by (vm_compute; reflexivity).
  assert (H3 : invoiceDate_of ExampleHost.new_Date Examples.dated_march_named_april
               = Some (mkDate 2025 2)) by (vm_compute; reflexivity).
  assert (H4 : getFullYear (mkDate 2025 2) = 2025) by reflexivity.
  assert (H5 : 0 ≤ getMonth (mkDate 2025 2) ≤ 11) by (cbn; lia).
  assert (H6 : months !! Z.to_nat (getMonth (mkDate 2025 2)) = Some "Mar")
    by reflexivity.
  assert (H7 : Examples.dated_march_named_april !! "invoice_month_name"
               = Some (JSStr "April")) by (vm_compute; reflexivity).
  assert (H8 : String.substring 0 3 "April" ∈ months) by by_evaluation.
  repeat (split; [assumption|]).
  exact (dated_and_named_invoice_added_twice ExampleHost.new_Date
           ExampleHost.StringToNumber ExampleHost.NumberToString 2025
           Examples.dated_march_named_april zero_totals (mkDate 2025 2) "Mar" "April"
           H1 H2 H3 H4 H5 H6 H7 H8).
Defined.

(** ** Reading amounts *)

Lemma read_digits_nonneg (s : string) (acc : Z) (n : nat) :
  0 ≤ acc → 0 ≤ (read_digits acc n s).1.1.
Proof.
  revert acc n. induction s as [|c s IH]; intros acc n Hacc; [exact Hacc|].
  cbn [read_digits]. destruct (is_digit c); [|exact Hacc].
  apply IH. unfold digit_value. lia.
Qed.

Lemma decimal_nonneg (m : Z) (n : nat) : 0 ≤ m → (0 ≤ decimal m n)%Qc.
Proof.
  intros Hm. unfold decimal, Qcle. cbn [this Q2Qc].
  rewrite !Qred_correct. unfold Qle. cbn [Qnum Qden]. lia.
Qed.

Lemma parse_unsigned_nonneg (s : string) (q : Qc) :
  parse_unsigned s = Some q → (0 ≤ q)%Qc.
Proof.
  unfold parse_unsigned.
  pose proof (read_digits_nonneg s 0 0 (Z.le_refl 0)) as H1.
  destruct (read_digits 0 0 s) as [[ip n1] r]. cbn [fst] in H1.
  assert (Hplain : (if bool_decide (n1 = 0%nat) then None else Some (decimal ip 0))
                   = Some q → (0 ≤ q)%Qc).
  { destruct (bool_decide (n1 = 0%nat)); [discriminate|].
    intros [= <-]. by apply decimal_nonneg. }
  destruct r as [|c r]; [exact Hplain|].
  destruct (Ascii.eqb_spec c "."%char) as [->|Hc].
  - pose proof (read_digits_nonneg r ip 0 H1) as H2.
    destruct (read_digits ip 0 r) as [[m n] r'']. cbn [fst] in H2.
    destruct (_ && _); [discriminate|]. intros [= <-]. by apply decimal_nonneg.
  - revert Hplain.
    destruct c as [[] [] [] [] [] [] [] []]; try exact (λ H, H); by destruct Hc.
Qed.

(** X13. A string amount whose text, once stripped to digits, dots and
    hyphens, starts with a hyphen is never counted: the invoice leaves every
    monthly total as it was. *)
Theorem hyphen_led_amount_excluded
    (new_Date : value → option Date) (StringToNumber : string → number)
    (NumberToString : number → string)
    (year : Z) (inv : row) (t : gmap string number) (s rest : string) :
  replace_non_numeric s = String "-" rest →
  invoice_callback new_Date StringToNumber NumberToString year
    (Some (<["payment_amount_usd" := JSStr s]> inv)) t = t.
Proof.
  intros Hs. apply invoice_callback_unusable. right.
  rewrite paymentAmount_of_string, Hs. cbn zeta. cbn [parseFloat].
  destruct (parse_unsigned rest) as [q|] eqn:Eq; cbn [number_of_option num_neg truthy].
  - apply parse_unsigned_nonneg in Eq.
    destruct (bool_decide (- q = 0)%Qc) eqn:Ez; cbn [negb].
    + right. by vm_compute.
    + right. cbn [num_le int]. apply bool_decide_eq_true_2.
      rewrite Z2Qc_inj_0. apply Qcopp_le_compat in Eq.
      replace (- 0)%Qc with 0%Qc in Eq by (apply Qc_is_canon; reflexivity).
      exact Eq.
  - right. by vm_compute.
Qed.

Lemma hyphen_led_amount_excluded_witness :
  replace_non_numeric "-$45.10" = String "-" "45.10"
  ∧ invoice_callback ExampleHost.new_Date ExampleHost.StringToNumber
      ExampleHost.NumberToString 2025
      (Some (<["payment_amount_usd" := JSStr "-$45.10"]> Examples.dated_and_named))
      zero_totals = zero_totals.
Proof.
  assert (H : replace_non_numeric "-$45.10" = String "-" "45.10") by reflexivity.
  split; [exact H|].
  exact (hyphen_led_amount_excluded ExampleHost.new_Date ExampleHost.StringToNumber
           ExampleHost.NumberToString 2025 Examples.dated_and_named zero_totals
           "-$45.10" "45.10" H).
Defined.

(** ** Column names *)

Lemma string_length_app (a b : string) :
  String.length (a +:+ b) = (String.length a + String.length b)%nat.
Proof.
  induction a as [|c a IH]; [reflexivity|].
  change (String c a +:+ b) with (String c (a +:+ b)).
  cbn [String.length Nat.add]. by rewrite IH.
Qed.

Lemma string_app_inj_suffix (a a' b b' : string) :
  String.length b = String.length b' →
  a +:+ b = a' +:+ b' → a = a' ∧ b = b'.
Proof.
  intros Hlen. revert a'. induction a as [|c a IH]; intros [|c' a'] H.
  - done.
  - change (b = String c' (a' +:+ b')) in H. subst b.
    cbn [String.length] in Hlen. rewrite string_length_app in Hlen. lia.
  - change (String c (a +:+ b) = b') in H. subst b'.
    cbn [String.length] in Hlen. rewrite string_length_app in Hlen. lia.
  - change (String c (a +:+ b) = String c' (a' +:+ b')) in H.
    injection H as -> H. destruct (IH _ H) as [-> ->]. done.
Qed.

Lemma months_length_3 (m : string) : m ∈ months → String.length m = 3%nat.
Proof.
  unfold months. rewrite !elem_of_cons, elem_of_nil.
  intros H. repeat (destruct H as [-> | H]; [reflexivity|]). contradiction.
Qed.

Lemma exactFieldName_inj (y y' : Z) (m m' : string) :
  m ∈ months → m' ∈ months →
  exactFieldName y m = exactFieldName y' m' → y = y' ∧ m = m'.
Proof.
  intros Hm Hm' H. unfold exactFieldName in H.
  apply string_app_inj_suffix in H as [Hy Hs].
  - split; [by apply (inj pretty) in Hy|].
    change (String " " m = String " " m') in Hs. by injection Hs.
  - by rewrite !string_length_app, (months_length_3 m Hm), (months_length_3 m' Hm').
Qed.

(** X14. Different pairs of year and month name different columns, so a
    column feeds one month of one year only: writing any value into the
    column of another year or month of one record leaves the total of month
    M of year Y unchanged. *)
Theorem column_feeds_one_month (y y' : Z) (m m' : string) (v : value)
    (before after : list row) (p : row) :
  m ∈ months → m' ∈ months →
  (y, m) ≠ (y', m') →
  exactFieldName y m ≠ exactFieldName y' m'
  ∧ get_number (monthlyTotals y (before ++ <[exactFieldName y' m' := v]> p :: after)) m =
    get_number (monthlyTotals y (before ++ p :: after)) m.
Proof.
  intros Hm Hm' Hne.
  assert (Hname : exactFieldName y m ≠ exactFieldName y' m').
  { intros H. apply exactFieldName_inj in H as [-> ->]; done. }
  split; [exact Hname|].
  rewrite !monthlyTotals_get by exact Hm.
  rewrite !fmap_app, !fmap_cons. do 3 f_equal.
  unfold numeric_field. by rewrite lookup_insert_ne.
Qed.

Lemma column_feeds_one_month_witness :
  "Jan" ∈ months ∧ "Jan" ∈ months ∧ (2025, "Jan") ≠ (2024, "Jan")
  ∧ get_number
      (monthlyTotals 2025
         ([] ++ <[exactFieldName 2024 "Jan" := JSNum (int 7)]> ∅ :: Examples.two_P1)) "Jan" =
    get_number (monthlyTotals 2025 ([] ++ ∅ :: Examples.two_P1)) "Jan".
Proof.
  assert (H1 : "Jan" ∈ months) by by_evaluation.
  assert (H2 : (2025, "Jan") ≠ (2024, "Jan")) by discriminate.
  split; [exact H1|]. split; [exact H1|]. split; [exact H2|].
  exact (proj2 (column_feeds_one_month 2025 2024 "Jan" "Jan" (JSNum (int 7))
                  [] Examples.two_P1 ∅ H1 H1 H2)).
Defined.


(** ** The totals computed while rendering *)

Import RenderVocabulary.

Section RenderLoop.
Context (new_Date : value → option Date).
Context (NumberToString : number → string).
Context (parseInt : string → number).

Local Abbreviation recover_from_text :=
  (Render.recover_from_text NumberToString parseInt).
Local Abbreviation by_year_field := (Render.by_year_field NumberToString parseInt).
Local Abbreviation render_body := (Render.invoice_body new_Date NumberToString parseInt).
Local Abbreviation render_callback :=
  (Render.invoice_callback new_Date NumberToString parseInt).
Local Abbreviation render_tally := (Render.render_tally new_Date NumberToString parseInt).
Local Abbreviation actualizedMonthlyRevenue :=
  (Render.actualizedMonthlyRevenue new_Date NumberToString parseInt).

Lemma one_addition_refl (t : Render.Tally) : one_addition t t.
Proof. repeat split; by left. Qed.

Lemma one_addition_count (t : Render.Tally) (m : string) (a : number) :
  m ∈ months → one_addition t (Render.count_payment m a t).
Proof. intros Hm. repeat split. right. by exists m, a. Qed.

Lemma recover_from_text_outcome (inv : row) (rawDate : value) (t : Render.Tally) :
  ∃ t', recover_from_text inv rawDate t = (Normal tt, t') ∧ one_addition t t'.
Proof.
  unfold Render.recover_from_text.
  destruct (bool_decide (3 ≤ _)%nat); [|exists t; split; [done|apply one_addition_refl]].
  destruct (List.filter _ _) as [|firstYear ?];
    [exists t; split; [done|apply one_addition_refl]|].
  destruct (strict_eq _ _); [|exists t; split; [done|apply one_addition_refl]].
  destruct (List.filter _ _) as [|firstPart [|? ?]];
    try (exists t; split; [done|apply one_addition_refl]).
  destruct (_ && _); [|exists t; split; [done|apply one_addition_refl]].
  destruct (find_month _) as [m|] eqn:Ef;
    [|exists t; split; [done|apply one_addition_refl]].
  destruct (find_month_Some _ _ Ef) as [-> Hm].
  eexists. split; [reflexivity|]. by apply one_addition_count.
Qed.

Lemma by_year_field_outcome (inv : row) (a : number) (t : Render.Tally) :
  ∃ c t', by_year_field inv a t = (c, t') ∧ one_addition t t'.
Proof.
  unfold Render.by_year_field.
  destruct (_ || _); [|exists (Normal tt), t; split; [done|apply one_addition_refl]].
  assert (Hfinish : ∀ month : option string,
            ∃ c t',
              match month with
              | Some month =>
                  if truthy (JSStr month) && bool_decide (month ∈ months)
                  then modify (Render.count_payment month a)
                  else mret tt
              | None => mret tt
              end t = (c, t') ∧ one_addition t t').
  { intros [m|]; [|exists (Normal tt), t; split; [done|apply one_addition_refl]].
    destruct (truthy (JSStr m)); cbn [andb];
      [|exists (Normal tt), t; split; [done|apply one_addition_refl]].
    destruct (bool_decide (m ∈ months)) eqn:Em;
      [|exists (Normal tt), t; split; [done|apply one_addition_refl]].
    apply bool_decide_eq_true_1 in Em.
    eexists _, _. split; [reflexivity|]. by apply one_addition_count. }
  destruct (truthy (get inv "invoice_month_name")).
  - destruct (get inv "invoice_month_name") as [| |b|n|s];
      try (exists (Thrown "TypeError: substring is not a function"), t;
           split; [reflexivity|apply one_addition_refl]).
    exact (Hfinish (Some (String.substring 0 3 s))).
  - destruct (truthy (get inv "invoice_month")); [|exact (Hfinish None)].
    destruct (_ && _); [|exact (Hfinish None)].
    exact (Hfinish (find_month _)).
Qed.

Lemma render_callback_outcome (inv : option row) (t : Render.Tally) :
  ∃ t1, one_addition t t1
        ∧ (render_callback inv t = Render.count_processed t1
           ∨ render_callback inv t =
             Render.count_processed (Render.count_date_error t1)).
Proof.
  unfold Render.invoice_callback, Render.invoice_body.
  destruct inv as [inv|]; [|exists t; split; [apply one_addition_refl|by left]].
  unfold Render.parse_date_block, Render.eff_catch.
  destruct (new_Date (get inv "invoice_date")) as [d|].
  - eff_unfold. cbn beta iota.
    destruct (bool_decide (getFullYear d = 2025)).
    + destruct (find_month _) as [m|] eqn:Ef;
        [|exists t; split; [apply one_addition_refl|by left]].
      destruct (find_month_Some _ _ Ef) as [-> Hm].
      eexists. split; [by apply (one_addition_count t m)|]. by left.
    + destruct (by_year_field_outcome inv
                  (parsePaymentAmount (get inv "payment_amount_usd")) t)
        as (c & t' & E & Ht').
      rewrite E. exists t'. split; [exact Ht'|]. destruct c; by left.
  - destruct (recover_from_text_outcome inv (get inv "invoice_date")
                (Render.count_date_error t)) as (t' & E & Ht').
    eff_unfold. cbn beta iota. rewrite E. cbn beta iota.
    destruct t as [tot pr va er], t' as [tot' pr' va' er'].
    destruct Ht' as (Hp & He & Hc). cbn in Hp, He, Hc.
    exists (Render.mkTally tot' pr' va' er). split.
    + repeat split; [exact Hp|exact Hc].
    + right. unfold Render.count_processed, Render.count_date_error. cbn.
      by rewrite He.
Qed.

Lemma forEach_snoc {A S} (f : A → S → S) (l : list A) (x : A) (s : S) :
  forEach f (l ++ [x]) s = f x (forEach f l s).
Proof. unfold forEach. by rewrite foldl_app. Qed.

Lemma render_tally_forEach (l : list (option row)) :
  render_tally l = forEach render_callback l Render.zero_tally.
Proof. by destruct l. Qed.

Lemma render_loop_invariant (l : list (option row)) (t0 : Render.Tally) :
  let t := forEach render_callback l t0 in
  Render.processed t = (Render.processed t0 + length l)%nat
  ∧ (Render.validInvoicesForYear t0 ≤ Render.validInvoicesForYear t
     ≤ Render.validInvoicesForYear t0 + length l)%nat
  ∧ (Render.dateParsingErrors t0 ≤ Render.dateParsingErrors t
     ≤ Render.dateParsingErrors t0 + length l)%nat
  ∧ (dom (Render.monthlyInvoiceTotals t0) = list_to_set months →
     dom (Render.monthlyInvoiceTotals t) = list_to_set months).
Proof.
  induction l as [|inv l IH] using rev_ind.
  - cbn. repeat split; try lia. done.
  - cbn zeta in *. rewrite forEach_snoc, length_app. cbn [length].
    set (t := forEach render_callback l t0) in *.
    destruct IH as (Hp & Hv & He & Hd).
    destruct (render_callback_outcome inv t) as (t1 & (Hp1 & He1 & Hc) & Hr).
    assert (Hdom : dom (Render.monthlyInvoiceTotals t0) = list_to_set months →
                   dom (Render.monthlyInvoiceTotals t1) = list_to_set months).
    { intros H0. specialize (Hd H0).
      destruct Hc as [[-> _]|(m & a & Hm & -> & _)]; [exact Hd|].
      unfold add_assign. rewrite dom_insert_L, Hd.
      apply set_eq. intros x.
      rewrite elem_of_union, elem_of_singleton, elem_of_list_to_set.
      split; [intros [->|?]; done | tauto]. }
    assert (Hval : (Render.validInvoicesForYear t ≤ Render.validInvoicesForYear t1
                    ≤ S (Render.validInvoicesForYear t))%nat).
    { destruct Hc as [[_ ->]|(m & a & _ & _ & ->)]; lia. }
    destruct Hr as [-> | ->]; cbn; repeat split; try lia; exact Hdom.
Qed.

(** X15. The loop run while rendering accounts for every invoice: after it
    the counter [processed] equals the number of invoices, whether an entry
    was counted, skipped or threw; [validInvoicesForYear] and
    [dateParsingErrors] do not exceed it; the totals object still has
    exactly the twelve months as properties; and the array handed to the
    chart has twelve entries, none of them NaN. *)
Theorem render_loop_accounts_for_every_invoice (invoiceData : list (option row)) :
  Render.processed (render_tally invoiceData) = length invoiceData
  ∧ (Render.validInvoicesForYear (render_tally invoiceData) ≤ length invoiceData)%nat
  ∧ (Render.dateParsingErrors (render_tally invoiceData) ≤ length invoiceData)%nat
  ∧ dom (Render.monthlyInvoiceTotals (render_tally invoiceData)) = list_to_set months
  ∧ length (actualizedMonthlyRevenue invoiceData) = 12%nat
  ∧ NaN ∉ actualizedMonthlyRevenue invoiceData.
Proof.
  rewrite render_tally_forEach.
  destruct (render_loop_invariant invoiceData Render.zero_tally) as (Hp & Hv & He & Hd).
  cbn in Hp, Hv, He.
  split; [exact Hp|]. split; [lia|]. split; [lia|].
  split; [apply Hd; by_evaluation|]. split; [reflexivity|].
  unfold Render.actualizedMonthlyRevenue. intros Hin.
  apply list_elem_of_fmap in Hin as (m & Hnan & _).
  cbn zeta in Hnan.
  destruct (get_number _ m) as [q|]; cbn [truthy] in Hnan; [|discriminate].
  by destruct (negb (bool_decide (q = 0%Qc))).
Qed.

(** X16. While rendering, a date that the host reads as a day of 2025
    decides alone: the amount, when it is a number, is added to the month of
    the date as it is, whatever its sign, and the entry is counted as valid
    and processed; the year, month and month-name fields are not used. *)
Theorem render_date_in_2025_decides (inv : row) (t : Render.Tally) (d : Date)
    (m : string) (n : number) :
  new_Date (get inv "invoice_date") = Some d →
  getFullYear d = 2025 →
  0 ≤ getMonth d ≤ 11 →
  months !! Z.to_nat (getMonth d) = Some m →
  inv !! "payment_amount_usd" = Some (JSNum n) →
  render_callback (Some inv) t =
  Render.count_processed (Render.count_payment m n t).
Proof.
  intros Hd Hy Hrange Hm Hn.
  assert (Hfind : find_month (JSNum (int (getMonth d + 1))) = Some m).
  { destruct d as [y k]. cbn [getMonth] in *.
    assert (Hcases : k = 0 ∨ k = 1 ∨ k = 2 ∨ k = 3 ∨ k = 4 ∨ k = 5 ∨ k = 6 ∨ k = 7
                     ∨ k = 8 ∨ k = 9 ∨ k = 10 ∨ k = 11) by lia.
    repeat (destruct Hcases as [-> | Hcases];
            [injection Hm as <-; by vm_compute|]).
    subst k. injection Hm as <-. by vm_compute. }
  destruct (find_month_Some _ _ Hfind) as [Ht _].
  unfold Render.invoice_callback, Render.invoice_body, Render.parse_date_block,
    Render.eff_catch.
  rewrite Hd. eff_unfold. cbn beta iota.
  rewrite (bool_decide_eq_true_2 _ Hy), Hfind, Ht.
  unfold get at 1. by rewrite Hn.
Qed.

(** X17. While rendering, an invoice whose date is valid but not in 2025 and
    whose year field is the number 2025 or the string "2025" is placed by
    the first three characters of its month name when they are a month
    abbreviation; its month number is not looked at. *)
Theorem render_year_field_uses_month_name (inv : row) (t : Render.Tally) (d : Date)
    (s : string) :
  new_Date (get inv "invoice_date") = Some d →
  getFullYear d ≠ 2025 →
  inv !! "invoice_year" = Some (JSNum (int 2025))
  ∨ inv !! "invoice_year" = Some (JSStr "2025") →
  inv !! "invoice_month_name" = Some (JSStr s) →
  String.substring 0 3 s ∈ months →
  render_callback (Some inv) t =
  Render.count_processed
    (Render.count_payment (String.substring 0 3 s)
       (parsePaymentAmount (get inv "payment_amount_usd")) t).
Proof.
  intros Hd Hy Hyear Hname Hs.
  assert (Hn : get inv "invoice_month_name" = JSStr s) by (unfold get; by rewrite Hname).
  assert (Hst : truthy (JSStr s) = true).
  { destruct s; [|reflexivity]. exfalso. revert Hs.
    change (¬ (String.substring 0 3 "" ∈ months)). by_evaluation. }
  assert (Hsub : truthy (JSStr (String.substring 0 3 s)) = true).
  { destruct (String.substring 0 3 s); [|reflexivity]. exfalso. revert Hs.
    change (¬ ("" ∈ months)). by_evaluation. }
  assert (Hyf : strict_eq (get inv "invoice_year") (JSNum (int 2025)) ||
                strict_eq (get inv "invoice_year") (JSStr "2025") = true).
  { unfold get. destruct Hyear as [-> | ->]; by vm_compute. }
  unfold Render.invoice_callback, Render.invoice_body, Render.parse_date_block,
    Render.eff_catch.
  rewrite Hd. eff_unfold. cbn beta iota.
  rewrite (bool_decide_eq_false_2 _ Hy).
  unfold Render.by_year_field. rewrite Hyf, Hn, Hst.
  eff_unfold. cbn beta iota. eff_unfold.
  rewrite Hsub, (bool_decide_eq_true_2 _ Hs). reflexivity.
Qed.
End RenderLoop.


Lemma render_date_in_2025_decides_witness :
  ExampleHost.new_Date (get MoreExamples.credit_note "invoice_date") = Some (mkDate 2025 2)
  ∧ getFullYear (mkDate 2025 2) = 2025
  ∧ 0 ≤ getMonth (mkDate 2025 2) ≤ 11
  ∧ months !! Z.to_nat (getMonth (mkDate 2025 2)) = Some "Mar"
  ∧ MoreExamples.credit_note !! "payment_amount_usd" = Some (JSNum (int (-50)))
  ∧ Render.invoice_callback ExampleHost.new_Date ExampleHost.NumberToString
      MoreExamples.parseInt (Some MoreExamples.credit_note) Render.zero_tally =
    Render.count_processed (Render.count_payment "Mar" (int (-50)) Render.zero_tally).
Proof.
  assert (H1 : ExampleHost.new_Date (get MoreExamples.credit_note "invoice_date")
               = Some (mkDate 2025 2)) by (vm_compute; reflexivity).
  assert (H2 : getFullYear (mkDate 2025 2) = 2025) by reflexivity.
  assert (H3 : 0 ≤ getMonth (mkDate 2025 2) ≤ 11) by (cbn; lia).
  assert (H4 : months !! Z.to_nat (getMonth (mkDate 2025 2)) = Some "Mar") by reflexivity.
  assert (H5 : MoreExamples.credit_note !! "payment_amount_usd" = Some (JSNum (int (-50))))
    by (vm_compute; reflexivity).
  repeat (split; [assumption|]).
  exact (render_date_in_2025_decides ExampleHost.new_Date ExampleHost.NumberToString
           MoreExamples.parseInt MoreExamples.credit_note Render.zero_tally
           (mkDate 2025 2) "Mar" (int (-50)) H1 H2 H3 H4 H5).
Defined.

Lemma render_year_field_uses_month_name_witness :
  ExampleHost.new_Date (get MoreExamples.relabelled "invoice_date") = Some (mkDate 2024 11)
  ∧ getFullYear (mkDate 2024 11) ≠ 2025
  ∧ (MoreExamples.relabelled !! "invoice_year" = Some (JSNum (int 2025))
     ∨ MoreExamples.relabelled !! "invoice_year" = Some (JSStr "2025"))
  ∧ MoreExamples.relabelled !! "invoice_month_name" = Some (JSStr "June")
  ∧ String.substring 0 3 "June" ∈ months
  ∧ Render.invoice_callback ExampleHost.new_Date ExampleHost.NumberToString
      MoreExamples.parseInt (Some MoreExamples.relabelled) Render.zero_tally =
    Render.count_processed (Render.count_payment "Jun" (int 300) Render.zero_tally).
Proof.
  assert (H1 : ExampleHost.new_Date (get MoreExamples.relabelled "invoice_date")
               = Some (mkDate 2024 11)) by (vm_compute; reflexivity).
  assert (H2 : getFullYear (mkDate 2024 11) ≠ 2025) by discriminate.
  assert (H3 : MoreExamples.relabelled !! "invoice_year" = Some (JSNum (int 2025))
               ∨ MoreExamples.relabelled !! "invoice_year" = Some (JSStr "2025"))
    by (right; vm_compute; reflexivity).
  assert (H4 : MoreExamples.relabelled !! "invoice_month_name" = Some (JSStr "June"))
    by (vm_compute; reflexivity).
  assert (H5 : String.substring 0 3 "June" ∈ months) by by_evaluation.
  repeat (split; [assumption|]).
  exact (render_year_field_uses_month_name ExampleHost.new_Date ExampleHost.NumberToString
           MoreExamples.parseInt MoreExamples.relabelled Render.zero_tally
           (mkDate 2024 11) "June" H1 H2 H3 H4 H5).
Defined.

(** ** The chart and the state *)

Section ChartAndState.
Context (new_Date : value → option Date).
Context (StringToNumber : string → number).
Context (NumberToString : number → string).
Context (parseInt : string → number).

Local Abbreviation render_callback :=
  (Render.invoice_callback new_Date NumberToString parseInt).
Local Abbreviation state_callback :=
  (ProjectCharts.invoice_callback new_Date StringToNumber NumberToString).

Lemma placed_by_date_same_step (invoice : option row) (t : Render.Tally) :
  placed_by_date_2025 new_Date invoice →
  Render.monthlyInvoiceTotals (render_callback invoice t) =
  state_callback 2025 invoice (Render.monthlyInvoiceTotals t).
Proof.
  intros (inv & q & d & -> & Ha & Hq & Hdt & Hd & Hy & Hm & Hn).
  assert (Hraw : get inv "payment_amount_usd" = JSNum (Fin q)) by (unfold get; by rewrite Ha).
  assert (Hmo : get inv "invoice_month" = JSUndefined) by (unfold get; by rewrite Hm).
  assert (Hq0 : bool_decide (q = 0%Qc) = false).
  { apply bool_decide_eq_false_2. intros ->. by apply Qclt_not_eq in Hq. }
  assert (Hle : bool_decide (q ≤ Qc_of_Z 0)%Qc = false).
  { apply bool_decide_eq_false_2. rewrite Z2Qc_inj_0. by apply Qclt_not_le. }
  assert (Hrender : Render.monthlyInvoiceTotals (render_callback (Some inv) t) =
                    match find_month (JSNum (int (getMonth d + 1))) with
                    | Some m => add_assign (Render.monthlyInvoiceTotals t) m (Fin q)
                    | None => Render.monthlyInvoiceTotals t
                    end).
  { unfold Render.invoice_callback, Render.invoice_body, Render.parse_date_block,
      Render.eff_catch.
    rewrite Hd. eff_unfold. cbn beta iota.
    rewrite (bool_decide_eq_true_2 _ Hy), Hraw. cbn [parsePaymentAmount].
    destruct (find_month _) as [m|] eqn:Ef; [|reflexivity].
    destruct (find_month_Some _ _ Ef) as [-> _]. reflexivity. }
  rewrite Hrender.
  unfold ProjectCharts.invoice_callback, ProjectCharts.invoice_body,
    ProjectCharts.paymentAmount_of, ProjectCharts.invoiceDate_of.
  rewrite Hd, Hdt, Hraw. cbn [truthy negb num_isNaN num_le int orb].
  rewrite Hq0, Hle. cbn [negb].
  unfold by_month_year. rewrite Hmo.
  replace (isNaN StringToNumber JSUndefined) with true by reflexivity.
  cbn [negb andb].
  unfold by_date, by_month_name. rewrite Hn, (bool_decide_eq_true_2 _ Hy).
  eff_unfold. cbn [negb andb].
  destruct (find_month _) as [m|] eqn:Ef; [|reflexivity].
  destruct (find_month_Some _ _ Ef) as [-> _]. reflexivity.
Qed.

Lemma placed_by_date_same_totals (l : list (option row)) (t : Render.Tally) :
  Forall (placed_by_date_2025 new_Date) l →
  Render.monthlyInvoiceTotals (forEach render_callback l t) =
  forEach (state_callback 2025) l (Render.monthlyInvoiceTotals t).
Proof.
  induction l as [|inv l IH] using rev_ind; [reflexivity|].
  intros [Hl Hinv]%Forall_app.
  apply (proj1 (Forall_singleton _ _)) in Hinv.
  by rewrite !forEach_snoc, placed_by_date_same_step, IH.
Qed.

(** X18. The chart and the state agree on invoices that only their date
    places: for a non-empty list of invoices with a positive numeric amount,
    a date in 2025, no month number and no month name, and with 2025
    selected, the array stored by [calculateInvoiceData] is the array the
    chart shows. *)
Theorem chart_and_state_agree (invoiceData : list (option row)) (st : State) :
  Forall (placed_by_date_2025 new_Date) invoiceData →
  invoiceData ≠ [] →
  selectedYear st = 2025 →
  monthlyPayments
    (calculateInvoiceData new_Date StringToNumber NumberToString invoiceData st) =
  Render.actualizedMonthlyRevenue new_Date NumberToString parseInt invoiceData.
Proof.
  intros Hall Hne Hy.
  assert (Hres : monthlyPayments
                   (calculateInvoiceData new_Date StringToNumber NumberToString
                      invoiceData st) =
                 months_map (payment_totals new_Date StringToNumber NumberToString
                               (selectedYear st) invoiceData)).
  { unfold calculateInvoiceData. by destruct invoiceData. }
  rewrite Hres, Hy. unfold Render.actualizedMonthlyRevenue, months_map.
  rewrite render_tally_forEach, placed_by_date_same_totals by exact Hall.
  change (forEach (state_callback 2025) invoiceData
            (Render.monthlyInvoiceTotals Render.zero_tally))
    with (payment_totals new_Date StringToNumber NumberToString 2025 invoiceData).
  apply list_fmap_ext. intros i m Hm. cbn zeta.
  destruct (proj2 (payment_totals_months_nonneg new_Date StringToNumber NumberToString
                     2025 invoiceData) m) as (q & Hq & Hq0);
    [by eapply list_elem_of_lookup_2|].
  unfold get_number. rewrite Hq. cbn [default from_option id truthy].
  destruct (bool_decide (q = 0%Qc)) eqn:E; [|reflexivity].
  apply bool_decide_eq_true_1 in E. subst q. cbn [negb]. by rewrite int_0.
Qed.
End ChartAndState.

Lemma chart_and_state_agree_witness :
  Forall (placed_by_date_2025 ExampleHost.new_Date) [Some MoreExamples.dated_only]
  ∧ [Some MoreExamples.dated_only] ≠ []
  ∧ selectedYear (initial_state 2025) = 2025
  ∧ monthlyPayments
      (calculateInvoiceData ExampleHost.new_Date ExampleHost.StringToNumber
         ExampleHost.NumberToString [Some MoreExamples.dated_only] (initial_state 2025)) =
    Render.actualizedMonthlyRevenue ExampleHost.new_Date ExampleHost.NumberToString
      MoreExamples.parseInt [Some MoreExamples.dated_only].
Proof.
  assert (H1 : Forall (placed_by_date_2025 ExampleHost.new_Date)
                 [Some MoreExamples.dated_only]).
  { apply Forall_singleton.
    exists MoreExamples.dated_only, (Qc_of_Z 300), (mkDate 2025 2).
    split; [reflexivity|]. split; [vm_compute; reflexivity|].
    split; [by_evaluation|]. split; [vm_compute; reflexivity|].
    split; [vm_compute; reflexivity|]. split; [reflexivity|].
    split; vm_compute; reflexivity. }
  assert (H2 : [Some MoreExamples.dated_only] ≠ []) by discriminate.
  assert (H3 : selectedYear (initial_state 2025) = 2025) by reflexivity.
  repeat (split; [assumption|]).
  exact (chart_and_state_agree ExampleHost.new_Date ExampleHost.StringToNumber
           ExampleHost.NumberToString MoreExamples.parseInt
           [Some MoreExamples.dated_only] (initial_state 2025) H1 H2 H3).
Defined.

(** ** The static page: quarters by position *)

Section StaticQuarters.
Context (NumberToString : number → string).

Local Abbreviation quarter_callback := (StaticCharts.quarter_callback NumberToString).
Local Abbreviation quarterlyTotals := (StaticCharts.quarterlyTotals NumberToString).
Local Abbreviation js_add := (StaticCharts.js_add NumberToString).

Local Abbreviation add_to_quarter := (StaticCharts.add_to_quarter NumberToString).

#[local] Arguments num_add : simpl never.
#[local] Arguments int : simpl never.

Lemma quarter_loop_values (items : list row) (i : nat) (acc : list value) :
  StaticCharts.forEach_from quarter_callback i items acc =
  StaticCharts.forEach_from add_to_quarter i
    ((λ item, get item "revenue_total") <$> items) acc.
Proof.
  revert i acc. induction items as [|item items IH]; intros i acc; [reflexivity|].
  cbn [StaticCharts.forEach_from fmap list_fmap]. by rewrite IH.
Qed.

Lemma quarters_of_at_most_twelve (revs : list number) :
  (length revs ≤ 12)%nat →
  StaticCharts.forEach_from add_to_quarter 0 (JSNum <$> revs)
    (JSNum <$> [int 0; int 0; int 0; int 0]) = JSNum <$> quarter_sums_left revs.
Proof.
  intros Hlen.
  do 13 (destruct revs as [|? revs]; [reflexivity|]).
  cbn [length] in Hlen. lia.
Qed.

(** X19. On the static page the quarter of a row is its position among the
    rows selected for the year, three rows to a quarter, not its month:
    with numeric revenues and at most twelve selected rows, bar k of the
    quarterly chart is the sum, accumulated from 0 and from the left, of
    the revenues at positions 3k, 3k+1 and 3k+2 of the monthly chart. *)
Theorem static_quarters_by_position (revenueData filtered : list row)
    (year : string) (revs : list number) :
  StaticCharts.filter_by_year year revenueData = Normal filtered →
  (λ item, get item "revenue_total") <$> filtered = JSNum <$> revs →
  (length revs ≤ 12)%nat →
  quarterlyTotals revenueData year = Normal (JSNum <$> quarter_sums_left revs)
  ∧ StaticCharts.monthly_revenues revenueData year = Normal (JSNum <$> revs).
Proof.
  intros Hf Hv Hlen.
  unfold StaticCharts.quarterlyTotals, StaticCharts.monthly_revenues,
    StaticCharts.forEach_index.
  rewrite Hf, quarter_loop_values, Hv, (quarters_of_at_most_twelve revs Hlen). done.
Qed.

Ltac div3 :=
  repeat match goal with
  | |- context [ (?a / 3)%nat ] =>
      let q := fresh "q" in
      let r := fresh "r" in
      pose proof (Nat.div_mod_eq a 3);
      pose proof (Nat.mod_upper_bound a 3 ltac:(lia));
      set (q := (a / 3)%nat) in *; set (r := (a mod 3)%nat) in *; clearbody q r
  | H : context [ (?a / 3)%nat ] |- _ =>
      let q := fresh "q" in
      let r := fresh "r" in
      pose proof (Nat.div_mod_eq a 3);
      pose proof (Nat.mod_upper_bound a 3 ltac:(lia));
      set (q := (a / 3)%nat) in *; set (r := (a mod 3)%nat) in *; clearbody q r
  end.

Lemma add_to_quarter_growth (r : number) (i : nat) (acc : list value) :
  length acc = Nat.max 4 ((i + 2) / 3) →
  (∀ k : nat, (4 ≤ k < length acc)%nat → acc !! k = Some (JSNum NaN)) →
  length (add_to_quarter (JSNum r) i acc) = Nat.max 4 ((S i + 2) / 3)
  ∧ ∀ k : nat, (4 ≤ k < length (add_to_quarter (JSNum r) i acc))%nat →
               add_to_quarter (JSNum r) i acc !! k = Some (JSNum NaN).
Proof.
  intros Hlen Hnan.
  unfold StaticCharts.add_to_quarter, StaticCharts.array_set, StaticCharts.array_get.
  destruct (Nat.ltb_spec (i / 3) (length acc)) as [Hlt|Hge].
  - split.
    + rewrite length_insert, Hlen. rewrite Hlen in Hlt. clear -Hlt. div3. lia.
    + intros k. rewrite length_insert. intros Hk.
      destruct (decide (k = (i / 3)%nat)) as [->|Hne].
      * rewrite list_lookup_insert_eq by exact Hlt.
        rewrite (Hnan _ Hk). reflexivity.
      * rewrite list_lookup_insert_ne by congruence. by apply Hnan.
  - assert (Heq : (i / 3 = length acc)%nat) by (rewrite Hlen in *; clear -Hge; div3; lia).
    rewrite Heq, Nat.sub_diag. cbn [replicate app].
    rewrite lookup_ge_None_2 by lia. cbn [default from_option id].
    split.
    + rewrite length_app. cbn [length]. rewrite Hlen in *. clear -Hge. div3. lia.
    + intros k. rewrite length_app. cbn [length]. intros Hk.
      destruct (decide (k < length acc)%nat) as [Hk'|Hk'].
      * rewrite lookup_app_l by exact Hk'. apply Hnan. lia.
      * rewrite lookup_app_r by lia.
        replace (k - length acc)%nat with 0%nat by lia. reflexivity.
Qed.

Lemma quarter_loop_growth (revs : list number) (i : nat) (acc : list value) :
  length acc = Nat.max 4 ((i + 2) / 3) →
  (∀ k : nat, (4 ≤ k < length acc)%nat → acc !! k = Some (JSNum NaN)) →
  length (StaticCharts.forEach_from add_to_quarter i (JSNum <$> revs) acc)
  = Nat.max 4 ((i + length revs + 2) / 3)
  ∧ ∀ k : nat,
      (4 ≤ k < length (StaticCharts.forEach_from add_to_quarter i (JSNum <$> revs) acc))%nat →
      StaticCharts.forEach_from add_to_quarter i (JSNum <$> revs) acc !! k
      = Some (JSNum NaN).
Proof.
  revert i acc. induction revs as [|r revs IH]; intros i acc Hlen Hnan.
  - cbn [fmap list_fmap StaticCharts.forEach_from length].
    rewrite Nat.add_0_r. by split.
  - cbn [fmap list_fmap StaticCharts.forEach_from length].
    destruct (add_to_quarter_growth r i acc Hlen Hnan) as [Hlen' Hnan'].
    replace (i + S (length revs) + 2)%nat with (S i + length revs + 2)%nat by lia.
    by apply IH.
Qed.

(** X20. With more than twelve selected rows the array of quarterly totals
    grows past its four entries: it ends up with one entry for every three
    rows, and every entry after the fourth is NaN, also when all revenues
    are numbers. *)
Theorem static_quarters_overflow (revenueData filtered : list row)
    (year : string) (revs : list number) :
  StaticCharts.filter_by_year year revenueData = Normal filtered →
  (λ item, get item "revenue_total") <$> filtered = JSNum <$> revs →
  (12 < length revs)%nat →
  ∃ totals : list value,
    quarterlyTotals revenueData year = Normal totals
    ∧ length totals = ((length revs + 2) / 3)%nat
    ∧ (4 < length totals)%nat
    ∧ ∀ k : nat, (4 ≤ k < length totals)%nat → totals !! k = Some (JSNum NaN).
Proof.
  intros Hf Hv Hlen.
  unfold StaticCharts.quarterlyTotals, StaticCharts.forEach_index.
  rewrite Hf, quarter_loop_values, Hv.
  destruct (quarter_loop_growth revs 0 (JSNum <$> [int 0; int 0; int 0; int 0]))
    as [Hl Hn]; [reflexivity | cbn [fmap list_fmap length]; intros; lia |].
  eexists. split; [reflexivity|]. cbn [Nat.add] in Hl.
  assert (Hmax : Nat.max 4 ((length revs + 2) / 3) = ((length revs + 2) / 3)%nat
                 ∧ (4 < (length revs + 2) / 3)%nat) by (clear -Hlen; div3; lia).
  destruct Hmax as [Hmax Hgt]. rewrite Hmax in Hl.
  split; [exact Hl|]. split; [by rewrite Hl|]. exact Hn.
Qed.
End StaticQuarters.


Lemma static_quarters_by_position_witness :
  StaticCharts.filter_by_year "2025"
    [StaticExamples.last_year; StaticExamples.april; StaticExamples.january] =
  Normal [StaticExamples.april; StaticExamples.january]
  ∧ (λ item, get item "revenue_total") <$> [StaticExamples.april; StaticExamples.january] =
    JSNum <$> [int 40; int 10]
  ∧ (length [int 40; int 10] ≤ 12)%nat
  ∧ StaticCharts.quarterlyTotals ExampleHost.NumberToString
      [StaticExamples.last_year; StaticExamples.april; StaticExamples.january] "2025" =
    Normal (JSNum <$> [int 50; int 0; int 0; int 0]).
Proof.
  assert (H1 : StaticCharts.filter_by_year "2025"
                 [StaticExamples.last_year; StaticExamples.april; StaticExamples.january] =
               Normal [StaticExamples.april; StaticExamples.january])
    by (vm_compute; reflexivity).
  assert (H2 : (λ item, get item "revenue_total")
                 <$> [StaticExamples.april; StaticExamples.january] =
               JSNum <$> [int 40; int 10]) by (vm_compute; reflexivity).
  assert (H3 : (length [int 40; int 10] ≤ 12)%nat) by (cbn; lia).
  repeat (split; [assumption|]).
  rewrite (proj1 (static_quarters_by_position ExampleHost.NumberToString _ _ "2025" _
                    H1 H2 H3)).
  f_equal. by_evaluation.
Defined.

Lemma static_quarters_overflow_witness :
  StaticCharts.filter_by_year "" (replicate 13 StaticExamples.january) =
  Normal (replicate 13 StaticExamples.january)
  ∧ (λ item, get item "revenue_total") <$> replicate 13 StaticExamples.january =
    JSNum <$> replicate 13 (int 10)
  ∧ (12 < length (replicate 13 (int 10)))%nat
  ∧ ∃ totals : list value,
      StaticCharts.quarterlyTotals ExampleHost.NumberToString
        (replicate 13 StaticExamples.january) "" = Normal totals
      ∧ length totals = ((length (replicate 13 (int 10)) + 2) / 3)%nat
      ∧ (4 < length totals)%nat
      ∧ ∀ k : nat, (4 ≤ k < length totals)%nat → totals !! k = Some (JSNum NaN).
Proof.
  assert (H1 : StaticCharts.filter_by_year "" (replicate 13 StaticExamples.january) =
               Normal (replicate 13 StaticExamples.january))
    by (vm_compute; reflexivity).
  assert (H2 : (λ item, get item "revenue_total") <$> replicate 13 StaticExamples.january =
               JSNum <$> replicate 13 (int 10)) by (vm_compute; reflexivity).
  assert (H3 : (12 < length (replicate 13 (int 10)))%nat) by (cbn; lia).
  repeat (split; [assumption|]).
  exact (static_quarters_overflow ExampleHost.NumberToString _ _ "" _ H1 H2 H3).
Defined.

(** ** The static page: which rows a year selects *)





(** ** The static page: the year selector *)

Lemma set_order_snoc (l : list value) (x : value) :
  StaticCharts.set_order (l ++ [x]) =
  if bool_decide (x ∈ StaticCharts.set_order l)
  then StaticCharts.set_order l
  else StaticCharts.set_order l ++ [x].
Proof. unfold StaticCharts.set_order. by rewrite foldl_app. Qed.

Lemma set_order_elem_of (l : list value) (x : value) :
  x ∈ StaticCharts.set_order l ↔ x ∈ l.
Proof.
  induction l as [|y l IH] using rev_ind; [reflexivity|].
  rewrite set_order_snoc, elem_of_app, list_elem_of_singleton.
  destruct (bool_decide (y ∈ StaticCharts.set_order l)) eqn:E.
  - apply bool_decide_eq_true_1 in E. rewrite IH.
    split; [tauto | intros [?| ->]; [done | by apply IH]].
  - rewrite elem_of_app, list_elem_of_singleton, IH. tauto.
Qed.

Lemma set_order_NoDup (l : list value) : NoDup (StaticCharts.set_order l).
Proof.
  induction l as [|y l IH] using rev_ind; [constructor|].
  rewrite set_order_snoc.
  destruct (bool_decide (y ∈ StaticCharts.set_order l)) eqn:E; [exact IH|].
  apply bool_decide_eq_false_1 in E.
  apply list.NoDup_app. split; [exact IH|]. split; [|apply NoDup_singleton].
  intros x Hx ->%list_elem_of_singleton. contradiction.
Qed.

Lemma List_filter_elem_of {A} (f : A → bool) (l : list A) (x : A) :
  x ∈ List.filter f l ↔ f x = true ∧ x ∈ l.
Proof. rewrite !list_elem_of_In, List.filter_In. tauto. Qed.

Lemma List_filter_NoDup {A} (f : A → bool) (l : list A) :
  NoDup l → NoDup (List.filter f l).
Proof.
  induction 1 as [|x l Hx Hl IH]; [constructor|].
  cbn [List.filter]. destruct (f x); [|exact IH].
  constructor; [|exact IH]. rewrite List_filter_elem_of. tauto.
Qed.

Section YearSelector.
Context (NumberToString : number → string).

Local Abbreviation printed_le := (StaticCharts.printed_le NumberToString).
Local Abbreviation insert_sorted := (StaticCharts.insert_sorted NumberToString).
Local Abbreviation js_sort := (StaticCharts.js_sort NumberToString).
Local Abbreviation selector_years := (StaticCharts.selector_years NumberToString).

Lemma printed_le_total (x y : value) : printed_le x y ∨ printed_le y x.
Proof. unfold StaticCharts.printed_le. apply (total String.le). Qed.

Lemma printed_le_trans (x y z : value) : printed_le x y → printed_le y z → printed_le x z.
Proof. unfold StaticCharts.printed_le. apply (transitivity (R := String.le)). Qed.

Lemma insert_sorted_Permutation (x : value) (l : list value) :
  insert_sorted x l ≡ₚ x :: l.
Proof.
  induction l as [|y l IH]; [reflexivity|]. cbn [StaticCharts.insert_sorted].
  destruct (bool_decide (printed_le x y)); [reflexivity|].
  rewrite IH. apply Permutation_swap.
Qed.

Lemma js_sort_Permutation (l : list value) : js_sort l ≡ₚ l.
Proof.
  induction l as [|x l IH]; [reflexivity|]. cbn [StaticCharts.js_sort foldr].
  fold (js_sort l). by rewrite insert_sorted_Permutation, IH.
Qed.

Lemma insert_sorted_HdRel (a x : value) (l : list value) :
  printed_le a x → HdRel printed_le a l → HdRel printed_le a (insert_sorted x l).
Proof.
  intros Hax Hl. destruct l as [|y l]; [by constructor|].
  cbn [StaticCharts.insert_sorted].
  destruct (bool_decide (printed_le x y)); constructor; [exact Hax|].
  by inversion Hl.
Qed.

Lemma insert_sorted_Sorted (x : value) (l : list value) :
  Sorted printed_le l → Sorted printed_le (insert_sorted x l).
Proof.
  induction 1 as [|y l Hl IH Hhd]; [by repeat constructor|].
  cbn [StaticCharts.insert_sorted].
  destruct (bool_decide (printed_le x y)) eqn:E.
  - apply bool_decide_eq_true_1 in E. by repeat constructor.
  - apply bool_decide_eq_false_1 in E.
    constructor; [exact IH|]. apply insert_sorted_HdRel; [|exact Hhd].
    by destruct (printed_le_total x y).
Qed.

Lemma js_sort_Sorted (l : list value) : Sorted printed_le (js_sort l).
Proof.
  induction l as [|x l IH]; [constructor|]. cbn [StaticCharts.js_sort foldr].
  by apply insert_sorted_Sorted.
Qed.

Lemma selector_years_elem_of (projectData : list row) (y : value) :
  y ∈ selector_years projectData ↔
  StaticCharts.not_nullish y = true ∧ ∃ project, project ∈ projectData ∧ get project "Year" = y.
Proof.
  unfold StaticCharts.selector_years.
  rewrite js_sort_Permutation, List_filter_elem_of, set_order_elem_of, list_elem_of_fmap.
  split; intros [Hn (p & Hp & Hy)]; (split; [exact Hn|]); exists p; by split.
Qed.

(** X22. The years offered by the selector of the static page are the Year
    values of the projects other than [null] and [undefined], each once,
    in the order of their printed form (so that the number 10 comes before
    the number 9). *)
Theorem selector_years_sorted_distinct (projectData : list row) (y : value) :
  Sorted printed_le (selector_years projectData)
  ∧ NoDup (selector_years projectData)
  ∧ (y ∈ selector_years projectData ↔
     StaticCharts.not_nullish y = true
     ∧ ∃ project, project ∈ projectData ∧ get project "Year" = y)
  ∧ StaticCharts.populateYearSelector NumberToString projectData =
    "all" :: (ToString NumberToString <$> selector_years projectData).
Proof.
  split; [apply js_sort_Sorted|]. split; [|split; [apply selector_years_elem_of|done]].
  unfold StaticCharts.selector_years.
  rewrite js_sort_Permutation. apply List_filter_NoDup, set_order_NoDup.
Qed.

(** X23. Every year of the selector that is truthy selects at least one
    project: when no status of the data is the name of an inherited
    property, the status chart drawn for the printed form of that year
    holds natural-number counts that add up to one or more. *)
Theorem selector_year_selects_a_project (FunctionToString : string → string)
    (projectData : list row) (y : value) :
  y ∈ selector_years projectData →
  truthy y = true →
  Forall (λ p, ordinary_key (status_of NumberToString p)) projectData →
  ∃ counts : gmap string nat,
    Script.createProjectStatusChart NumberToString FunctionToString projectData
      (ToString NumberToString y) = count_value <$> counts
    ∧ (1 ≤ total_count counts)%nat.
Proof.
  intros (_ & p & Hp & Hy)%selector_years_elem_of Ht Hord.
  set (keep := λ project : row,
         truthy (get project "Year") &&
         bool_decide (ToString NumberToString (get project "Year") =
                      ToString NumberToString y)).
  assert (Hsel : ∃ selected : list row,
            Script.createProjectStatusChart NumberToString FunctionToString projectData
              (ToString NumberToString y) =
            statusCounts NumberToString FunctionToString selected
            ∧ Forall (λ p, ordinary_key (status_of NumberToString p)) selected
            ∧ p ∈ selected).
  { unfold Script.createProjectStatusChart.
    destruct (bool_decide (ToString NumberToString y = "all")).
    - exists projectData. by split.
    - exists (List.filter keep projectData). split; [reflexivity|].
      split; [by apply Forall_List_filter|].
      apply List_filter_elem_of. split; [|exact Hp].
      unfold keep. rewrite Hy, Ht. by rewrite bool_decide_eq_true_2. }
  destruct Hsel as (selected & -> & Hsord & Hin).
  eexists. split; [by apply statusCounts_ordinary|].
  rewrite total_count_occurrences, length_fmap.
  destruct selected; [by apply elem_of_nil in Hin | cbn [length]; lia].
Qed.
End YearSelector.

Lemma selector_year_selects_a_project_witness :
  JSNum (int 2024) ∈ StaticCharts.selector_years ExampleHost.NumberToString
                       StaticExamples.projects
  ∧ truthy (JSNum (int 2024)) = true
  ∧ Forall (λ p, ordinary_key (status_of ExampleHost.NumberToString p))
           StaticExamples.projects
  ∧ ∃ counts : gmap string nat,
      Script.createProjectStatusChart ExampleHost.NumberToString
        ExampleHost.FunctionToString StaticExamples.projects
        (ToString ExampleHost.NumberToString (JSNum (int 2024))) = count_value <$> counts
      ∧ (1 ≤ total_count counts)%nat.
Proof.
  assert (H1 : JSNum (int 2024) ∈ StaticCharts.selector_years ExampleHost.NumberToString
                                    StaticExamples.projects) by by_evaluation.
  assert (H2 : truthy (JSNum (int 2024)) = true) by (vm_compute; reflexivity).
  assert (H3 : Forall (λ p, ordinary_key (status_of ExampleHost.NumberToString p))
                      StaticExamples.projects) by by_evaluation.
  repeat (split; [assumption|]).
  exact (selector_year_selects_a_project ExampleHost.NumberToString
           ExampleHost.FunctionToString StaticExamples.projects (JSNum (int 2024))
           H1 H2 H3).
Defined.
